(** * File-to-stream: the byte-range streaming core

    A shallow embedding of the streaming proxy of this repository:
    - [src/webserver.py]: [ByteStreamer.yield_file] and the [/dl] route
      [stream_handler];
    - [src/app.py]: the single-file variant of the same two functions
      ([ByteStreamer.yield_file], [stream_media]);
    - [src/bot.py]: the registration of sessions in [work_loads].

    Python integers are unbounded, so they are [Z]; [bytes] values are
    [list byte]; a [dict] whose iteration order is observed ([work_loads],
    the header dictionary) is an association list in insertion order, a
    [dict] that is only looked up ([multi_clients], [media_sessions]) is a
    [gmap].  Exceptions are values of [exn] carried by the [result] monad. *)

From Stdlib Require Import ZArith Lia Ascii String QArith Qround.
From Stdlib.Strings Require Import Byte.
From Stdlib.Structures Require OrderedTypeEx.
From stdpp Require Import gmap strings list pretty sorting.

Local Open Scope Z_scope.

(* ===================================================================== *)
(** ** Exceptions and the error monad *)
(* ===================================================================== *)

(** The exception classes the two modules can see.  [CancelledError] and
    [GeneratorExit] derive from [BaseException] only; every other class
    derives from [Exception] ([UnboundLocalError] through [NameError]). *)
Inductive exn : Type :=
| HTTPException (status_code : Z)
| FileNotFoundError
| ValueError
| KeyError
| NameError (name : string)
| UnboundLocalError (name : string)
| RPCError (code : Z)
| CancelledError
| GeneratorExit.

(** [isinstance(e, Exception)]: what an [except Exception] clause catches. *)
Definition is_Exception (e : exn) : bool :=
  match e with
  | CancelledError | GeneratorExit => false
  | _ => true
  end.

Inductive result (A : Type) : Type :=
| Ok (a : A)
| Raise (e : exn).
Arguments Ok {A} a.
Arguments Raise {A} e.

#[global] Instance result_ret : MRet result := fun _ a => Ok a.

#[global] Instance result_bind : MBind result := fun _ _ k r =>
  match r with
  | Ok a => k a
  | Raise e => Raise e
  end.

(* ===================================================================== *)
(** ** Python built-ins used by the handlers *)
(* ===================================================================== *)

Module Py.

(** *** [str.replace(old, new)]

    Left to right, non-overlapping.  [skip] counts the characters of a
    matched occurrence of [old] that are still to be dropped, which keeps
    the recursion structural. *)
Fixpoint is_prefix (p s : string) : bool :=
  match p, s with
  | EmptyString, _ => true
  | String a p', String b s' => if Ascii.eqb a b then is_prefix p' s' else false
  | String _ _, EmptyString => false
  end.

Fixpoint replace_from (old new : string) (skip : nat) (s : string) : string :=
  match s with
  | EmptyString => EmptyString
  | String c s' =>
      match skip with
      | S k => replace_from old new k s'
      | O =>
          if is_prefix old s
          then String.app new (replace_from old new (Nat.pred (String.length old)) s')
          else String c (replace_from old new O s')
      end
  end.

(** For a non-empty [old], as in [replace("bytes=", "")]. *)
Definition replace (old new s : string) : string := replace_from old new O s.

(** *** [str.split(sep)] for a one-character separator.

    The result is never empty: a string without the separator is a
    one-element list. *)
Fixpoint split (sep : ascii) (s : string) : list string :=
  match s with
  | EmptyString => [EmptyString]
  | String c s' =>
      if Ascii.eqb c sep then EmptyString :: split sep s'
      else match split sep s' with
           | hd :: tl => String c hd :: tl
           | [] => [String c EmptyString]
           end
  end.

(** *** [int(s)] on a string of code points below 256, as header values
    are.

    Surrounding whitespace is skipped, one sign is allowed, and the
    decimal digits may be grouped by single underscores.  Anything else
    raises [ValueError], and so do more than 4300 digits.  The whitespace
    that [int] skips is [is_int_space]: the space, the controls 9 to 13 and
    the code points 133 and 160.  [is_space] is the whitespace that
    [str.rstrip] removes, which has the controls 28 to 31 as well. *)
Definition is_space (c : ascii) : bool :=
  let n := nat_of_ascii c in
  orb (Nat.eqb n 32)
    (orb (andb (Nat.leb 9 n) (Nat.leb n 13))
       (orb (andb (Nat.leb 28 n) (Nat.leb n 31))
          (orb (Nat.eqb n 133) (Nat.eqb n 160)))).

Definition is_int_space (c : ascii) : bool :=
  let n := nat_of_ascii c in
  orb (Nat.eqb n 32)
    (orb (andb (Nat.leb 9 n) (Nat.leb n 13))
       (orb (Nat.eqb n 133) (Nat.eqb n 160))).

Definition digit_value (c : ascii) : option Z :=
  let n := nat_of_ascii c in
  if andb (Nat.leb 48 n) (Nat.leb n 57) then Some (Z.of_nat n - 48) else None.

Fixpoint lstrip_by (space : ascii -> bool) (s : string) : string :=
  match s with
  | String c s' => if space c then lstrip_by space s' else s
  | EmptyString => EmptyString
  end.

Fixpoint rstrip_by (space : ascii -> bool) (s : string) : string :=
  match s with
  | EmptyString => EmptyString
  | String c s' =>
      match rstrip_by space s' with
      | EmptyString => if space c then EmptyString else String c EmptyString
      | t => String c t
      end
  end.

(** [s.rstrip()]. *)
Definition rstrip (s : string) : string := rstrip_by is_space s.

(** [digits acc after_digit s]: [after_digit] tells whether the previous
    character was a digit, the only place where an underscore may stand. *)
Fixpoint digits (acc : Z) (after_digit : bool) (s : string) : option Z :=
  match s with
  | EmptyString => if after_digit then Some acc else None
  | String c s' =>
      match digit_value c with
      | Some d => digits (10 * acc + d) true s'
      | None =>
          if andb (Ascii.eqb c "_"%char) after_digit
          then match s' with
               | EmptyString => None
               | String c' _ =>
                   match digit_value c' with
                   | Some _ => digits acc false s'
                   | None => None
                   end
               end
          else None
      end
  end.

Fixpoint count_digits (s : string) : nat :=
  match s with
  | EmptyString => O
  | String c s' =>
      match digit_value c with
      | Some _ => S (count_digits s')
      | None => count_digits s'
      end
  end.

(** [sys.int_info.default_max_str_digits]. *)
Definition max_str_digits : nat := 4300.

Definition int (s : string) : result Z :=
  let body (sign : Z) (t : string) : result Z :=
    if Nat.ltb max_str_digits (count_digits t) then Raise ValueError
    else match digits 0 false t with
         | Some n => Ok (sign * n)
         | None => Raise ValueError
         end in
  match rstrip_by is_int_space (lstrip_by is_int_space s) with
  | String c t =>
      if Ascii.eqb c "-"%char then body (-1) t
      else if Ascii.eqb c "+"%char then body 1 t
      else body 1 (String c t)
  | EmptyString => Raise ValueError
  end.

(** [str(n)] for an integer. *)
Definition str (n : Z) : string := pretty n.

(** Truth value of a string: only the empty string is false. *)
Definition truthy (s : string) : bool :=
  match s with
  | EmptyString => false
  | String _ _ => true
  end.

(** [math.ceil(a / b)] for a positive [b].  The source rounds the quotient
    to a float before it takes the ceiling.  For [b <= 2^53] and
    [-2^53 <= a <= 2^53] the rounding never reaches or crosses an integer
    that the quotient itself does not reach: the distance of a quotient
    that is no integer to the next integers is at least [1/b], more than
    half the gap between neighbouring floats there.  In this range the
    ceiling of the float is the ceiling of the quotient, which is what
    [ceil_div] computes; beyond it the two differ, and the statements
    about the part count of arbitrary requests are made within it. *)
Definition ceil_div (a b : Z) : Z := - ((- a) / b).

(** *** Slices [l[lo:hi]] with step 1.

    A missing bound is [None].  A negative bound counts from the end; every
    bound is clamped to [0..len(l)]. *)
Definition clamp {A} (l : list A) (i : Z) : Z :=
  let n := Z.of_nat (length l) in
  if i <? 0 then Z.max 0 (i + n) else Z.min i n.

Definition slice {A} (lo hi : option Z) (l : list A) : list A :=
  let a := match lo with Some i => clamp l i | None => 0 end in
  let b := match hi with Some i => clamp l i | None => Z.of_nat (length l) end in
  take (Z.to_nat (b - a)) (drop (Z.to_nat a) l).

(** *** Dictionaries in insertion order *)
Section Dict.
Context {V : Type}.

Fixpoint get (k : Z) (d : list (Z * V)) : option V :=
  match d with
  | [] => None
  | (k', v) :: d' => if Z.eqb k k' then Some v else get k d'
  end.

(** [d[k] = v]: an existing key keeps its place, a new key goes last. *)
Fixpoint set (k : Z) (v : V) (d : list (Z * V)) : list (Z * V) :=
  match d with
  | [] => [(k, v)]
  | (k', v') :: d' =>
      if Z.eqb k k' then (k, v) :: d' else (k', v') :: set k v d'
  end.

Definition keys (d : list (Z * V)) : list Z := map fst d.
End Dict.

(** [min(d, key=d.get, default=dflt)]: the keys are visited in insertion
    order and a later key replaces the current best only when its value
    is strictly smaller. *)
Fixpoint min_scan (best : Z) (best_val : Z) (d : list (Z * Z)) : Z :=
  match d with
  | [] => best
  | (k, v) :: d' =>
      if v <? best_val then min_scan k v d' else min_scan best best_val d'
  end.

Definition min_by_value (d : list (Z * Z)) (dflt : Z) : Z :=
  match d with
  | [] => dflt
  | (k, v) :: d' => min_scan k v d'
  end.

End Py.

(* ===================================================================== *)
(** ** Telegram objects and the external collaborators *)
(* ===================================================================== *)

Abbreviation bytes := (list Byte.byte).

(** [pyrogram.file_id.FileId], the fields the streamer reads. *)
Record FileId := {
  dc_id : Z;
  media_id : Z;
  access_hash : Z;
  file_reference : bytes;
  thumbnail_size : string
}.

Record InputDocumentFileLocation := {
  loc_id : Z;
  loc_access_hash : Z;
  loc_file_reference : bytes;
  loc_thumb_size : string
}.

(** [raw.functions.upload.GetFile(location, offset, limit)]. *)
Record GetFile := {
  location : InputDocumentFileLocation;
  offset : Z;
  limit : Z
}.

(** What a [GetFile] call answers: [raw.types.upload.File] with its
    [bytes], or a reply of another class. *)
Inductive rpc_reply : Type :=
| upload_File (data : bytes)
| upload_FileCdnRedirect.

(** [client.session], or a media session opened for a datacenter. *)
Inductive session : Type :=
| ClientSession
| MediaSession (dc : Z).

(** The media of a stored message.  [file_id] holds the outcome of
    [FileId.decode(media.file_id)]; [mime_type] and [file_name] may be
    [None]. *)
Record Media := {
  file_id : result FileId;
  file_size : Z;
  mime_type : option string;
  file_name : option string
}.

Record Message := {
  document : option Media;
  video : option Media;
  audio : option Media;
  empty : bool
}.

(** One Telegram client as the streamer uses it.  Every operation is an
    awaited call into the client library and may raise.  [send ms req n]
    is the answer to the request [req] on session [ms] when [n] requests
    were issued before it. *)
Record Client := {
  get_messages : Z -> result Message;
  storage_dc_id : result Z;
  create_media_session : Z -> result session;
  send : session -> GetFile -> nat -> result rpc_reply
}.

(* ===================================================================== *)
(** ** The shared state *)
(* ===================================================================== *)

(** The ghost log records the updates of the load counter and the backend
    requests, in program order. *)
Inductive event : Type :=
| EvIncr (index : Z)
| EvDecr (index : Z)
| EvFetch (ms : session) (req : GetFile).

(** [work_loads] is the module-level dictionary of [bot.py];
    [media_sessions] is [client.media_sessions] of the streaming client.
    The source keeps one such cache in every client; a world has one, so
    it describes the runs of the streams of one client. *)
Record world := {
  work_loads : list (Z * Z);
  media_sessions : gmap Z session;
  log : list event
}.

Definition fetches (l : list event) : list GetFile :=
  omap (fun e => match e with EvFetch _ r => Some r | _ => None end) l.

Definition is_incr (index : Z) (e : event) : bool :=
  match e with EvIncr i => i =? index | _ => false end.

Definition is_decr (index : Z) (e : event) : bool :=
  match e with EvDecr i => i =? index | _ => false end.

Definition count_incr (index : Z) (l : list event) : nat :=
  length (List.filter (is_incr index) l).

Definition count_decr (index : Z) (l : list event) : nat :=
  length (List.filter (is_decr index) l).

(** [work_loads[index] += delta]; a missing key raises [KeyError]. *)
Definition adjust_load (index delta : Z) (ev : event) (w : world) : result world :=
  match Py.get index (work_loads w) with
  | Some v =>
      Ok {| work_loads := Py.set index (v + delta) (work_loads w);
            media_sessions := media_sessions w;
            log := log w ++ [ev] |}
  | None => Raise KeyError
  end.

Definition load (index : Z) (w : world) : option Z := Py.get index (work_loads w).

(* ===================================================================== *)
(** ** [ByteStreamer.yield_file] *)
(* ===================================================================== *)

(** The arguments of one call, [webserver.py] line 60 ([app.py] line 76:
    [f, i, o, fc, lc, pc, cs]). *)
Record yield_args := {
  ya_file_id : FileId;
  index : Z;
  start_offset : Z;
  first_part_cut : Z;
  last_part_cut : Z;
  part_count : Z;
  chunk_size : Z
}.

(** Where the body of the asynchronous generator stands: not yet entered,
    suspended at one of the [yield]s of the loop (inside the [try]) with
    its locals, or finished. *)
Inductive frame : Type :=
| NotStarted
| AtYield (media_session : session) (loc : InputDocumentFileLocation)
          (current_part : Z) (cur_offset : Z)
| Finished.

Record generator := {
  gen_client : Client;
  gen_args : yield_args;
  gen_frame : frame
}.

(** What one [__anext__] gives the consumer; [Completed] is an [athrow]
    or [aclose] that returns [None]. *)
Inductive outcome : Type :=
| Yield (chunk : bytes)
| StopAsyncIteration
| Raised (e : exn)
| Completed.

Definition get_location (f : FileId) : InputDocumentFileLocation :=
  {| loc_id := media_id f;
     loc_access_hash := access_hash f;
     loc_file_reference := file_reference f;
     loc_thumb_size := thumbnail_size f |}.

(** Lines 64-70 of [webserver.py]: the cached media session of the file's
    datacenter, or a new one.  [app.py] lines 77-82 open the session by an
    authorisation exchange of several awaited calls, taken here as the one
    fallible [create_media_session]. *)
Definition acquire_media_session (c : Client) (f : FileId) (w : world)
  : result (session * world) :=
  match media_sessions w !! dc_id f with
  | Some ms => Ok (ms, w)
  | None =>
      dc ← storage_dc_id c;
      ms ← (if bool_decide (dc_id f ≠ dc)
            then create_media_session c (dc_id f)
            else Ok ClientSession);
      Ok (ms, {| work_loads := work_loads w;
                 media_sessions := <[dc_id f := ms]> (media_sessions w);
                 log := log w |})
  end.

(** The [finally] clause: [work_loads[index] -= 1], then the pending
    outcome goes on. *)
Definition release (a : yield_args) (pending : outcome) (w : world)
  : outcome * frame * world :=
  match adjust_load (index a) (-1) (EvDecr (index a)) w with
  | Ok w' => (pending, Finished, w')
  | Raise e => (Raised e, Finished, w)
  end.

(** The part of the fetched chunk that is yielded, lines 84-87. *)
Definition cut (a : yield_args) (current_part : Z) (chunk : bytes) : bytes :=
  if part_count a =? 1 then
    Py.slice (Some (first_part_cut a)) (Some (last_part_cut a)) chunk
  else if current_part =? 1 then
    Py.slice (Some (first_part_cut a)) None chunk
  else if current_part =? part_count a then
    Py.slice None (Some (last_part_cut a)) chunk
  else chunk.

(** The [while] loop from its test to the next suspension or exit,
    lines 76-93.  Each turn either yields or leaves the loop, so one
    [__anext__] runs at most one turn. *)
Definition loop_turn (c : Client) (a : yield_args) (ms : session)
    (loc : InputDocumentFileLocation) (current_part off : Z) (w : world)
  : outcome * frame * world :=
  if current_part <=? part_count a then
    let req := {| location := loc; offset := off; limit := chunk_size a |} in
    let w1 := {| work_loads := work_loads w;
                 media_sessions := media_sessions w;
                 log := log w ++ [EvFetch ms req] |} in
    match send c ms req (length (fetches (log w))) with
    | Raise e => release a (Raised e) w1
    | Ok (upload_File chunk) =>
        match chunk with
        | [] => release a StopAsyncIteration w1
        | _ :: _ => (Yield (cut a current_part chunk),
                     AtYield ms loc current_part off, w1)
        end
    | Ok upload_FileCdnRedirect => release a StopAsyncIteration w1
    end
  else release a StopAsyncIteration w.

(** [await gen.__anext__()]. *)
Definition anext (g : generator) (w : world) : outcome * generator * world :=
  let c := gen_client g in
  let a := gen_args g in
  let ret (r : outcome * frame * world) :=
    (r.1.1, {| gen_client := c; gen_args := a; gen_frame := r.1.2 |}, r.2) in
  match gen_frame g with
  | NotStarted =>
      match adjust_load (index a) 1 (EvIncr (index a)) w with
      | Raise e => ret (Raised e, Finished, w)
      | Ok w1 =>
          match acquire_media_session c (ya_file_id a) w1 with
          | Raise e => ret (Raised e, Finished, w1)
          | Ok (ms, w2) =>
              ret (loop_turn c a ms (get_location (ya_file_id a)) 1 (start_offset a) w2)
          end
      end
  | AtYield ms loc current_part off =>
      ret (loop_turn c a ms loc (current_part + 1) (off + chunk_size a) w)
  | Finished => (StopAsyncIteration, g, w)
  end.

(** [await gen.athrow(e)]: the exception is raised at the point of
    suspension and leaves through the [finally] clause.  A generator that
    was never entered has no frame to unwind: the exception comes straight
    back and the generator is finished.  On a finished generator the call
    does nothing and returns [None]. *)
Definition athrow (e : exn) (g : generator) (w : world) : outcome * generator * world :=
  match gen_frame g with
  | AtYield _ _ _ _ =>
      let r := release (gen_args g) (Raised e) w in
      (r.1.1, {| gen_client := gen_client g; gen_args := gen_args g;
                 gen_frame := r.1.2 |}, r.2)
  | NotStarted => (Raised e, {| gen_client := gen_client g; gen_args := gen_args g;
                                gen_frame := Finished |}, w)
  | Finished => (Completed, {| gen_client := gen_client g; gen_args := gen_args g;
                               gen_frame := Finished |}, w)
  end.

(** [await gen.aclose()]: [GeneratorExit] is thrown in and swallowed. *)
Definition aclose (g : generator) (w : world) : generator * world :=
  let r := athrow GeneratorExit g w in (r.1.2, r.2).

(** The consumer: at most [n] calls of [__anext__], stopping at the first
    that does not yield.  The result is the chunks received, the outcome
    of the last call when it was not a yield, and the generator and world
    left behind. *)
Fixpoint pull (n : nat) (g : generator) (w : world)
  : list bytes * option outcome * generator * world :=
  match n with
  | O => ([], None, g, w)
  | S n' =>
      match anext g w with
      | (Yield chunk, g', w') =>
          let r := pull n' g' w' in
          (chunk :: r.1.1.1, r.1.1.2, r.1.2, r.2)
      | (o, g', w') => ([], Some o, g', w')
      end
  end.

(** A consumer that takes at most [n] chunks and then closes the
    generator, as the transport does when the client goes away. *)
Definition pull_then_close (n : nat) (g : generator) (w : world)
  : list bytes * option outcome * generator * world :=
  let r := pull n g w in
  let c := aclose r.1.2 r.2 in
  (r.1.1.1, r.1.1.2, c.1, c.2).

(** The byte count of the chunks a consumer received. *)
Definition total_bytes (chunks : list bytes) : Z :=
  foldr (fun c acc => Z.of_nat (length c) + acc) 0 chunks.

(* ===================================================================== *)
(** ** The [/dl] route *)
(* ===================================================================== *)

(** [request.headers.get("Range", 0)]: [None] stands for the default [0]. *)
Record Request := {
  range_header : option string
}.

Definition header_truthy (h : option string) : bool :=
  match h with
  | Some s => Py.truthy s
  | None => false
  end.

Record StreamingResponse := {
  content : generator;
  status_code : Z;
  headers : list (string * string)
}.

(** The fetch plan of a request: the arguments 3 to 6 of [yield_file]. *)
Record plan := {
  plan_offset : Z;
  plan_first_part_cut : Z;
  plan_last_part_cut : Z;
  plan_part_count : Z
}.

(** [x or default] for a string that may be [None]. *)
Definition or_default (o : option string) (default : string) : string :=
  match o with
  | Some s => if Py.truthy s then s else default
  | None => default
  end.

(** An optional string inside an f-string. *)
Definition fmt (o : option string) : string :=
  match o with
  | Some s => s
  | None => "None"
  end.

Definition dquote : string := String (ascii_of_nat 34) EmptyString.

Definition content_range (from_bytes until_bytes file_size : Z) : string :=
  "bytes " +:+ Py.str from_bytes +:+ "-" +:+ Py.str until_bytes +:+ "/" +:+ Py.str file_size.

Definition content_disposition (m : Media) : string :=
  "inline; filename=" +:+ dquote +:+ fmt (file_name m) +:+ dquote.

(** [message.document or message.video or message.audio]. *)
Definition first_media (m : Message) : option Media :=
  match document m with
  | Some x => Some x
  | None => match video m with
            | Some x => Some x
            | None => audio m
            end
  end.

Definition new_generator (c : Client) (f : FileId) (index : Z) (p : plan)
    (chunk_size : Z) : generator :=
  {| gen_client := c;
     gen_args := {| ya_file_id := f; index := index;
                    start_offset := plan_offset p;
                    first_part_cut := plan_first_part_cut p;
                    last_part_cut := plan_last_part_cut p;
                    part_count := plan_part_count p;
                    chunk_size := chunk_size |};
     gen_frame := NotStarted |}.

(** *** [webserver.py] *)
Module Webserver.

(** Lines 160-163. *)
Definition parse_range (h : string) (file_size : Z) : result (Z * Z) :=
  match Py.split "-" (Py.replace "bytes=" "" h) with
  | [from_bytes_str; until_bytes_str] =>
      from_bytes ← Py.int from_bytes_str;
      until_bytes ← (if Py.truthy until_bytes_str
                     then Py.int until_bytes_str
                     else Ok (file_size - 1));
      Ok (from_bytes, until_bytes)
  | _ => Raise ValueError
  end.

(** Lines 157-163: the whole file unless a range header is there. *)
Definition requested_range (request : Request) (file_size : Z) : result (Z * Z) :=
  if header_truthy (range_header request)
  then parse_range (default "" (range_header request)) file_size
  else Ok (0, file_size - 1).

(** Lines 170-173, with [chunk_size] as a parameter and
    [req_length = until_bytes - from_bytes + 1] of line 169 unfolded. *)
Definition range_plan (chunk_size from_bytes until_bytes : Z) : plan :=
  let req_length := until_bytes - from_bytes + 1 in
  let offset := from_bytes - (from_bytes `mod` chunk_size) in
  {| plan_offset := offset;
     plan_first_part_cut := from_bytes - offset;
     plan_last_part_cut := (until_bytes `mod` chunk_size) + 1;
     plan_part_count := Py.ceil_div req_length chunk_size |}.

(** Lines 168-187: the plan, the body and the response. *)
Definition respond (client : Client) (index : Z) (request : Request) (media : Media)
    (file_id : FileId) (from_bytes until_bytes : Z) : StreamingResponse :=
  let file_size := file_size media in
  let chunk_size := 1024 * 1024 in
  let req_length := until_bytes - from_bytes + 1 in
  let p := range_plan chunk_size from_bytes until_bytes in
  let body := new_generator client file_id index p chunk_size in
  {| content := body;
     status_code := if header_truthy (range_header request) then 206 else 200;
     headers :=
       [("Content-Type", or_default (mime_type media) "application/octet-stream");
        ("Content-Range", content_range from_bytes until_bytes file_size);
        ("Content-Length", Py.str req_length);
        ("Accept-Ranges", "bytes");
        ("Content-Disposition", content_disposition media)]%string |}.

(** The body of the [try], lines 149-187.  The test of line 150 fails when
    none of the three media is set or the message is empty; the media picked
    on line 153 is then the first one set. *)
Definition stream_handler_try (client : Client) (index : Z) (request : Request)
    (msg_id : Z) : result StreamingResponse :=
  message ← get_messages client msg_id;
  match first_media message with
  | None => Raise FileNotFoundError
  | Some media =>
      if empty message then Raise FileNotFoundError
      else
        file_id ← file_id media;
        '(from_bytes, until_bytes) ← requested_range request (file_size media);
        if (until_bytes >=? file_size media) || (from_bytes <? 0)
        then Raise (HTTPException 416)
        else Ok (respond client index request media file_id from_bytes until_bytes)
  end.

(** Lines 136-192.  [traceback] is not imported by [webserver.py], so the
    [except Exception] clause stops at its [print] with a [NameError]. *)
Definition stream_handler (work_loads : list (Z * Z)) (multi_clients : gmap Z Client)
    (request : Request) (msg_id : Z) : result StreamingResponse :=
  let index := Py.min_by_value work_loads 0 in
  match multi_clients !! index with
  | None => Raise (HTTPException 503)
  | Some client =>
      match stream_handler_try client index request msg_id with
      | Ok response => Ok response
      | Raise FileNotFoundError => Raise (HTTPException 404)
      | Raise e => if is_Exception e then Raise (NameError "traceback") else Raise e
      end
  end.

End Webserver.

(** *** [app.py] *)
Module App.

(** Line 120. *)
Definition range_plan (cs fb ub : Z) : plan :=
  let rl := ub - fb + 1 in
  let off := (fb `div` cs) * cs in
  {| plan_offset := off;
     plan_first_part_cut := fb - off;
     plan_last_part_cut := (ub `mod` cs) + 1;
     plan_part_count := Py.ceil_div rl cs |}.

(** Line 117: the two assignments under [if rh].  The second component is
    the local [ubs], [None] while it is unbound. *)
Definition parse_range (rh : option string) : result (Z * option string) :=
  if header_truthy rh then
    match Py.split "-" (Py.replace "bytes=" "" (default "" rh)) with
    | [fbs; ubs] => fb ← Py.int fbs; Ok (fb, Some ubs)
    | _ => Raise ValueError
    end
  else Ok (0, None).

(** Lines 116-118.  [if ubs] stands outside the [if rh], so it reads
    [ubs] also when no range header bound it. *)
Definition requested_range (r : Request) (fsize : Z) : result (Z * Z) :=
  '(fb, ubs) ← parse_range (range_header r);
  ub ← match ubs with
       | None => Raise (UnboundLocalError "ubs")
       | Some s => if Py.truthy s then Py.int s else Ok (fsize - 1)
       end;
  Ok (fb, ub).

(** Lines 120-124: the plan, the body and the response. *)
Definition respond (c : Client) (i : Z) (r : Request) (m : Media) (fid : FileId)
    (fb ub : Z) : StreamingResponse :=
  let fsize := file_size m in
  let rh := range_header r in
  let rl := ub - fb + 1 in
  let cs := 1024 * 1024 in
  let p := range_plan cs fb ub in
  let body := new_generator c fid i p cs in
  let sc := if header_truthy rh then 206 else 200 in
  let hdrs :=
    [("Content-Type", or_default (mime_type m) "application/octet-stream");
     ("Accept-Ranges", "bytes");
     ("Content-Disposition", content_disposition m);
     ("Content-Length", Py.str rl)]%string in
  let hdrs := if header_truthy rh
              then hdrs ++ [("Content-Range"%string, content_range fb ub fsize)]
              else hdrs in
  {| content := body; status_code := sc; headers := hdrs |}.

(** The body of the [try], lines 114-124. *)
Definition stream_media_try (c : Client) (i : Z) (r : Request) (mid : Z)
  : result StreamingResponse :=
  msg ← get_messages c mid;
  match first_media msg with
  | None => Raise FileNotFoundError
  | Some m =>
      if empty msg then Raise FileNotFoundError
      else
        fid ← file_id m;
        '(fb, ub) ← requested_range r (file_size m);
        if (ub >=? file_size m) || (fb <? 0)
        then Raise (HTTPException 416)
        else Ok (respond c i r m fid fb ub)
  end.

(** Lines 109-126. *)
Definition stream_media (work_loads : list (Z * Z)) (multi_clients : gmap Z Client)
    (r : Request) (mid : Z) : result StreamingResponse :=
  let i := Py.min_by_value work_loads 0 in
  match multi_clients !! i with
  | None => Raise (HTTPException 503)
  | Some c =>
      match stream_media_try c i r mid with
      | Ok response => Ok response
      | Raise FileNotFoundError => Raise (HTTPException 404)
      | Raise e => if is_Exception e then Raise (HTTPException 500) else Raise e
      end
  end.

End App.

(** The status line the framework sends for a route's result: the status of
    the response, the status of an [HTTPException], and 500 for any other
    exception that leaves the route. *)
Definition http_status (r : result StreamingResponse) : Z :=
  match r with
  | Ok response => status_code response
  | Raise (HTTPException s) => s
  | Raise _ => 500
  end.

(** The value stored under a key of the header dictionary. *)
Definition header (name : string) (r : StreamingResponse) : option string :=
  snd <$> List.find (fun kv => String.eqb (fst kv) name) (headers r).

(** A backend that serves the bytes of one file: a request answers with
    the [limit] bytes at [offset], fewer at the end of the file and none
    beyond it. *)
Definition file_chunk (data : bytes) (off lim : Z) : bytes :=
  take (Z.to_nat lim) (drop (Z.to_nat off) data).

Definition file_backend (data : bytes) : session -> GetFile -> nat -> result rpc_reply :=
  fun _ req _ => Ok (upload_File (file_chunk data (offset req) (limit req))).

(** A client whose storage channel holds one message and whose backend
    serves [data]. *)
Definition file_client (m : Message) (data : bytes) : Client :=
  {| get_messages := fun _ => Ok m;
     storage_dc_id := Ok 2;
     create_media_session := fun dc => Ok (MediaSession dc);
     send := file_backend data |}.

(** Consumer operations on a generator, for runs that are not a plain
    sequence of [__anext__] calls. *)
Inductive op : Type :=
| Next
| Throw (e : exn)
| Close.

Definition step (o : op) (s : generator * world) : generator * world :=
  match o with
  | Next => let r := anext s.1 s.2 in (r.1.2, r.2)
  | Throw e => let r := athrow e s.1 s.2 in (r.1.2, r.2)
  | Close => aclose s.1 s.2
  end.

Definition run (ops : list op) (g : generator) (w : world) : generator * world :=
  foldl (fun s o => step o s) (g, w) ops.

(* ===================================================================== *)
(** ** [bot.py]: the client registry and the size label *)
(* ===================================================================== *)

Module Bot.

(** The order of [sorted(os.environ.items())]: the items are pairs of
    strings, compared as tuples, each string code point by code point. *)
Definition item_leb (x y : string * string) : bool :=
  match String.compare x.1 y.1 with
  | Lt => true
  | Eq => String.leb x.2 y.2
  | Gt => false
  end.

Definition item_le (x y : string * string) : Prop := item_leb x y = true.

#[global] Instance item_le_dec : RelDecision item_le :=
  fun x y => decide (item_leb x y = true).

(** [TokenParser.parse_from_env], lines 34-40, on the items of
    [os.environ].  The result is a dictionary built in the order of the
    enumeration. *)
Definition parse_from_env (environ : list (string * string)) : list (Z * string) :=
  imap (fun c nt => (Z.of_nat c + 1, nt.2))
    (filter (fun n : string * string => Py.is_prefix "MULTI_TOKEN" n.1)
       (merge_sort item_le environ)).

(** The two module-level dictionaries, lines 18-19. *)
Record registry := {
  multi_clients : gmap Z Client;
  work_loads : list (Z * Z)
}.

Definition empty_registry : registry :=
  {| multi_clients := ∅; work_loads := [] |}.

(** The awaited calls of the start-up: the ping of the storage channel
    (a message sent and deleted, lines 65-66), [Client(...).start()] for an
    extra client, and the [asyncio.sleep] after the client [i]. *)
Record startup := {
  ping : result unit;
  start : Z -> string -> result Client;
  sleep : Z -> result unit
}.

(** [start_client], lines 43-54.  The second component is the exception
    that leaves the function, if any: the [except Exception] clause only
    prints. *)
Definition start_client (env : startup) (client_id : Z) (bot_token : string)
    (s : registry) : registry * option exn :=
  match start env client_id bot_token with
  | Ok client =>
      ({| multi_clients := <[client_id := client]> (multi_clients s);
          work_loads := Py.set client_id 0 (work_loads s) |}, None)
  | Raise e => (s, if is_Exception e then None else Some e)
  end.

(** The loop of lines 78-80. *)
Fixpoint start_all (env : startup) (all_tokens : list (Z * string)) (s : registry)
  : registry * option exn :=
  match all_tokens with
  | [] => (s, None)
  | (i, token) :: rest =>
      match start_client env i token s with
      | (s1, Some e) => (s1, Some e)
      | (s1, None) =>
          match sleep env i with
          | Raise e => (s1, Some e)
          | Ok _ => start_all env rest s1
          end
      end
  end.

(** [initialize_clients], lines 57-83. *)
Definition initialize_clients (env : startup) (environ : list (string * string))
    (main_bot_instance : Client) (s : registry) : registry * option exn :=
  let s0 := {| multi_clients := <[0 := main_bot_instance]> (multi_clients s);
               work_loads := Py.set 0 0 (work_loads s) |} in
  match ping env with
  | Raise e => (s0, if is_Exception e then None else Some e)
  | Ok _ =>
      let all_tokens := parse_from_env environ in
      match all_tokens with
      | [] => (s0, None)
      | _ :: _ => start_all env all_tokens s0
      end
  end.

(** *** [get_readable_file_size], lines 87-93 ([app.py] lines 33-37 are the
    same text).

    The first division turns [size_in_bytes] into a float.  The values are
    kept as exact rationals here: the conversion of an integer below [2^53]
    is exact and so is every division by 1024.  From [2^53] on the source
    rounds, and for still larger integers its division overflows; the
    statements about the label are made for sizes below [2^53]. *)
Definition power_labels : list (Z * string) :=
  [(0, ""); (1, "K"); (2, "M"); (3, "G")]%string.

(** The [while] loop of line 91, at most [fuel] turns. *)
Fixpoint scale (fuel : nat) (size_in_bytes : Q) (n : Z) : Q * Z :=
  match fuel with
  | O => (size_in_bytes, n)
  | S fuel' =>
      if Qle_bool 1024%Q size_in_bytes && (n <? Z.of_nat (length power_labels))
      then scale fuel' (size_in_bytes / 1024)%Q (n + 1)
      else (size_in_bytes, n)
  end.

(** Rounding to the nearest integer, ties to the even one. *)
Definition round_half_even (x : Q) : Z :=
  let q := Qfloor x in
  match Qcompare (x - inject_Z q)%Q (1 # 2)%Q with
  | Lt => q
  | Gt => q + 1
  | Eq => if Z.even q then q else q + 1
  end.

Definition two_digits (d : Z) : string :=
  if d <? 10 then "0" +:+ Py.str d else Py.str d.

(** The format [.2f]. *)
Definition format_2f (x : Q) : string :=
  let c := Z.abs (round_half_even (x * 100)%Q) in
  (match Qcompare x 0%Q with Lt => "-" | _ => "" end)
  +:+ Py.str (c `div` 100) +:+ "." +:+ two_digits (c `mod` 100).

(** Every turn of the loop adds one to [n] and the loop stops at
    [n = len(power_labels)] at the latest, so [len(power_labels)] turns are
    enough. *)
Definition get_readable_file_size (size_in_bytes : Z) : result string :=
  if size_in_bytes =? 0 then Ok "0B"%string
  else
    let r := scale (length power_labels) (inject_Z size_in_bytes) 0 in
    match Py.get r.2 power_labels with
    | Some label => Ok (format_2f r.1 +:+ " " +:+ label +:+ "B")
    | None => Raise KeyError
    end.

End Bot.

(* ===================================================================== *)
(** ** The [/show] pages *)
(* ===================================================================== *)

(** More string methods, on strings of code points below 256. *)
Module PyText.

(** [needle in s]. *)
Fixpoint contains (needle s : string) : bool :=
  match s with
  | EmptyString => Py.is_prefix needle EmptyString
  | String _ s' => Py.is_prefix needle s || contains needle s'
  end.

(** [s.split(sep)] for a non-empty [sep] of any length, left to right.
    [skip] counts the characters of a matched separator that are still to
    be dropped. *)
Fixpoint split_from (sep : string) (skip : nat) (s : string) : list string :=
  match s with
  | EmptyString => [EmptyString]
  | String c s' =>
      match skip with
      | S k => split_from sep k s'
      | O =>
          if Py.is_prefix sep s
          then EmptyString :: split_from sep (Nat.pred (String.length sep)) s'
          else match split_from sep O s' with
               | hd :: tl => String c hd :: tl
               | [] => [String c EmptyString]
               end
      end
  end.

Definition split (sep s : string) : list string := split_from sep O s.

(** [c.isalnum()]: the ASCII digits and letters, and from Latin-1 the
    letters, the superscript digits and the vulgar fractions. *)
Definition isalnum (c : ascii) : bool :=
  let n := nat_of_ascii c in
  (Nat.leb 48 n && Nat.leb n 57) || (Nat.leb 65 n && Nat.leb n 90)
  || (Nat.leb 97 n && Nat.leb n 122)
  || Nat.eqb n 170 || Nat.eqb n 178 || Nat.eqb n 179 || Nat.eqb n 181
  || Nat.eqb n 185 || Nat.eqb n 186 || (Nat.leb 188 n && Nat.leb n 190)
  || (Nat.leb 192 n && Nat.leb n 214) || (Nat.leb 216 n && Nat.leb n 246)
  || (Nat.leb 248 n && Nat.leb n 255).

(** The string of the characters of [s] that pass [keep]. *)
Fixpoint join_if (keep : ascii -> bool) (s : string) : string :=
  match s with
  | EmptyString => EmptyString
  | String c s' => if keep c then String c (join_if keep s') else join_if keep s'
  end.

End PyText.

(** *** [show_file_page] of [webserver.py], lines 97-131 *)
Module WebserverPage.

(** What [main_bot.get_chat_history(Config.LOG_CHANNEL, limit=2000)] yields:
    the [text] of one message after the other, [None] for a message without
    text, until the history or the limit ends it, or it raises. *)
Inductive history : Type :=
| history_end
| history_message (text : option string) (rest : history)
| history_raises (e : exn).

(** The dictionary handed to the template. *)
Record context := {
  ctx_file_name : option string;
  ctx_file_size : string;
  ctx_is_media : bool;
  ctx_direct_dl_link : string;
  ctx_mx_player_link : string;
  ctx_vlc_player_link : string
}.

(** What ends the body of the [try]: the page, an [IndexError], or one of
    the exceptions of [exn]. *)
Inductive ending : Type :=
| Rendered (ctx : context)
| IndexError
| Raising (e : exn).

Definition caught (r : ending) : bool :=
  match r with
  | Rendered _ => false
  | IndexError => true
  | Raising e => is_Exception e
  end.

(** The test of line 104. *)
Definition names (unique_id : string) (text : option string) : bool :=
  match text with
  | Some t => Py.truthy t && PyText.contains ("Unique ID: `" +:+ unique_id +:+ "`") t
  | None => false
  end.

(** Line 105. *)
Definition storage_msg_id (text : string) : ending + Z :=
  match PyText.split "Storage Msg ID: `" text with
  | _ :: part :: _ =>
      match Py.split "`" part with
      | first :: _ =>
          match Py.int first with
          | Ok n => inr n
          | Raise e => inl (Raising e)
          end
      | [] => inl IndexError
      end
  | _ => inl IndexError
  end.

(** Lines 105-126, for the message that names the identifier. *)
Definition render (main_bot : Client) (base_url text : string) : ending :=
  match storage_msg_id text with
  | inl r => r
  | inr storage_msg_id =>
      match get_messages main_bot storage_msg_id with
      | Raise e => Raising e
      | Ok file_msg =>
          match first_media file_msg with
          | None => Raising (HTTPException 404)
          | Some media =>
              match Bot.get_readable_file_size (file_size media) with
              | Raise e => Raising e
              | Ok size =>
                  let mime_type := or_default (mime_type media) "application/octet-stream" in
                  let is_video := Py.is_prefix "video/" mime_type in
                  let is_audio := Py.is_prefix "audio/" mime_type in
                  let dl_link := base_url +:+ "/dl/" +:+ Py.str storage_msg_id +:+ "/"
                                 +:+ fmt (file_name media) in
                  Rendered
                    {| ctx_file_name := file_name media;
                       ctx_file_size := size;
                       ctx_is_media := is_video || is_audio;
                       ctx_direct_dl_link := dl_link;
                       ctx_mx_player_link :=
                         "intent:" +:+ dl_link
                         +:+ "#Intent;action=android.intent.action.VIEW;type="
                         +:+ mime_type +:+ ";end";
                       ctx_vlc_player_link := "vlc://" +:+ dl_link |}
              end
          end
      end
  end.

(** The [async for] of lines 103-126 and the [raise] of line 128. *)
Fixpoint scan (main_bot : Client) (base_url unique_id : string) (h : history)
  : ending :=
  match h with
  | history_end => Raising (HTTPException 404)
  | history_raises e => Raising e
  | history_message text rest =>
      if names unique_id text
      then render main_bot base_url (default "" text)
      else scan main_bot base_url unique_id rest
  end.

(** The body of the [try]. *)
Definition show_file_page_try (multi_clients : gmap Z Client) (chat_history : history)
    (base_url unique_id : string) : ending :=
  match multi_clients !! 0 with
  | None => Raising (HTTPException 503)
  | Some main_bot => scan main_bot base_url unique_id chat_history
  end.

(** Lines 97-131.  [traceback] is not imported by [webserver.py]: the
    [except Exception] clause stops at its [print] with a [NameError]. *)
Definition show_file_page (multi_clients : gmap Z Client) (chat_history : history)
    (base_url unique_id : string) : result context :=
  match show_file_page_try multi_clients chat_history base_url unique_id with
  | Rendered ctx => Ok ctx
  | IndexError => Raise (NameError "traceback")
  | Raising e => if is_Exception e then Raise (NameError "traceback") else Raise e
  end.

End WebserverPage.

(** *** [show_page] of [app.py], lines 97-107 *)
Module AppPage.

Record context := {
  ctx_file_name : string;
  ctx_file_size : string;
  ctx_is_media : bool;
  ctx_direct_dl_link : string;
  ctx_mx_player_link : string;
  ctx_vlc_player_link : string
}.

(** [mask_filename], lines 38-43.  Line 39 is one [if] statement whose body
    is the three statements after the colon, so the assignments to
    [resolutions] and [res_part] stand behind the [return] and never run.
    With a non-empty [name] the function goes on to the [for] of line 40,
    which reads the local [resolutions] while it is unbound. *)
Definition mask_filename (name : string) : result string :=
  if negb (Py.truthy name) then Ok "Protected File"%string
  else Raise (UnboundLocalError "resolutions").

(** The safe name of line 105. *)
Definition safe_name (oname : string) : string :=
  Py.rstrip
    (PyText.join_if
       (fun c => PyText.isalnum c
                 || Ascii.eqb c " " || Ascii.eqb c "." || Ascii.eqb c "_"
                 || Ascii.eqb c "-")
       oname).

(** Lines 99-107.  [get_link] is [db.get_link]; an identifier that is
    [None] or [0] is not a link. *)
Definition show_page (get_link : string -> result (option Z))
    (multi_clients : gmap Z Client) (base_url uid : string) : result context :=
  mid ← get_link uid;
  match mid with
  | None => Raise (HTTPException 404)
  | Some mid =>
      if mid =? 0 then Raise (HTTPException 404)
      else
        match multi_clients !! 0 with
        | None => Raise (HTTPException 503)
        | Some mb =>
            fmsg ← get_messages mb mid;
            match first_media fmsg with
            | None => Raise (HTTPException 404)
            | Some m =>
                let oname := or_default (file_name m) "file" in
                let sname := safe_name oname in
                let dl := base_url +:+ "/dl/" +:+ Py.str mid +:+ "/" +:+ sname in
                masked ← mask_filename oname;
                size ← Bot.get_readable_file_size (file_size m);
                let mime := or_default (mime_type m) "" in
                Ok {| ctx_file_name := masked;
                      ctx_file_size := size;
                      ctx_is_media := Py.is_prefix "v" mime || Py.is_prefix "a" mime;
                      ctx_direct_dl_link := dl;
                      ctx_mx_player_link :=
                        "intent:" +:+ dl
                        +:+ "#Intent;action=android.intent.action.VIEW;type="
                        +:+ or_default (mime_type m) "v/*" +:+ ";end";
                      ctx_vlc_player_link := "vlc://" +:+ dl |}
            end
        end
  end.

(** Lines 161-162 of [main]: the only registration of [app.py]. *)
Definition registered (bot : Client) : gmap Z Client * list (Z * Z) :=
  ({[ 0 := bot ]}, Py.set 0 0 []).

End AppPage.

(* ===================================================================== *)
(** ** The upload handlers of [bot.py] and [app.py] *)
(* ===================================================================== *)

(** The handlers are sequences of awaited library calls and of calls into
    the operating system.  A run is the trace of the calls it makes,
    together with the one fact about the outside that the handlers test:
    whether the downloaded file exists.  Every call may raise, and a call
    that raises has no effect on the file.  [http_get] stands for the
    opening of the session and of the response, [write_chunks] for the loop
    over the chunks with the closing of the file and of the connection. *)
Module Upload.

(** The texts the handlers send. *)
Inductive notice : Type :=
| Usage
| Processing
| DownloadFailed (status : Z)
| DownloadError (e : exn)
| Sorry
| LinkReady (url : string).

(** The calls into the libraries and the operating system that may raise.
    [send_document] carries, for the statements, whether the file was
    there when it was called. *)
Inductive call : Type :=
| reply_text (n : notice)
| edit_text (n : notice)
| delete_status
| makedirs
| http_get
| open_file
| write_chunks
| remove_file
| send_document (file_there : bool)
| copy_message
| save_link (unique_id : string) (message_id : Z).

(** What the outside answers during one run of a handler.  [basename] is
    [os.path.basename(urlparse(url).path)] for the URL of the command,
    which raises [ValueError] on a URL that cannot be parsed and is empty
    when the path of the URL names no file; [now] is [int(time.time())]. *)
Record services := {
  raises : call -> option exn;
  command : list string;
  basename : result string;
  now : Z;
  downloads_exists : bool;
  response_status : Z;
  token : string;
  copied_id : Z
}.

(** [present] is [os.path.exists(file_path)]; [trace] lists the calls
    made so far. *)
Record state := {
  present : bool;
  trace : list call
}.

(** How a block of statements ends: it falls through, it executes a
    [return], or it raises. *)
Inductive signal (A : Type) : Type :=
| Value (a : A)
| Returned
| Thrown (e : exn).
Arguments Value {A} a.
Arguments Returned {A}.
Arguments Thrown {A} e.

Definition proc (A : Type) : Type := state -> state * signal A.

#[global] Instance proc_ret : MRet proc := fun _ a s => (s, Value a).

#[global] Instance proc_bind : MBind proc := fun _ _ k m s =>
  match m s with
  | (s1, Value a) => k a s1
  | (s1, Returned) => (s1, Returned)
  | (s1, Thrown e) => (s1, Thrown e)
  end.

Definition return_ {A} : proc A := fun s => (s, Returned).

Definition throw {A} (e : exn) : proc A := fun s => (s, Thrown e).

(** Opening the file for writing creates it; removing it deletes it. *)
Definition effect (c : call) (p : bool) : bool :=
  match c with
  | open_file => true
  | remove_file => false
  | _ => p
  end.

(** One call: it is made, and then it raises or has its effect. *)
Definition await (sv : services) (c : call) : proc unit := fun s =>
  match raises sv c with
  | Some e => ({| present := present s; trace := trace s ++ [c] |}, Thrown e)
  | None => ({| present := effect c (present s); trace := trace s ++ [c] |}, Value ())
  end.

(** [try: body / except Exception as e: handler]. *)
Definition try_except {A} (body : proc A) (handler : exn -> proc A) : proc A := fun s =>
  match body s with
  | (s1, Thrown e) => if is_Exception e then handler e s1 else (s1, Thrown e)
  | r => r
  end.

(** [try: body / finally: final]. *)
Definition try_finally {A} (body : proc A) (final : proc unit) : proc A := fun s =>
  match body s with
  | (s1, sig) =>
      match final s1 with
      | (s2, Value _) => (s2, sig)
      | (s2, Returned) => (s2, Returned)
      | (s2, Thrown e) => (s2, Thrown e)
      end
  end.

(** [if os.path.exists(file_path): block]. *)
Definition if_exists (block : proc unit) : proc unit := fun s =>
  if present s then block s else (s, Value ()).

(** [handle_file_upload], [bot.py] lines 114-134 and [app.py] lines 46-52;
    [link] builds the link from the identifier. *)
Definition handle_file_upload (sv : services) (link : string -> string) : proc unit :=
  try_except
    (await sv copy_message;;
     await sv (save_link (token sv) (copied_id sv));;
     await sv (reply_text (LinkReady (link (token sv)))))
    (fun _ => await sv (reply_text Sorry)).

(** The body of the first [try] of [url_upload_handler]. *)
Definition transfer (sv : services) : proc unit :=
  await sv http_get;;
  if negb (response_status sv =? 200)
  then await sv (edit_text (DownloadFailed (response_status sv)));; return_
  else await sv open_file;; await sv write_chunks.

(** [os.path.basename(urlparse(url).path) or default_name]: the second
    operand is evaluated only when the first is empty. *)
Definition file_name (sv : services) (default_name : result string) : result string :=
  match basename sv with
  | Raise e => Raise e
  | Ok name => if Py.truthy name then Ok name else default_name
  end.

(** The common start: lines 144-152 of [bot.py], 57-60 of [app.py].  The
    file name is computed before the notice is sent; [default_name] is
    what the f-string with [time.time()] evaluates to in the module. *)
Definition prepare (sv : services) (default_name : result string) : proc unit :=
  if (length (command sv) <? 2)%nat
  then await sv (reply_text Usage);; return_
  else
    match file_name sv default_name with
    | Raise e => throw e
    | Ok _ =>
        await sv (reply_text Processing);;
        if downloads_exists sv then mret () else await sv makedirs
    end.

Definition start (file_there : bool) : state :=
  {| present := file_there; trace := [] |}.

End Upload.

Module BotUpload.

(** [url_upload_handler] of [bot.py], lines 143-174. *)
Definition url_upload_handler (sv : Upload.services) (link : string -> string)
  : Upload.proc unit :=
  Upload.prepare sv (Ok ("file_" +:+ Py.str (Upload.now sv)));;
  Upload.try_except (Upload.transfer sv)
    (fun e => Upload.await sv (Upload.edit_text (Upload.DownloadError e));;
              Upload.if_exists (Upload.await sv Upload.remove_file);;
              Upload.return_);;
  Upload.try_finally
    (fun s => Upload.await sv (Upload.send_document (Upload.present s)) s)
    (Upload.if_exists (Upload.await sv Upload.remove_file));;
  Upload.handle_file_upload sv link;;
  Upload.await sv Upload.delete_status.

End BotUpload.

Module AppUpload.

(** [url_upload_handler] of [app.py], lines 56-71.  [app.py] does not
    import [time], so the default file name of line 58 is a [NameError].
    Line 67 stands after the [try] statement, not inside its [except]
    clause. *)
Definition url_upload_handler (sv : Upload.services) (link : string -> string)
  : Upload.proc unit :=
  Upload.prepare sv (Raise (NameError "time"));;
  Upload.try_except (Upload.transfer sv)
    (fun e => Upload.await sv (Upload.edit_text (Upload.DownloadError e)));;
  Upload.if_exists (Upload.await sv Upload.remove_file;; Upload.return_);;
  Upload.try_finally
    ((fun s => Upload.await sv (Upload.send_document (Upload.present s)) s);;
     Upload.handle_file_upload sv link;;
     Upload.await sv Upload.delete_status)
    (Upload.if_exists (Upload.await sv Upload.remove_file)).

End AppUpload.

(* ===================================================================== *)
(** ** Vocabulary of the statements *)
(* ===================================================================== *)

(** The world after [work_loads[index] = v] with the event [ev] logged. *)
Definition with_load (index v : Z) (ev : event) (w : world) : world :=
  {| work_loads := Py.set index v (work_loads w);
     media_sessions := media_sessions w;
     log := log w ++ [ev] |}.

(** The world after one more request was logged. *)
Definition with_fetch (ms : session) (req : GetFile) (w : world) : world :=
  {| work_loads := work_loads w;
     media_sessions := media_sessions w;
     log := log w ++ [EvFetch ms req] |}.

(** The request of line 78 for the chunk at [off]. *)
Definition request_at (a : yield_args) (loc : InputDocumentFileLocation) (off : Z)
  : GetFile :=
  {| location := loc; offset := off; limit := chunk_size a |}.

(** The chunks a complete stream of [k] parts yields, from part [p] whose
    request goes to offset [off]. *)
Fixpoint file_parts (a : yield_args) (data : bytes) (k : nat) (p off : Z)
  : list bytes :=
  match k with
  | O => []
  | S k' =>
      cut a p (file_chunk data off (chunk_size a))
      :: file_parts a data k' (p + 1) (off + chunk_size a)
  end.

(** The byte count a plan stands for, by the slicing rule of
    [yield_file]: the one cut chunk of a single part, otherwise the first
    chunk from its cut, the whole inner chunks and the last chunk up to its
    cut. *)
Definition plan_implied_total (chunk_size : Z) (p : plan) : Z :=
  if plan_part_count p =? 1
  then plan_last_part_cut p - plan_first_part_cut p
  else (chunk_size - plan_first_part_cut p)
       + (plan_part_count p - 2) * chunk_size + plan_last_part_cut p.

(** The number of chunks a byte range touches. *)
Definition chunks_spanned (chunk_size from_bytes until_bytes : Z) : Z :=
  until_bytes `div` chunk_size - from_bytes `div` chunk_size + 1.

(** The first [m] requests of a stream: request [k] (counted from 0) goes
    to the start offset plus [k] chunk sizes. *)
Fixpoint requests (a : yield_args) (m : nat) : list GetFile :=
  match m with
  | O => []
  | S m' =>
      requests a m'
      ++ [request_at a (get_location (ya_file_id a))
            (start_offset a + Z.of_nat m' * chunk_size a)]
  end.

(** What a run has requested so far, and where it stands. *)
Definition fetch_inv (c : Client) (a : yield_args) (w0 : world)
    (s : generator * world) : Prop :=
  gen_client s.1 = c /\ gen_args s.1 = a
  /\ exists m : nat,
       fetches (log s.2) = fetches (log w0) ++ requests a m
       /\ match gen_frame s.1 with
          | NotStarted => m = O
          | AtYield ms loc cp off =>
              loc = get_location (ya_file_id a)
              /\ cp = Z.of_nat m /\ 1 <= cp <= part_count a
              /\ off = start_offset a + (cp - 1) * chunk_size a
          | Finished => Z.of_nat m <= Z.max 0 (part_count a)
          end.

(** The load counter along a run whose media session can be acquired:
    untouched before the generator is entered, one up while it is
    suspended, back once it is finished. *)
Definition load_inv (c : Client) (a : yield_args) (w0 : world) (v0 : Z)
    (s : generator * world) : Prop :=
  gen_client s.1 = c /\ gen_args s.1 = a
  /\ match gen_frame s.1 with
     | NotStarted => s.2 = w0
     | AtYield _ _ _ _ =>
         load (index a) s.2 = Some (v0 + 1)
         /\ count_incr (index a) (log s.2) = S (count_incr (index a) (log w0))
         /\ count_decr (index a) (log s.2) = count_decr (index a) (log w0)
     | Finished =>
         load (index a) s.2 = Some v0
         /\ ((count_incr (index a) (log s.2) = count_incr (index a) (log w0)
              /\ count_decr (index a) (log s.2) = count_decr (index a) (log w0))
             \/ (count_incr (index a) (log s.2) = S (count_incr (index a) (log w0))
                 /\ count_decr (index a) (log s.2) = S (count_decr (index a) (log w0))))
     end.

(** The request a generator issues when it is resumed, with the session
    that carries it and the world at that moment; [None] when the next
    [__anext__] issues none. *)
Definition next_request (g : generator) (w : world)
  : option (session * GetFile * world) :=
  let a := gen_args g in
  match gen_frame g with
  | NotStarted =>
      match adjust_load (index a) 1 (EvIncr (index a)) w with
      | Ok w1 =>
          match acquire_media_session (gen_client g) (ya_file_id a) w1 with
          | Ok (ms, w2) =>
              if 1 <=? part_count a
              then Some (ms, request_at a (get_location (ya_file_id a)) (start_offset a), w2)
              else None
          | Raise _ => None
          end
      | Raise _ => None
      end
  | AtYield ms loc cp off =>
      if cp + 1 <=? part_count a
      then Some (ms, request_at a loc (off + chunk_size a), w)
      else None
  | Finished => None
  end.

(** A registry as the start-up leaves it: the keys of [work_loads] are
    strictly ascending, they are the keys of [multi_clients], every counter
    is 0, the key 0 is the main bot, and every other key is the number of
    a token whose client did start. *)
Definition registered (env : Bot.startup) (main_bot : Client)
    (all_tokens : list (Z * string)) (r : Bot.registry) : Prop :=
  StronglySorted Z.lt (Py.keys (Bot.work_loads r))
  /\ (forall k, k ∈ Py.keys (Bot.work_loads r) <-> is_Some (Bot.multi_clients r !! k))
  /\ (forall k, k ∈ Py.keys (Bot.work_loads r) -> Py.get k (Bot.work_loads r) = Some 0)
  /\ Bot.multi_clients r !! 0 = Some main_bot
  /\ (forall k c, k <> 0 -> Bot.multi_clients r !! k = Some c ->
        exists t, (k, t) ∈ all_tokens /\ Bot.start env k t = Ok c).

(** The counters of [w'] are those of [w] but for the counter of [index],
    which moved by [d]; no key came or went. *)
Definition shifted (index d : Z) (w w' : world) : Prop :=
  Py.keys (work_loads w') = Py.keys (work_loads w)
  /\ (forall j, j <> index -> load j w' = load j w)
  /\ (forall v, load index w = Some v -> load index w' = Some (v + d)).

(** The worlds that operations on streams, of any generators in any
    order, reach from the counters [d0]. *)
Inductive serving (d0 : list (Z * Z)) : world -> Prop :=
| serving_start w : work_loads w = d0 -> serving d0 w
| serving_step g o w : serving d0 w -> serving d0 (step o (g, w)).2.

(** A history that ends, without raising, before any message names the
    identifier. *)
Fixpoint unnamed (unique_id : string) (h : WebserverPage.history) : bool :=
  match h with
  | WebserverPage.history_end => true
  | WebserverPage.history_message text rest =>
      negb (WebserverPage.names unique_id text) && unnamed unique_id rest
  | WebserverPage.history_raises _ => false
  end.

(** A block [m] run from a state that satisfies [P] either falls through
    in a state that satisfies [V], or leaves by a [return] or an exception
    in a state that satisfies [F]. *)
Definition stage {A} (P : Upload.state -> Prop) (m : Upload.proc A)
    (V F : Upload.state -> Prop) : Prop :=
  forall s, P s ->
    match (m s).2 with
    | Upload.Value _ => V (m s).1
    | _ => F (m s).1
    end.

(** A property of the state that the call [c] keeps, with or without its
    effect on the file. *)
Definition kept_by (c : Upload.call) (I : Upload.state -> Prop) : Prop :=
  forall s p, I s -> (p = Upload.present s \/ p = Upload.effect c (Upload.present s)) ->
    I {| Upload.present := p; Upload.trace := Upload.trace s ++ [c] |}.

(** No document was sent so far. *)
Definition unsent (s : Upload.state) : Prop :=
  forall b, Upload.send_document b ∉ Upload.trace s.

(** The transfer went through: the status was 200, the file was opened
    and every chunk was written. *)
Definition completed (sv : Upload.services) : Prop :=
  Upload.raises sv Upload.http_get = None
  /\ Upload.response_status sv = 200
  /\ Upload.raises sv Upload.open_file = None
  /\ Upload.raises sv Upload.write_chunks = None.

(** After the first [try] of [bot.py]: nothing was sent, the file is there
    and the transfer went through. *)
Definition downloaded (sv : Upload.services) (s : Upload.state) : Prop :=
  unsent s /\ Upload.present s = true /\ completed sv.

(** Whatever [bot.py] sent was there, after a transfer that went through. *)
Definition sent_download (sv : Upload.services) (s : Upload.state) : Prop :=
  forall b, Upload.send_document b ∈ Upload.trace s -> b = true /\ completed sv.

(** Before line 67: nothing was sent, and if the transfer wrote a chunk the
    file is there. *)
Definition pending (s : Upload.state) : Prop :=
  unsent s /\ (Upload.write_chunks ∈ Upload.trace s -> Upload.present s = true).

(** After line 67: nothing was sent, no chunk was written, and there is no
    file. *)
Definition nothing_written (s : Upload.state) : Prop :=
  unsent s /\ (Upload.write_chunks ∉ Upload.trace s) /\ Upload.present s = false.

(** Whatever [app.py] sent was not there, and no chunk was written. *)
Definition sent_nothing (s : Upload.state) : Prop :=
  forall b, Upload.send_document b ∈ Upload.trace s ->
    b = false /\ Upload.write_chunks ∉ Upload.trace s.

(* ===================================================================== *)
(** ** Small examples *)
(* ===================================================================== *)

Module Examples.

Definition fid : FileId :=
  {| dc_id := 2; media_id := 7; access_hash := 11; file_reference := [];
     thumbnail_size := "" |}.

Definition doc (size : Z) : Media :=
  {| file_id := Ok fid; file_size := size;
     mime_type := Some "video/mp4"%string; file_name := Some "a.mp4"%string |}.

Definition msg (size : Z) : Message :=
  {| document := Some (doc size); video := None; audio := None; empty := false |}.

Definition twelve : bytes :=
  ["a"; "b"; "c"; "d"; "e"; "f"; "g"; "h"; "i"; "j"; "k"; "l"]%byte.

(** A file of [n] zero bytes. *)
Definition zeros (n : Z) : bytes := replicate (Z.to_nat n) Byte.x00.

Definition w0 : world :=
  {| work_loads := [(0, 0)]; media_sessions := ∅; log := [] |}.

(** [yield_file] with a chunk size of 4 on a 12 byte file. *)
Definition gen4 (off fc lc pc : Z) : generator :=
  new_generator (file_client (msg 12) twelve) fid 0
    {| plan_offset := off; plan_first_part_cut := fc;
       plan_last_part_cut := lc; plan_part_count := pc |} 4.

(** A client that cannot open a media session for another datacenter. *)
Definition failing_client : Client :=
  {| get_messages := fun _ => Ok (msg 12);
     storage_dc_id := Ok 1;
     create_media_session := fun _ => Raise (RPCError 420);
     send := file_backend twelve |}.

(** A client whose backend redirects every request to a CDN. *)
Definition redirect_client : Client :=
  {| get_messages := fun _ => Ok (msg 12);
     storage_dc_id := Ok 2;
     create_media_session := fun dc => Ok (MediaSession dc);
     send := fun _ _ _ => Ok upload_FileCdnRedirect |}.

Definition args4 (off fc lc pc : Z) : yield_args :=
  {| ya_file_id := fid; index := 0; start_offset := off;
     first_part_cut := fc; last_part_cut := lc; part_count := pc;
     chunk_size := 4 |}.

End Examples.

(** Two runs of the upload handlers. *)
Module UploadExamples.

Definition bot_link (unique_id : string) : string := "https://blog/?id=" +:+ unique_id.

Definition app_link (unique_id : string) : string := "https://host/show/" +:+ unique_id.

(** Every call succeeds. *)
Definition fine : Upload.services :=
  {| Upload.raises := fun _ => None;
     Upload.command := ["/url"; "https://host/file.bin"]%string;
     Upload.basename := Ok "file.bin"%string;
     Upload.now := 1700000000;
     Upload.downloads_exists := true;
     Upload.response_status := 200;
     Upload.token := "q1w2e3r4t5y";
     Upload.copied_id := 7 |}.

(** The connection cannot be opened, and a file that is not there cannot
    be sent. *)
Definition unreachable : Upload.services :=
  {| Upload.raises := fun c => match c with
                               | Upload.http_get => Some (RPCError 502)
                               | Upload.send_document false => Some FileNotFoundError
                               | _ => None
                               end;
     Upload.command := ["/url"; "https://host/file.bin"]%string;
     Upload.basename := Ok "file.bin"%string;
     Upload.now := 1700000000;
     Upload.downloads_exists := true;
     Upload.response_status := 0;
     Upload.token := "q1w2e3r4t5y";
     Upload.copied_id := 7 |}.

(** A URL whose path names no file. *)
Definition nameless : Upload.services :=
  {| Upload.raises := fun _ => None;
     Upload.command := ["/url"; "https://host/"]%string;
     Upload.basename := Ok ""%string;
     Upload.now := 1700000000;
     Upload.downloads_exists := true;
     Upload.response_status := 200;
     Upload.token := "q1w2e3r4t5y";
     Upload.copied_id := 7 |}.

End UploadExamples.

Example replace_bytes : Py.replace "bytes=" "" "bytes=500000-1500000" = "500000-1500000"%string.
Proof. reflexivity. Qed.

Example split_range : Py.split "-" "500000-1500000" = ["500000"; "1500000"]%string.
Proof. reflexivity. Qed.

Example split_open_range : Py.split "-" "500000-" = ["500000"; ""]%string.
Proof. reflexivity. Qed.

Example split_suffix_range : Py.split "-" "-500" = [""; "500"]%string.
Proof. reflexivity. Qed.

Example int_plain : Py.int "1500000" = Ok 1500000.
Proof. reflexivity. Qed.

Example int_empty : Py.int "" = Raise ValueError.
Proof. reflexivity. Qed.

Example int_grouped : Py.int " +1_000 " = Ok 1000.
Proof. reflexivity. Qed.

Example int_bad_group : Py.int "1__0" = Raise ValueError.
Proof. reflexivity. Qed.

Example int_control_suffix :
  Py.int (String "2" (String (ascii_of_nat 31) EmptyString)) = Raise ValueError.
Proof. reflexivity. Qed.

Example int_no_break_space :
  Py.int (String (ascii_of_nat 160) (String "2" (String (ascii_of_nat 133) EmptyString)))
  = Ok 2.
Proof. reflexivity. Qed.

Example str_negative : Py.str (-4) = "-4"%string.
Proof. reflexivity. Qed.

Example ceil_div_small : Py.ceil_div 1000001 1048576 = 1.
Proof. reflexivity. Qed.

Example ceil_div_negative : Py.ceil_div (-4) 1048576 = 0.
Proof. reflexivity. Qed.

Example slice_crossed : Py.slice (Some 5) (Some 2) [1; 2; 3; 4; 5; 6; 7] = [].
Proof. reflexivity. Qed.

Example slice_from_end : Py.slice (Some (-2)) None [1; 2; 3; 4; 5] = [4; 5].
Proof. reflexivity. Qed.

Example min_first_wins : Py.min_by_value [(0, 2); (1, 1); (2, 1)] 0 = 1.
Proof. reflexivity. Qed.

Example pull_three_parts :
  (pull 4 (Examples.gen4 0 1 3 3) Examples.w0).1.1.1
  = [["b"; "c"; "d"]; ["e"; "f"; "g"; "h"]; ["i"; "j"; "k"]]%byte.
Proof. reflexivity. Qed.

Example pull_three_parts_load :
  load 0 (pull 4 (Examples.gen4 0 1 3 3) Examples.w0).2 = Some 0
  /\ load 0 (pull 2 (Examples.gen4 0 1 3 3) Examples.w0).2 = Some 1
  /\ load 0 (pull_then_close 2 (Examples.gen4 0 1 3 3) Examples.w0).2 = Some 0.
Proof. repeat split; reflexivity. Qed.

Example pull_one_part_crossed :
  (pull 2 (Examples.gen4 0 3 2 1) Examples.w0).1.1.1 = [[]].
Proof. reflexivity. Qed.

(* ===================================================================== *)
(** ** Dictionaries and least-loaded selection *)
(* ===================================================================== *)

Section DictFacts.
Context {V : Type}.
Implicit Types (d : list (Z * V)) (k : Z) (v : V).

Lemma get_set_eq d k v : Py.get k (Py.set k v d) = Some v.
Proof.
  induction d as [|[k' v'] d IH]; simpl.
  - by rewrite Z.eqb_refl.
  - destruct (Z.eqb_spec k k') as [->|Hne]; simpl.
    + by rewrite Z.eqb_refl.
    + destruct (Z.eqb_spec k k'); [done|]. apply IH.
Qed.

Lemma get_set_ne d k k' v : k ≠ k' -> Py.get k' (Py.set k v d) = Py.get k' d.
Proof.
  intros Hne. induction d as [|[k0 v0] d IH]; simpl.
  - destruct (Z.eqb_spec k' k); [congruence|done].
  - destruct (Z.eqb_spec k k0) as [->|Hk]; simpl.
    + destruct (Z.eqb_spec k' k0); [congruence|done].
    + destruct (Z.eqb_spec k' k0); [done|]. apply IH.
Qed.

Lemma keys_set_present d k v :
  is_Some (Py.get k d) -> Py.keys (Py.set k v d) = Py.keys d.
Proof.
  induction d as [|[k0 v0] d IH]; simpl.
  - by intros [? ?].
  - destruct (Z.eqb_spec k k0) as [->|Hk]; simpl; [done|].
    intros H. f_equal. by apply IH.
Qed.

Lemma get_elem_of d k v : Py.get k d = Some v -> (k, v) ∈ d.
Proof.
  induction d as [|[k0 v0] d IH]; simpl; [done|].
  destruct (Z.eqb_spec k k0) as [->|Hk].
  - intros [= ->]. apply list_elem_of_here.
  - intros H. apply list_elem_of_further. by apply IH.
Qed.

Lemma get_first d1 d2 k v :
  k ∉ Py.keys d1 -> Py.get k (d1 ++ (k, v) :: d2) = Some v.
Proof.
  induction d1 as [|[k0 v0] d1 IH]; simpl.
  - by rewrite Z.eqb_refl.
  - intros Hnot. destruct (Z.eqb_spec k k0) as [->|Hk].
    + exfalso. apply Hnot. apply list_elem_of_here.
    + apply IH. intros Hin. apply Hnot. by apply list_elem_of_further.
Qed.

End DictFacts.

(** What the scan of [min] returns: either the running best, which no
    later entry beats, or the first later entry that is strictly below
    the running best and everything before it, and at most everything
    after it. *)
Lemma min_scan_spec (d : list (Z * Z)) (best bv : Z) :
  (Py.min_scan best bv d = best /\ forall k v, (k, v) ∈ d -> bv <= v)
  \/ exists d1 d2 rv,
       d = d1 ++ (Py.min_scan best bv d, rv) :: d2
       /\ rv < bv
       /\ (forall k v, (k, v) ∈ d1 -> rv < v)
       /\ (forall k v, (k, v) ∈ d2 -> rv <= v).
Proof.
  revert best bv. induction d as [|[k0 v0] d IH]; intros best bv; simpl.
  - left. split; [done|]. intros k v H. by apply elem_of_nil in H.
  - destruct (Z.ltb_spec v0 bv) as [Hlt|Hge].
    + right. destruct (IH k0 v0) as [[Heq Hall]|(d1 & d2 & rv & Hd & Hrv & H1 & H2)].
      * exists [], d, v0. rewrite Heq. repeat split; try done.
        intros k v H. by apply elem_of_nil in H.
      * exists ((k0, v0) :: d1), d2, rv. repeat split; try done.
        -- simpl. by f_equal.
        -- lia.
        -- intros k v H. apply elem_of_cons in H as [[= -> ->]|H]; [done|].
           by apply (H1 k).
    + destruct (IH best bv) as [[Heq Hall]|(d1 & d2 & rv & Hd & Hrv & H1 & H2)].
      * left. split; [done|]. intros k v H.
        apply elem_of_cons in H as [[= -> ->]|H]; [done|]. by apply (Hall k).
      * right. exists ((k0, v0) :: d1), d2, rv. repeat split; try done.
        -- simpl. by f_equal.
        -- intros k v H. apply elem_of_cons in H as [[= -> ->]|H]; [lia|].
           by apply (H1 k).
Qed.



(* ===================================================================== *)
(** ** Slices and file chunks *)
(* ===================================================================== *)

Section SliceFacts.
Context {A : Type}.
Implicit Types (l : list A) (a b : Z).

Lemma slice_length_both l a b :
  0 <= a -> 0 <= b ->
  Z.of_nat (length (Py.slice (Some a) (Some b) l))
  = Z.max 0 (Z.min b (Z.of_nat (length l)) - Z.min a (Z.of_nat (length l))).
Proof.
  intros Ha Hb. unfold Py.slice, Py.clamp.
  destruct (Z.ltb_spec a 0), (Z.ltb_spec b 0); try lia.
  rewrite length_take, length_drop. lia.
Qed.

Lemma slice_length_from l a :
  0 <= a ->
  Z.of_nat (length (Py.slice (Some a) None l))
  = Z.of_nat (length l) - Z.min a (Z.of_nat (length l)).
Proof.
  intros Ha. unfold Py.slice, Py.clamp.
  destruct (Z.ltb_spec a 0); try lia.
  rewrite length_take, length_drop. lia.
Qed.

Lemma slice_length_until l b :
  0 <= b ->
  Z.of_nat (length (Py.slice None (Some b) l)) = Z.min b (Z.of_nat (length l)).
Proof.
  intros Hb. unfold Py.slice, Py.clamp.
  destruct (Z.ltb_spec b 0); try lia.
  rewrite length_take, length_drop. lia.
Qed.

Lemma slice_crossed_nil l a b :
  0 <= b -> b <= a -> Py.slice (Some a) (Some b) l = [].
Proof.
  intros Hb Hab. apply length_zero_iff_nil.
  apply Nat2Z.inj. rewrite slice_length_both by lia. lia.
Qed.

End SliceFacts.

Lemma file_chunk_length (data : bytes) (off lim : Z) :
  0 <= off -> 0 <= lim ->
  Z.of_nat (length (file_chunk data off lim))
  = Z.max 0 (Z.min lim (Z.of_nat (length data) - off)).
Proof.
  intros Ho Hl. unfold file_chunk. rewrite length_take, length_drop. lia.
Qed.

Lemma total_bytes_cons (c : bytes) (cs : list bytes) :
  total_bytes (c :: cs) = Z.of_nat (length c) + total_bytes cs.
Proof. reflexivity. Qed.

(* ===================================================================== *)
(** ** One turn of the generator *)
(* ===================================================================== *)

Lemma adjust_load_some index delta ev w v :
  load index w = Some v ->
  adjust_load index delta ev w = Ok (with_load index (v + delta) ev w).
Proof. unfold load, adjust_load. by intros ->. Qed.

Lemma adjust_load_none index delta ev w :
  load index w = None -> adjust_load index delta ev w = Raise KeyError.
Proof. unfold load, adjust_load. by intros ->. Qed.

Lemma load_with_load index v ev w : load index (with_load index v ev w) = Some v.
Proof. unfold load; simpl. apply get_set_eq. Qed.

Lemma load_with_load_ne index j v ev w :
  index ≠ j -> load j (with_load index v ev w) = load j w.
Proof. intros H. unfold load; simpl. by apply get_set_ne. Qed.

Lemma load_with_fetch index ms req w : load index (with_fetch ms req w) = load index w.
Proof. reflexivity. Qed.

Lemma release_some a pending w v :
  load (index a) w = Some v ->
  release a pending w
  = (pending, Finished, with_load (index a) (v - 1) (EvDecr (index a)) w).
Proof.
  intros H. unfold release. rewrite (adjust_load_some _ _ _ _ _ H).
  by replace (v + -1) with (v - 1) by lia.
Qed.

Lemma loop_turn_exhausted c a ms loc cp off w :
  part_count a < cp ->
  loop_turn c a ms loc cp off w = release a StopAsyncIteration w.
Proof.
  intros H. unfold loop_turn. destruct (Z.leb_spec cp (part_count a)); [lia|done].
Qed.

Lemma loop_turn_yield c a ms loc cp off w x chunk :
  cp <= part_count a ->
  send c ms (request_at a loc off) (length (fetches (log w))) = Ok (upload_File (x :: chunk)) ->
  loop_turn c a ms loc cp off w
  = (Yield (cut a cp (x :: chunk)), AtYield ms loc cp off,
     with_fetch ms (request_at a loc off) w).
Proof.
  intros H Hs. unfold loop_turn. destruct (Z.leb_spec cp (part_count a)); [|lia].
  unfold request_at in Hs. by rewrite Hs.
Qed.

Lemma loop_turn_end_of_data c a ms loc cp off w :
  cp <= part_count a ->
  send c ms (request_at a loc off) (length (fetches (log w))) = Ok (upload_File [])
  \/ send c ms (request_at a loc off) (length (fetches (log w))) = Ok upload_FileCdnRedirect ->
  loop_turn c a ms loc cp off w
  = release a StopAsyncIteration (with_fetch ms (request_at a loc off) w).
Proof.
  intros H Hs. unfold loop_turn. destruct (Z.leb_spec cp (part_count a)); [|lia].
  unfold request_at in Hs. by destruct Hs as [-> | ->].
Qed.

Lemma loop_turn_raise c a ms loc cp off w e :
  cp <= part_count a ->
  send c ms (request_at a loc off) (length (fetches (log w))) = Raise e ->
  loop_turn c a ms loc cp off w
  = release a (Raised e) (with_fetch ms (request_at a loc off) w).
Proof.
  intros H Hs. unfold loop_turn. destruct (Z.leb_spec cp (part_count a)); [|lia].
  unfold request_at in Hs. by rewrite Hs.
Qed.

Lemma acquire_keeps_loads c f w ms w2 :
  acquire_media_session c f w = Ok (ms, w2) ->
  work_loads w2 = work_loads w /\ log w2 = log w.
Proof.
  unfold acquire_media_session. destruct (media_sessions w !! dc_id f).
  - by intros [= <- <-].
  - destruct (storage_dc_id c) as [dc|]; simpl; [|done].
    destruct (if bool_decide (dc_id f ≠ dc) then _ else _); simpl; [|done].
    by intros [= <- <-].
Qed.

Lemma anext_not_started c a w v ms w2 :
  load (index a) w = Some v ->
  acquire_media_session c (ya_file_id a)
    (with_load (index a) (v + 1) (EvIncr (index a)) w) = Ok (ms, w2) ->
  anext (Build_generator c a NotStarted) w
  = let r := loop_turn c a ms (get_location (ya_file_id a)) 1 (start_offset a) w2 in
    (r.1.1, Build_generator c a r.1.2, r.2).
Proof.
  intros Hl Ha. unfold anext; simpl.
  rewrite (adjust_load_some _ _ _ _ _ Hl). by rewrite Ha.
Qed.

Lemma anext_setup_raises c a w v e :
  load (index a) w = Some v ->
  acquire_media_session c (ya_file_id a)
    (with_load (index a) (v + 1) (EvIncr (index a)) w) = Raise e ->
  anext (Build_generator c a NotStarted) w
  = (Raised e, Build_generator c a Finished,
     with_load (index a) (v + 1) (EvIncr (index a)) w).
Proof.
  intros Hl Ha. unfold anext; simpl.
  rewrite (adjust_load_some _ _ _ _ _ Hl). by rewrite Ha.
Qed.

Lemma anext_at_yield c a ms loc cp off w :
  anext (Build_generator c a (AtYield ms loc cp off)) w
  = let r := loop_turn c a ms loc (cp + 1) (off + chunk_size a) w in
    (r.1.1, Build_generator c a r.1.2, r.2).
Proof. reflexivity. Qed.

Lemma anext_finished c a w :
  anext (Build_generator c a Finished) w
  = (StopAsyncIteration, Build_generator c a Finished, w).
Proof. reflexivity. Qed.

(* ===================================================================== *)
(** ** Streaming a file to the end *)
(* ===================================================================== *)

Lemma pull_S (n : nat) (g : generator) (w : world) :
  pull (S n) g w
  = match anext g w with
    | (Yield chunk, g', w') =>
        let r := pull n g' w' in (chunk :: r.1.1.1, r.1.1.2, r.1.2, r.2)
    | (o, g', w') => ([], Some o, g', w')
    end.
Proof. reflexivity. Qed.

Section FileStream.
Variables (c : Client) (a : yield_args) (data : bytes).
Hypothesis Hsend : forall ms req n,
  send c ms req n = Ok (upload_File (file_chunk data (offset req) (limit req))).
Hypothesis Hcs : 0 < chunk_size a.

Lemma file_chunk_cons off :
  0 <= off < Z.of_nat (length data) ->
  exists x chunk, file_chunk data off (chunk_size a) = x :: chunk.
Proof.
  intros Ho. destruct (file_chunk data off (chunk_size a)) as [|x chunk] eqn:E; [|eauto].
  apply (f_equal length) in E. apply (f_equal Z.of_nat) in E.
  rewrite file_chunk_length in E by lia. simpl in E. lia.
Qed.

Lemma file_turn_yield ms loc cp off w :
  cp <= part_count a ->
  0 <= off < Z.of_nat (length data) ->
  loop_turn c a ms loc cp off w
  = (Yield (cut a cp (file_chunk data off (chunk_size a))), AtYield ms loc cp off,
     with_fetch ms (request_at a loc off) w).
Proof.
  intros Hcp Ho. destruct (file_chunk_cons off Ho) as (x & chunk & E).
  rewrite E. apply loop_turn_yield; [done|]. rewrite Hsend. simpl. by rewrite E.
Qed.

(** From a suspended generator with [k] parts to go, [k + 1] calls of
    [__anext__] yield the remaining parts and end the stream, and the load
    counter goes down by one. *)
Lemma pull_file_at_yield (k : nat) ms loc cp off w v :
  load (index a) w = Some v ->
  cp + Z.of_nat k = part_count a ->
  0 <= off + chunk_size a ->
  ((0 < k)%nat -> off + Z.of_nat k * chunk_size a < Z.of_nat (length data)) ->
  let r := pull (S k) (Build_generator c a (AtYield ms loc cp off)) w in
  r.1.1.1 = file_parts a data k (cp + 1) (off + chunk_size a)
  /\ r.1.1.2 = Some StopAsyncIteration
  /\ r.1.2 = Build_generator c a Finished
  /\ load (index a) r.2 = Some (v - 1).
Proof.
  revert cp off w. induction k as [|k IH]; intros cp off w Hl Hcp Ho Hlast.
  - rewrite pull_S, anext_at_yield. cbv zeta.
    rewrite loop_turn_exhausted by lia. rewrite (release_some _ _ _ _ Hl).
    cbv beta iota zeta. cbn [fst snd]. repeat split; try done. apply load_with_load.
  - rewrite pull_S, anext_at_yield. cbv zeta.
    rewrite file_turn_yield by nia. cbv beta iota zeta. cbn [fst snd].
    specialize (IH (cp + 1) (off + chunk_size a)
                  (with_fetch ms (request_at a loc (off + chunk_size a)) w)).
    destruct IH as (H1 & H2 & H3 & H4); [done|lia|lia|nia|].
    cbn [file_parts]. cbn zeta in *. rewrite H1, H2, H3, H4. done.
Qed.

(** The same from a generator that was not entered yet, when the media
    session is there or can be opened. *)
Lemma pull_file_fresh w v ms w2 :
  load (index a) w = Some v ->
  acquire_media_session c (ya_file_id a)
    (with_load (index a) (v + 1) (EvIncr (index a)) w) = Ok (ms, w2) ->
  0 <= start_offset a ->
  (0 < part_count a ->
   start_offset a + (part_count a - 1) * chunk_size a < Z.of_nat (length data)) ->
  let r := pull (S (Z.to_nat (part_count a))) (Build_generator c a NotStarted) w in
  r.1.1.1 = file_parts a data (Z.to_nat (part_count a)) 1 (start_offset a)
  /\ r.1.1.2 = Some StopAsyncIteration
  /\ r.1.2 = Build_generator c a Finished
  /\ load (index a) r.2 = Some v.
Proof.
  intros Hl Ha Hs Hlast.
  destruct (acquire_keeps_loads _ _ _ _ _ Ha) as [Hw2 _].
  assert (Hl2 : load (index a) w2 = Some (v + 1)).
  { unfold load. rewrite Hw2. apply load_with_load. }
  destruct (Z.to_nat (part_count a)) as [|k] eqn:Ek.
  - rewrite pull_S, (anext_not_started _ _ _ _ _ _ Hl Ha). cbv zeta.
    rewrite loop_turn_exhausted by lia. rewrite (release_some _ _ _ _ Hl2).
    cbv beta iota zeta. cbn [fst snd]. repeat split; try done.
    replace (v + 1 - 1) with v by lia. apply load_with_load.
  - rewrite pull_S, (anext_not_started _ _ _ _ _ _ Hl Ha). cbv zeta.
    rewrite file_turn_yield by nia. cbv beta iota zeta. cbn [fst snd].
    destruct (pull_file_at_yield k ms (get_location (ya_file_id a)) 1 (start_offset a)
                (with_fetch ms (request_at a (get_location (ya_file_id a)) (start_offset a)) w2)
                (v + 1)) as (H1 & H2 & H3 & H4); [done|lia|lia|nia|].
    cbn [file_parts]. cbn zeta in *. rewrite H1, H2, H3, H4.
    replace (v + 1 - 1) with v by lia. done.
Qed.

End FileStream.

(** The byte count of the parts of a complete stream. *)
Section FileTotal.
Variables (a : yield_args) (data : bytes).
Hypothesis Hcs : 0 < chunk_size a.
Hypothesis Hlc : 1 <= last_part_cut a <= chunk_size a.

(** Parts 2 and later: full chunks, then the last one cut at
    [last_part_cut]. *)
Lemma file_parts_tail_total (k : nat) (p off : Z) :
  2 <= p ->
  p + Z.of_nat k = part_count a + 1 ->
  (0 < k)%nat ->
  0 <= off ->
  off + (Z.of_nat k - 1) * chunk_size a + last_part_cut a <= Z.of_nat (length data) ->
  total_bytes (file_parts a data k p off)
  = (Z.of_nat k - 1) * chunk_size a + last_part_cut a.
Proof.
  revert p off. induction k as [|k IH]; intros p off Hp Hk Hpos Ho Hsize; [lia|].
  cbn [file_parts]. rewrite total_bytes_cons. unfold cut.
  destruct (Z.eqb_spec (part_count a) 1); [lia|].
  destruct (Z.eqb_spec p 1); [lia|].
  destruct k as [|k].
  - destruct (Z.eqb_spec p (part_count a)); [|lia].
    rewrite slice_length_until by lia. rewrite file_chunk_length by lia.
    simpl. lia.
  - destruct (Z.eqb_spec p (part_count a)); [lia|].
    rewrite file_chunk_length by lia.
    rewrite IH by nia. nia.
Qed.

(** The whole stream, when the file reaches to the end of the last
    planned part. *)
Lemma file_parts_total :
  0 <= start_offset a ->
  0 <= first_part_cut a <= chunk_size a ->
  1 <= part_count a ->
  start_offset a + (part_count a - 1) * chunk_size a + last_part_cut a
    <= Z.of_nat (length data) ->
  total_bytes (file_parts a data (Z.to_nat (part_count a)) 1 (start_offset a))
  = Z.max 0
      (if part_count a =? 1 then last_part_cut a - first_part_cut a
       else (chunk_size a - first_part_cut a)
            + (part_count a - 2) * chunk_size a + last_part_cut a).
Proof.
  intros Hs Hfc Hpc Hsize.
  replace (Z.to_nat (part_count a)) with (S (Z.to_nat (part_count a - 1))) by lia.
  cbn [file_parts]. rewrite total_bytes_cons. unfold cut.
  destruct (Z.eqb_spec (part_count a) 1) as [H1|H1].
  - rewrite H1. simpl. rewrite slice_length_both by lia.
    rewrite file_chunk_length by lia. lia.
  - rewrite Z.eqb_refl. rewrite slice_length_from by lia.
    rewrite file_chunk_length by lia.
    rewrite file_parts_tail_total; try lia; nia.
Qed.

End FileTotal.

(* ===================================================================== *)
(** ** The arithmetic of the fetch plan *)
(* ===================================================================== *)

Lemma ceil_div_pos (n b : Z) :
  0 < b -> 1 <= n -> Py.ceil_div n b = (n - 1) `div` b + 1.
Proof.
  intros Hb Hn. unfold Py.ceil_div.
  pose proof (Z.div_mod (n - 1) b ltac:(lia)) as E.
  pose proof (Z.mod_pos_bound (n - 1) b Hb) as R.
  rewrite <- (Z.div_unique (- n) b (- ((n - 1) `div` b + 1)) (b - 1 - (n - 1) `mod` b)); lia.
Qed.

Lemma ceil_div_nonpos (n b : Z) : 0 < b -> n <= 0 -> Py.ceil_div n b <= 0.
Proof.
  intros Hb Hn. unfold Py.ceil_div.
  assert (0 <= (- n) `div` b) by (apply Z.div_pos; lia). lia.
Qed.

Lemma plans_agree (cs fb ub : Z) :
  cs ≠ 0 -> App.range_plan cs fb ub = Webserver.range_plan cs fb ub.
Proof.
  intros Hcs. unfold App.range_plan, Webserver.range_plan.
  pose proof (Z.div_mod fb cs Hcs).
  replace (fb - fb `mod` cs) with (fb `div` cs * cs) by lia. done.
Qed.

Section PlanFacts.
Variables (cs from_bytes until_bytes : Z).
Hypothesis Hcs : 0 < cs.
Hypothesis Hrange : 0 <= from_bytes <= until_bytes.

Let p := Webserver.range_plan cs from_bytes until_bytes.

Lemma range_plan_offset : plan_offset p = from_bytes `div` cs * cs.
Proof.
  subst p. simpl. pose proof (Z.div_mod from_bytes cs ltac:(lia)). lia.
Qed.

Lemma range_plan_part_count :
  plan_part_count p = (until_bytes - from_bytes) `div` cs + 1.
Proof.
  subst p. simpl. rewrite ceil_div_pos by lia. do 2 f_equal. lia.
Qed.

Lemma range_plan_bounds :
  0 <= plan_first_part_cut p < cs
  /\ 0 < plan_last_part_cut p <= cs
  /\ 1 <= plan_part_count p.
Proof.
  rewrite range_plan_part_count. subst p. simpl.
  pose proof (Z.mod_pos_bound from_bytes cs Hcs).
  pose proof (Z.mod_pos_bound until_bytes cs Hcs).
  assert (0 <= (until_bytes - from_bytes) `div` cs) by (apply Z.div_pos; lia).
  lia.
Qed.

Lemma range_plan_part_count_le :
  plan_part_count p <= chunks_spanned cs from_bytes until_bytes.
Proof.
  rewrite range_plan_part_count. unfold chunks_spanned.
  pose proof (Z.div_mod from_bytes cs ltac:(lia)).
  pose proof (Z.div_mod until_bytes cs ltac:(lia)).
  pose proof (Z.mod_pos_bound from_bytes cs Hcs).
  pose proof (Z.mod_pos_bound until_bytes cs Hcs).
  assert ((until_bytes - from_bytes) `div` cs
          < until_bytes `div` cs - from_bytes `div` cs + 1); [|lia].
  apply Z.div_lt_upper_bound; [lia|]. nia.
Qed.

(** The plan stands for the requested byte count exactly when its part
    count is the number of chunks the range touches. *)
Lemma range_plan_total_iff :
  plan_implied_total cs p = until_bytes - from_bytes + 1
  <-> plan_part_count p = chunks_spanned cs from_bytes until_bytes.
Proof.
  pose proof range_plan_part_count_le as Hle.
  pose proof range_plan_bounds as (_ & _ & Hpc).
  unfold plan_implied_total, chunks_spanned in *.
  destruct (Z.eqb_spec (plan_part_count p) 1) as [H1|H1];
    subst p; simpl in *;
    pose proof (Z.div_mod from_bytes cs ltac:(lia));
    pose proof (Z.div_mod until_bytes cs ltac:(lia));
    pose proof (Z.mod_pos_bound from_bytes cs Hcs);
    pose proof (Z.mod_pos_bound until_bytes cs Hcs);
    split; intros; nia.
Qed.

(** A range that starts on a chunk boundary gets the right part count. *)
Lemma range_plan_aligned :
  from_bytes `mod` cs = 0 ->
  plan_part_count p = chunks_spanned cs from_bytes until_bytes.
Proof.
  intros Hal. rewrite range_plan_part_count. unfold chunks_spanned.
  pose proof (Z.div_mod from_bytes cs ltac:(lia)) as E.
  rewrite Hal in E.
  replace (until_bytes - from_bytes)
    with (until_bytes + (- (from_bytes `div` cs)) * cs) by lia.
  rewrite Z.div_add by lia. lia.
Qed.

(** The planned parts lie inside any file that holds the range. *)
Lemma range_plan_covered (size : Z) :
  until_bytes < size ->
  plan_offset p + (plan_part_count p - 1) * cs + plan_last_part_cut p <= size.
Proof.
  intros Hsize. pose proof range_plan_part_count_le as Hle.
  rewrite range_plan_offset. unfold chunks_spanned in Hle. subst p. simpl in *.
  pose proof (Z.div_mod until_bytes cs ltac:(lia)).
  pose proof (Z.mod_pos_bound until_bytes cs Hcs).
  nia.
Qed.

End PlanFacts.

(* ===================================================================== *)
(** ** Every run of the generator *)
(* ===================================================================== *)

Lemma requests_length a m : length (requests a m) = m.
Proof. induction m; simpl; [done|]. rewrite length_app; simpl. lia. Qed.

Lemma requests_lookup a m (k : nat) r :
  requests a m !! k = Some r ->
  r = request_at a (get_location (ya_file_id a))
        (start_offset a + Z.of_nat k * chunk_size a).
Proof.
  induction m as [|m IH]; simpl; [done|].
  intros H. apply lookup_app_Some in H as [H|[Hlen H]]; [by apply IH|].
  rewrite requests_length in Hlen, H.
  apply list_lookup_singleton_Some in H as [Hk <-].
  by replace k with m by lia.
Qed.

Lemma fetches_snoc_fetch l ms req : fetches (l ++ [EvFetch ms req]) = fetches l ++ [req].
Proof. unfold fetches. by rewrite omap_app. Qed.

Lemma fetches_snoc_incr l i : fetches (l ++ [EvIncr i]) = fetches l.
Proof. unfold fetches. rewrite omap_app. simpl. by rewrite app_nil_r. Qed.

Lemma fetches_snoc_decr l i : fetches (l ++ [EvDecr i]) = fetches l.
Proof. unfold fetches. rewrite omap_app. simpl. by rewrite app_nil_r. Qed.

Lemma release_fetches a pending w :
  fetches (log (release a pending w).2) = fetches (log w)
  /\ (release a pending w).1.2 = Finished.
Proof.
  unfold release, adjust_load. destruct (Py.get (index a) (work_loads w)); simpl.
  - by rewrite fetches_snoc_decr.
  - done.
Qed.

(** One turn of the loop entered as part [Z.of_nat m + 1] keeps the
    invariant. *)
Lemma loop_turn_fetch_inv c a w0 ms w (m : nat) :
  fetches (log w) = fetches (log w0) ++ requests a m ->
  Z.of_nat m <= Z.max 0 (part_count a) ->
  let r := loop_turn c a ms (get_location (ya_file_id a)) (Z.of_nat m + 1)
             (start_offset a + Z.of_nat m * chunk_size a) w in
  fetch_inv c a w0 (Build_generator c a r.1.2, r.2).
Proof.
  intros Hf Hm r. subst r. unfold loop_turn.
  destruct (Z.leb_spec (Z.of_nat m + 1) (part_count a)) as [Hle|Hgt].
  - set (req := {| location := _; offset := _; limit := _ |}).
    set (w1 := {| work_loads := _; media_sessions := _; log := log w ++ [EvFetch ms req] |}).
    assert (Hf1 : fetches (log w1) = fetches (log w0) ++ requests a (S m)).
    { subst w1; simpl. rewrite fetches_snoc_fetch, Hf, <- app_assoc. done. }
    assert (Hfin : forall o, fetch_inv c a w0
              (Build_generator c a (release a o w1).1.2, (release a o w1).2)).
    { intros o. destruct (release_fetches a o w1) as [E1 E2].
      repeat split; simpl. exists (S m). rewrite E1, E2. split; [done|].
      clear -Hle. lia. }
    destruct (send c ms req _) as [[chunk|]|e]; [|apply Hfin..].
    destruct chunk as [|x chunk]; [apply Hfin|].
    repeat split; simpl. exists (S m). split; [done|].
    clear -Hle. repeat split; lia.
  - destruct (release_fetches a StopAsyncIteration w) as [E1 E2].
    repeat split; simpl. exists m. by rewrite E1, E2.
Qed.

Lemma step_fetch_inv c a w0 o s :
  fetch_inv c a w0 s -> fetch_inv c a w0 (step o s).
Proof.
  destruct s as [[c' a' fr] w]. intros (Hc & Ha & m & Hf & Hfr); simpl in *.
  subst c' a'.
  assert (Hstay : forall w', fetches (log w') = fetches (log w) ->
            Z.of_nat m <= Z.max 0 (part_count a) ->
            fetch_inv c a w0 (Build_generator c a Finished, w')).
  { intros w' E Hm. repeat split; simpl. exists m. by rewrite E. }
  destruct o as [|e|].
  - (* Next *)
    unfold step; cbn [fst snd].
    destruct fr as [|ms loc cp off|].
    + subst m. unfold anext; simpl. unfold adjust_load.
      destruct (Py.get (index a) (work_loads w)) as [v|]; simpl;
        [|by apply Hstay; [|lia]].
      set (w1 := {| work_loads := _; media_sessions := _; log := _ |}).
      destruct (acquire_media_session c (ya_file_id a) w1) as [[ms w2]|e] eqn:Eacq; simpl.
      * apply acquire_keeps_loads in Eacq as [_ Elog].
        pose proof (loop_turn_fetch_inv c a w0 ms w2 O) as Hturn. cbv zeta in Hturn.
        replace (start_offset a + Z.of_nat 0 * chunk_size a)
          with (start_offset a) in Hturn by (simpl; lia).
        apply Hturn; [|lia].
        rewrite Elog. subst w1; simpl. by rewrite fetches_snoc_incr.
      * apply Hstay; [|lia]. subst w1; simpl. by rewrite fetches_snoc_incr.
    + destruct Hfr as (-> & -> & Hcp & ->).
      rewrite anext_at_yield. cbv zeta.
      replace (start_offset a + (Z.of_nat m - 1) * chunk_size a + chunk_size a)
        with (start_offset a + Z.of_nat m * chunk_size a) by lia.
      apply loop_turn_fetch_inv; [done|lia].
    + rewrite anext_finished. by apply Hstay.
  - (* Throw *)
    destruct fr as [|ms loc cp off|]; simpl.
    + apply Hstay; [done|lia].
    + destruct Hfr as (-> & -> & Hcp & ->).
      destruct (release_fetches a (Raised e) w) as [E1 E2].
      unfold athrow; simpl. rewrite E2. apply Hstay; [done|lia].
    + by apply Hstay.
  - (* Close *)
    destruct fr as [|ms loc cp off|]; simpl.
    + apply Hstay; [done|lia].
    + destruct Hfr as (-> & -> & Hcp & ->).
      destruct (release_fetches a (Raised GeneratorExit) w) as [E1 E2].
      unfold aclose, athrow; simpl. rewrite E2. apply Hstay; [done|lia].
    + by apply Hstay.
Qed.

Lemma run_fetch_inv c a w0 ops s :
  fetch_inv c a w0 s -> fetch_inv c a w0 (foldl (fun s o => step o s) s ops).
Proof.
  revert s. induction ops as [|o ops IH]; intros s H; simpl; [done|].
  apply IH. by apply step_fetch_inv.
Qed.

Lemma run_app ops1 ops2 g w :
  run (ops1 ++ ops2) g w = run ops2 (run ops1 g w).1 (run ops1 g w).2.
Proof.
  unfold run. rewrite foldl_app. by destruct (foldl _ (g, w) ops1).
Qed.

Lemma step_finished o c a w :
  step o (Build_generator c a Finished, w) = (Build_generator c a Finished, w).
Proof. by destruct o. Qed.

(** A finished generator stays as it is and touches nothing. *)
Lemma run_finished ops c a w :
  run ops (Build_generator c a Finished) w = (Build_generator c a Finished, w).
Proof.
  unfold run. induction ops as [|o ops IH]; simpl; [done|].
  by rewrite step_finished.
Qed.

Lemma count_incr_snoc index l e :
  count_incr index (l ++ [e])
  = (count_incr index l + if is_incr index e then 1 else 0)%nat.
Proof.
  unfold count_incr. rewrite List.filter_app, length_app. simpl.
  by destruct (is_incr index e).
Qed.

Lemma count_decr_snoc index l e :
  count_decr index (l ++ [e])
  = (count_decr index l + if is_decr index e then 1 else 0)%nat.
Proof.
  unfold count_decr. rewrite List.filter_app, length_app. simpl.
  by destruct (is_decr index e).
Qed.

Section LoadInvariant.
Variables (c : Client) (a : yield_args) (w0 : world) (v0 : Z).

Let entered (w : world) : Prop :=
  load (index a) w = Some (v0 + 1)
  /\ count_incr (index a) (log w) = S (count_incr (index a) (log w0))
  /\ count_decr (index a) (log w) = count_decr (index a) (log w0).

Lemma release_load_inv pending w :
  entered w ->
  load_inv c a w0 v0 (Build_generator c a (release a pending w).1.2, (release a pending w).2).
Proof.
  intros (Hl & Hi & Hd). rewrite (release_some _ _ _ _ Hl).
  repeat split; simpl.
  - replace (v0 + 1 - 1) with v0 by lia. apply load_with_load.
  - right. rewrite count_incr_snoc, count_decr_snoc; simpl.
    rewrite Z.eqb_refl, Hi, Hd. lia.
Qed.

Lemma loop_turn_load_inv ms loc cp off w :
  entered w ->
  let r := loop_turn c a ms loc cp off w in
  load_inv c a w0 v0 (Build_generator c a r.1.2, r.2).
Proof.
  intros Hw r. subst r. unfold loop_turn.
  destruct (cp <=? part_count a); [|by apply release_load_inv].
  set (req := {| location := _; offset := _; limit := _ |}).
  set (w1 := {| work_loads := _; media_sessions := _; log := log w ++ [EvFetch ms req] |}).
  assert (Hw1 : entered w1).
  { destruct Hw as (Hl & Hi & Hd). subst w1. repeat split; simpl.
    - done.
    - rewrite count_incr_snoc; simpl. lia.
    - rewrite count_decr_snoc; simpl. lia. }
  destruct (send c ms req _) as [[chunk|]|e]; [|by apply release_load_inv..].
  destruct chunk as [|x chunk]; [by apply release_load_inv|].
  destruct Hw1 as (? & ? & ?). by repeat split.
Qed.

Hypothesis Hload : load (index a) w0 = Some v0.
Hypothesis Hsetup : exists ms w2,
  acquire_media_session c (ya_file_id a)
    (with_load (index a) (v0 + 1) (EvIncr (index a)) w0) = Ok (ms, w2).

Lemma step_load_inv o s : load_inv c a w0 v0 s -> load_inv c a w0 v0 (step o s).
Proof.
  destruct s as [[c' a' fr] w]. intros (Hc & Ha & Hfr); simpl in *. subst c' a'.
  destruct fr as [|ms loc cp off|].
  - subst w. destruct o as [|e|].
    + unfold step; cbn [fst snd]. destruct Hsetup as (ms & w2 & Hacq).
      rewrite (anext_not_started _ _ _ _ _ _ Hload Hacq). cbv zeta. cbn [fst snd].
      apply loop_turn_load_inv.
      destruct (acquire_keeps_loads _ _ _ _ _ Hacq) as [E1 E2].
      unfold entered, load. rewrite E1, E2. simpl.
      rewrite get_set_eq, count_incr_snoc, count_decr_snoc; simpl.
      rewrite Z.eqb_refl. repeat split; lia.
    + repeat split; simpl; [done|]. by left.
    + repeat split; simpl; [done|]. by left.
  - destruct o as [|e|].
    + unfold step; cbn [fst snd]. rewrite anext_at_yield. cbv zeta. cbn [fst snd].
      apply loop_turn_load_inv. exact Hfr.
    + unfold step, athrow; cbn [fst snd gen_frame gen_args gen_client].
      apply release_load_inv. exact Hfr.
    + unfold step, aclose, athrow; cbn [fst snd gen_frame gen_args gen_client].
      apply release_load_inv. exact Hfr.
  - rewrite step_finished. exact (conj eq_refl (conj eq_refl Hfr)).
Qed.

Lemma run_load_inv ops :
  load_inv c a w0 v0 (run ops (Build_generator c a NotStarted) w0).
Proof.
  unfold run.
  assert (H : load_inv c a w0 v0 (Build_generator c a NotStarted, w0)) by by repeat split.
  revert H. generalize (Build_generator c a NotStarted, w0).
  induction ops as [|o ops IH]; intros s H; simpl; [done|].
  apply IH. by apply step_load_inv.
Qed.

End LoadInvariant.

Lemma close_finishes g w : gen_frame (aclose g w).1 = Finished.
Proof.
  unfold aclose, athrow. destruct (gen_frame g); simpl; try done.
  unfold release. by destruct (adjust_load _ _ _ _).
Qed.

(** The calls of [__anext__] that [pull] makes are a run. *)
Lemma pull_run (n : nat) g w :
  exists k : nat, (k <= n)%nat
    /\ ((pull n g w).1.2, (pull n g w).2) = run (replicate k Next) g w.
Proof.
  revert g w. induction n as [|n IH]; intros g w.
  - exists O. by split.
  - rewrite pull_S. destruct (anext g w) as [[o g'] w'] eqn:E.
    assert (Hone : run [Next] g w = (g', w')).
    { unfold run; simpl. by rewrite E. }
    destruct o as [chunk| |e|].
    + destruct (IH g' w') as (k & Hk & Hrun). exists (S k). split; [lia|].
      cbv zeta. cbn [fst snd]. rewrite Hrun.
      change (replicate (S k) Next) with ([Next] ++ replicate k Next).
      by rewrite run_app, Hone.
    + exists 1%nat. split; [lia|]. cbn [fst snd replicate]. by rewrite Hone.
    + exists 1%nat. split; [lia|]. cbn [fst snd replicate]. by rewrite Hone.
    + exists 1%nat. split; [lia|]. cbn [fst snd replicate]. by rewrite Hone.
Qed.

(** The requests of a consumer that only calls [__anext__]. *)
Lemma pull_fetches (n : nat) c a w :
  exists m : nat,
    Z.of_nat m <= Z.max 0 (part_count a)
    /\ fetches (log (pull n (Build_generator c a NotStarted) w).2)
       = fetches (log w) ++ requests a m.
Proof.
  destruct (pull_run n (Build_generator c a NotStarted) w) as (k & _ & Hrun).
  assert (Hinit : fetch_inv c a w (Build_generator c a NotStarted, w)).
  { repeat split. exists O. simpl. by rewrite app_nil_r. }
  pose proof (run_fetch_inv c a w (replicate k Next) _ Hinit) as (_ & _ & m & Hf & Hfr).
  fold (run (replicate k Next) (Build_generator c a NotStarted) w) in Hf, Hfr.
  rewrite <- Hrun in Hf, Hfr. cbn [fst snd] in Hf, Hfr.
  exists m. split; [|done].
  destruct (gen_frame _) as [|ms loc cp off|]; lia.
Qed.

(* ===================================================================== *)
(** ** The two handlers on an existing media *)
(* ===================================================================== *)

Section OnMedia.
Variables (client : Client) (index : Z) (request : Request) (msg_id : Z).
Variables (message : Message) (media : Media) (fid : FileId).
Hypothesis Hmessage : get_messages client msg_id = Ok message.
Hypothesis Hmedia : first_media message = Some media.
Hypothesis Hempty : empty message = false.
Hypothesis Hfid : file_id media = Ok fid.

Lemma webserver_try_parsed from_bytes until_bytes :
  Webserver.requested_range request (file_size media) = Ok (from_bytes, until_bytes) ->
  Webserver.stream_handler_try client index request msg_id
  = if (until_bytes >=? file_size media) || (from_bytes <? 0)
    then Raise (HTTPException 416)
    else Ok (Webserver.respond client index request media fid from_bytes until_bytes).
Proof.
  intros Hr. unfold Webserver.stream_handler_try.
  rewrite Hmessage; simpl. rewrite Hmedia, Hempty, Hfid; simpl. by rewrite Hr.
Qed.

Lemma webserver_try_unparsed e :
  Webserver.requested_range request (file_size media) = Raise e ->
  Webserver.stream_handler_try client index request msg_id = Raise e.
Proof.
  intros Hr. unfold Webserver.stream_handler_try.
  rewrite Hmessage; simpl. rewrite Hmedia, Hempty, Hfid; simpl. by rewrite Hr.
Qed.

Lemma app_try_parsed fb ub :
  App.requested_range request (file_size media) = Ok (fb, ub) ->
  App.stream_media_try client index request msg_id
  = if (ub >=? file_size media) || (fb <? 0)
    then Raise (HTTPException 416)
    else Ok (App.respond client index request media fid fb ub).
Proof.
  intros Hr. unfold App.stream_media_try.
  rewrite Hmessage; simpl. rewrite Hmedia, Hempty, Hfid; simpl. by rewrite Hr.
Qed.

Lemma app_try_unparsed e :
  App.requested_range request (file_size media) = Raise e ->
  App.stream_media_try client index request msg_id = Raise e.
Proof.
  intros Hr. unfold App.stream_media_try.
  rewrite Hmessage; simpl. rewrite Hmedia, Hempty, Hfid; simpl. by rewrite Hr.
Qed.

(** Without a range header [app.py] reads the unbound [ubs]. *)
Lemma app_requested_range_no_header :
  header_truthy (range_header request) = false ->
  App.requested_range request (file_size media) = Raise (UnboundLocalError "ubs").
Proof.
  intros Hh. unfold App.requested_range, App.parse_range. by rewrite Hh.
Qed.

Lemma webserver_requested_range_no_header :
  header_truthy (range_header request) = false ->
  Webserver.requested_range request (file_size media) = Ok (0, file_size media - 1).
Proof. intros Hh. unfold Webserver.requested_range. by rewrite Hh. Qed.

End OnMedia.

Lemma webserver_handler_selected work_loads (multi_clients : gmap Z Client)
    client request msg_id :
  multi_clients !! Py.min_by_value work_loads 0 = Some client ->
  Webserver.stream_handler work_loads multi_clients request msg_id
  = match Webserver.stream_handler_try client (Py.min_by_value work_loads 0)
            request msg_id with
    | Ok response => Ok response
    | Raise FileNotFoundError => Raise (HTTPException 404)
    | Raise e => if is_Exception e then Raise (NameError "traceback") else Raise e
    end.
Proof. intros H. unfold Webserver.stream_handler. by rewrite H. Qed.

Lemma app_handler_selected work_loads (multi_clients : gmap Z Client)
    client request msg_id :
  multi_clients !! Py.min_by_value work_loads 0 = Some client ->
  App.stream_media work_loads multi_clients request msg_id
  = match App.stream_media_try client (Py.min_by_value work_loads 0)
            request msg_id with
    | Ok response => Ok response
    | Raise FileNotFoundError => Raise (HTTPException 404)
    | Raise e => if is_Exception e then Raise (HTTPException 500) else Raise e
    end.
Proof. intros H. unfold App.stream_media. by rewrite H. Qed.





(* ===================================================================== *)
(** ** What a complete stream delivers *)
(* ===================================================================== *)

Lemma pull_enough (n : nat) g w o :
  (pull n g w).1.1.2 = Some o ->
  forall n', (n <= n')%nat -> pull n' g w = pull n g w.
Proof.
  revert g w. induction n as [|n IH]; intros g w Ho n' Hn'; [done|].
  destruct n' as [|n']; [lia|].
  rewrite !pull_S in *. destruct (anext g w) as [[[chunk| |e|] g'] w']; try done.
  cbv zeta in *. cbn [fst snd] in Ho. by rewrite (IH g' w' Ho n') by lia.
Qed.

Section StreamTotal.
Variables (c : Client) (fid : FileId) (index : Z) (data : bytes).
Variables (cs from_bytes until_bytes : Z) (w : world) (v : Z).
Hypothesis Hsend : forall ms req n,
  send c ms req n = Ok (upload_File (file_chunk data (offset req) (limit req))).
Hypothesis Hcs : 0 < cs.
Hypothesis Hrange : 0 <= from_bytes <= until_bytes.
Hypothesis Hsize : until_bytes < Z.of_nat (length data).
Hypothesis Hload : load index w = Some v.
Hypothesis Hsetup : exists ms w2,
  acquire_media_session c fid (with_load index (v + 1) (EvIncr index) w) = Ok (ms, w2).

Let p := Webserver.range_plan cs from_bytes until_bytes.
Let g := new_generator c fid index p cs.

(** The stream of a valid range from a file that holds it ends after
    [part_count + 1] calls, restores the load counter and delivers the byte
    count the plan stands for, or nothing when that count is negative. *)
Lemma stream_range_total :
  let r := pull (S (Z.to_nat (plan_part_count p))) g w in
  total_bytes r.1.1.1 = Z.max 0 (plan_implied_total cs p)
  /\ r.1.1.2 = Some StopAsyncIteration
  /\ gen_frame r.1.2 = Finished
  /\ load index r.2 = Some v.
Proof.
  destruct Hsetup as (ms & w2 & Hacq).
  pose proof (range_plan_bounds cs from_bytes until_bytes Hcs Hrange)
    as (Hfc & Hlc & Hpc).
  pose proof (range_plan_covered cs from_bytes until_bytes Hcs Hrange
                (Z.of_nat (length data)) Hsize) as Hcov.
  pose proof (range_plan_offset cs from_bytes until_bytes Hcs) as Hoff.
  assert (0 <= plan_offset (Webserver.range_plan cs from_bytes until_bytes)).
  { rewrite Hoff. apply Z.mul_nonneg_nonneg; [apply Z.div_pos|]; lia. }
  destruct (pull_file_fresh c (gen_args g) data Hsend Hcs w v ms w2)
    as (H1 & H2 & H3 & H4); try done.
  { subst g p. simpl in *. nia. }
  cbv zeta. repeat split.
  - etransitivity; [exact (f_equal total_bytes H1)|].
    rewrite file_parts_total; subst g p; simpl in *; try lia. done.
  - exact H2.
  - exact (f_equal gen_frame H3).
  - exact H4.
Qed.

End StreamTotal.

(* ===================================================================== *)
(** ** One session serving one file *)
(* ===================================================================== *)

(** The smallest deployment: session 0 is the only one and idle, and the
    storage channel holds one document whose bytes are [data]. *)
Section OneFile.
Variables (data : bytes) (request : Request).

Let size := Z.of_nat (length data).
Let client := file_client (Examples.msg size) data.

Lemma one_file_webserver from_bytes until_bytes :
  Webserver.requested_range request size = Ok (from_bytes, until_bytes) ->
  0 <= from_bytes -> until_bytes < size ->
  Webserver.stream_handler [(0, 0)] {[0 := client]} request 1
  = Ok (Webserver.respond client 0 request (Examples.doc size) Examples.fid
          from_bytes until_bytes).
Proof.
  intros Hr Hf Hu.
  rewrite (webserver_handler_selected _ _ client) by apply lookup_singleton_eq.
  rewrite (webserver_try_parsed client _ request 1 (Examples.msg size)
             (Examples.doc size) Examples.fid eq_refl eq_refl eq_refl eq_refl
             from_bytes until_bytes Hr).
  change (file_size (Examples.doc size)) with size.
  destruct (Z.geb_spec until_bytes size); [lia|].
  destruct (Z.ltb_spec from_bytes 0); [lia|]. done.
Qed.

Lemma one_file_stream from_bytes until_bytes :
  0 <= from_bytes <= until_bytes -> until_bytes < size ->
  let p := Webserver.range_plan (1024 * 1024) from_bytes until_bytes in
  let r := pull (S (Z.to_nat (plan_part_count p)))
             (new_generator client Examples.fid 0 p (1024 * 1024)) Examples.w0 in
  total_bytes r.1.1.1 = Z.max 0 (plan_implied_total (1024 * 1024) p)
  /\ r.1.1.2 = Some StopAsyncIteration
  /\ gen_frame r.1.2 = Finished
  /\ load 0 r.2 = Some 0.
Proof.
  intros Hrange Hsize.
  apply (stream_range_total client Examples.fid 0 data (1024 * 1024)
           from_bytes until_bytes Examples.w0 0); try done.
  eexists _, _. reflexivity.
Qed.

End OneFile.

Lemma zeros_length (n : Z) : 0 <= n -> Z.of_nat (length (Examples.zeros n)) = n.
Proof. intros H. unfold Examples.zeros. rewrite length_replicate. lia. Qed.

(* ===================================================================== *)
(** ** The byte count of a stream *)
(* ===================================================================== *)

(** C1.  The byte count of a complete stream is not always
    [end - start + 1]: for every file of 2 MiB, the valid range
    [bytes=1048575-1048576] (2 bytes, one on each side of the first chunk
    boundary) gets a response that announces 2 bytes, and its body, run to
    the end against a backend that serves full chunks, delivers none.  The
    part count is 1, so only the chunk at offset 0 is fetched and it is cut
    as [chunk[1048575:1]]. *)
Theorem crossing_range_delivers_nothing (data : bytes) :
  Z.of_nat (length data) = 2097152 ->
  let client := file_client (Examples.msg (Z.of_nat (length data))) data in
  let request := {| range_header := Some "bytes=1048575-1048576"%string |} in
  (0 <= 1048575 <= 1048576 /\ 1048576 < Z.of_nat (length data))
  /\ exists response,
       Webserver.stream_handler [(0, 0)] {[0 := client]} request 1 = Ok response
       /\ header "Content-Length" response = Some "2"%string
       /\ part_count (gen_args (content response)) = 1
       /\ (pull 2 (content response) Examples.w0).1.1.2 = Some StopAsyncIteration
       /\ total_bytes (pull 2 (content response) Examples.w0).1.1.1 = 0.
Proof.
  intros Hlen client request. split; [lia|].
  eexists. split.
  { apply (one_file_webserver data request 1048575 1048576); [|lia..].
    by rewrite Hlen. }
  destruct (one_file_stream data 1048575 1048576 ltac:(lia) ltac:(lia))
    as (Htotal & Hend & _ & _).
  repeat split; [exact Hend | exact Htotal].
Qed.

Lemma crossing_range_delivers_nothing_witness :
  let data := Examples.zeros 2097152 in
  let client := file_client (Examples.msg (Z.of_nat (length data))) data in
  let request := {| range_header := Some "bytes=1048575-1048576"%string |} in
  (0 <= 1048575 <= 1048576 /\ 1048576 < Z.of_nat (length data))
  /\ exists response,
       Webserver.stream_handler [(0, 0)] {[0 := client]} request 1 = Ok response
       /\ header "Content-Length" response = Some "2"%string
       /\ part_count (gen_args (content response)) = 1
       /\ (pull 2 (content response) Examples.w0).1.1.2 = Some StopAsyncIteration
       /\ total_bytes (pull 2 (content response) Examples.w0).1.1.1 = 0.
Proof.
  apply (crossing_range_delivers_nothing (Examples.zeros 2097152)).
  by apply zeros_length.
Defined.

(** C3.  For every file of [3 * 1048576] bytes and the header
    [bytes=500000-1500000], the handler computes the plan [offset = 0],
    [firstCut = 500000], [lastCut = 451425] and [partCount = 1], not 2, and
    the resulting stream delivers 0 bytes in total, not 1000001: at most
    one chunk is fetched, the one at offset 0, and it is cut as
    [chunk[500000:451425]]. *)
Theorem partial_range_example (data : bytes) :
  Z.of_nat (length data) = 3 * 1048576 ->
  let client := file_client (Examples.msg (Z.of_nat (length data))) data in
  let request := {| range_header := Some "bytes=500000-1500000"%string |} in
  exists response,
    Webserver.stream_handler [(0, 0)] {[0 := client]} request 1 = Ok response
    /\ gen_args (content response)
       = {| ya_file_id := Examples.fid; index := 0; start_offset := 0;
            first_part_cut := 500000; last_part_cut := 451425;
            part_count := 1; chunk_size := 1048576 |}
    /\ status_code response = 206
    /\ header "Content-Length" response = Some "1000001"%string
    /\ (pull 2 (content response) Examples.w0).1.1.2 = Some StopAsyncIteration
    /\ total_bytes (pull 2 (content response) Examples.w0).1.1.1 = 0
    /\ exists m : nat,
         (m <= 1)%nat
         /\ fetches (log (pull 2 (content response) Examples.w0).2)
            = requests (gen_args (content response)) m.
Proof.
  intros Hlen client request.
  eexists. split.
  { apply (one_file_webserver data request 500000 1500000); [|lia..].
    by rewrite Hlen. }
  destruct (one_file_stream data 500000 1500000 ltac:(lia) ltac:(lia))
    as (Htotal & Hend & _ & _).
  split; [done|]. split; [done|]. split; [done|].
  split; [exact Hend|]. split; [exact Htotal|].
  destruct (pull_fetches 2 client
              (gen_args (new_generator client Examples.fid 0
                           (Webserver.range_plan (1024 * 1024) 500000 1500000)
                           (1024 * 1024)))
              Examples.w0) as (m & Hm & Hf).
  exists m. split; [|exact Hf].
  change (Z.of_nat m <= 1) in Hm. lia.
Qed.

Lemma partial_range_example_witness :
  let data := Examples.zeros (3 * 1048576) in
  let client := file_client (Examples.msg (Z.of_nat (length data))) data in
  let request := {| range_header := Some "bytes=500000-1500000"%string |} in
  exists response,
    Webserver.stream_handler [(0, 0)] {[0 := client]} request 1 = Ok response
    /\ gen_args (content response)
       = {| ya_file_id := Examples.fid; index := 0; start_offset := 0;
            first_part_cut := 500000; last_part_cut := 451425;
            part_count := 1; chunk_size := 1048576 |}
    /\ status_code response = 206
    /\ header "Content-Length" response = Some "1000001"%string
    /\ (pull 2 (content response) Examples.w0).1.1.2 = Some StopAsyncIteration
    /\ total_bytes (pull 2 (content response) Examples.w0).1.1.1 = 0
    /\ exists m : nat,
         (m <= 1)%nat
         /\ fetches (log (pull 2 (content response) Examples.w0).2)
            = requests (gen_args (content response)) m.
Proof.
  apply (partial_range_example (Examples.zeros (3 * 1048576))).
  by apply zeros_length.
Defined.

(** C6.  The plans of two valid requests on a file of [3 * 1048576] bytes.
    For [500000..1500000] the part count is 1 and the slicing rule stands
    for [451425 - 500000] bytes, not 1000001; for [1000000..2200000] the
    part count is 2 and the rule stands for 151425 bytes, not 1200001.  The
    two handlers compute the same plans. *)
Theorem plan_total_mismatch :
  (0 <= 500000 <= 1500000 /\ 1500000 < 3 * 1048576
   /\ Webserver.range_plan (1024 * 1024) 500000 1500000
      = {| plan_offset := 0; plan_first_part_cut := 500000;
           plan_last_part_cut := 451425; plan_part_count := 1 |}
   /\ plan_implied_total (1024 * 1024)
        (Webserver.range_plan (1024 * 1024) 500000 1500000) = -48575
   /\ 1500000 - 500000 + 1 = 1000001)
  /\ (0 <= 1000000 <= 2200000 /\ 2200000 < 3 * 1048576
      /\ Webserver.range_plan (1024 * 1024) 1000000 2200000
         = {| plan_offset := 0; plan_first_part_cut := 1000000;
              plan_last_part_cut := 102849; plan_part_count := 2 |}
      /\ plan_implied_total (1024 * 1024)
           (Webserver.range_plan (1024 * 1024) 1000000 2200000) = 151425
      /\ 2200000 - 1000000 + 1 = 1200001)
  /\ App.range_plan (1024 * 1024) 500000 1500000
     = Webserver.range_plan (1024 * 1024) 500000 1500000
  /\ App.range_plan (1024 * 1024) 1000000 2200000
     = Webserver.range_plan (1024 * 1024) 1000000 2200000.
Proof. repeat split; (lia || reflexivity). Qed.

(* ===================================================================== *)
(** ** Range check, status and headers *)
(* ===================================================================== *)

(** A request [app.py] can parse is parsed alike by [webserver.py]. *)
Lemma app_range_is_webserver_range request size from_bytes until_bytes :
  App.requested_range request size = Ok (from_bytes, until_bytes) ->
  Webserver.requested_range request size = Ok (from_bytes, until_bytes).
Proof.
  unfold App.requested_range, App.parse_range, Webserver.requested_range,
    Webserver.parse_range.
  destruct (header_truthy (range_header request)); [|done].
  destruct (Py.split _ _) as [|a [|b [|? ?]]]; try done.
  simpl. destruct (Py.int a); simpl; [|done].
  destruct (Py.truthy b); [destruct (Py.int b)|]; simpl; congruence.
Qed.

(** The test of line 165 ([app.py] line 119). *)
Lemma range_test_iff (from_bytes until_bytes size : Z) :
  (until_bytes >=? size) || (from_bytes <? 0) = true
  <-> (until_bytes >= size \/ from_bytes < 0).
Proof.
  rewrite orb_true_iff.
  destruct (Z.geb_spec until_bytes size), (Z.ltb_spec from_bytes 0);
    split; intros; try lia; auto.
Qed.

Lemma range_test_cases {A} (from_bytes until_bytes size : Z) (x y : A) :
  (until_bytes >= size \/ from_bytes < 0
   -> (if (until_bytes >=? size) || (from_bytes <? 0) then x else y) = x)
  /\ (until_bytes < size /\ 0 <= from_bytes
      -> (if (until_bytes >=? size) || (from_bytes <? 0) then x else y) = y).
Proof.
  split; intros H.
  - apply range_test_iff in H. by rewrite H.
  - destruct ((until_bytes >=? size) || (from_bytes <? 0)) eqn:E; [|done].
    apply range_test_iff in E. lia.
Qed.




(** The range error never reaches the client as 416: the
    [except Exception] clause of either handler catches the
    [HTTPException] raised inside the [try]. *)
Lemma unsatisfiable_range_status work_loads (multi_clients : gmap Z Client)
    client request msg_id message media fid from_bytes until_bytes :
  multi_clients !! Py.min_by_value work_loads 0 = Some client ->
  get_messages client msg_id = Ok message ->
  first_media message = Some media ->
  empty message = false ->
  file_id media = Ok fid ->
  Webserver.requested_range request (file_size media) = Ok (from_bytes, until_bytes) ->
  until_bytes >= file_size media \/ from_bytes < 0 ->
  Webserver.stream_handler work_loads multi_clients request msg_id
  = Raise (NameError "traceback")
  /\ http_status (Webserver.stream_handler work_loads multi_clients request msg_id) = 500
  /\ (App.requested_range request (file_size media) = Ok (from_bytes, until_bytes) ->
      App.stream_media work_loads multi_clients request msg_id
      = Raise (HTTPException 500)).
Proof.
  intros Hsel Hmsg Hmedia Hempty Hfid Hr Hbad.
  rewrite (webserver_handler_selected _ _ _ _ _ Hsel).
  rewrite (webserver_try_parsed _ _ _ _ _ _ _ Hmsg Hmedia Hempty Hfid _ _ Hr).
  apply range_test_iff in Hbad as Htest. rewrite Htest.
  repeat split. intros Happ.
  rewrite (app_handler_selected _ _ _ _ _ Hsel).
  rewrite (app_try_parsed _ _ _ _ _ _ _ Hmsg Hmedia Hempty Hfid _ _ Happ).
  by rewrite Htest.
Qed.

(** C5.  [stream_media] of [app.py] answers no request without a range
    header with status 200: on every existing media, whatever its size,
    the read of the unbound [ubs] on line 118 raises, the [except Exception]
    clause turns it into [HTTPException(500)], and no body is made. *)
Theorem app_full_request_fails work_loads (multi_clients : gmap Z Client)
    client request msg_id message media fid :
  multi_clients !! Py.min_by_value work_loads 0 = Some client ->
  get_messages client msg_id = Ok message ->
  first_media message = Some media ->
  empty message = false ->
  file_id media = Ok fid ->
  header_truthy (range_header request) = false ->
  App.stream_media work_loads multi_clients request msg_id = Raise (HTTPException 500)
  /\ http_status (App.stream_media work_loads multi_clients request msg_id) = 500.
Proof.
  intros Hsel Hmsg Hmedia Hempty Hfid Hh.
  rewrite (app_handler_selected _ _ _ _ _ Hsel).
  rewrite (app_try_unparsed _ _ _ _ _ _ _ Hmsg Hmedia Hempty Hfid
             (UnboundLocalError "ubs")); [done|].
  by apply app_requested_range_no_header.
Qed.

Lemma app_full_request_fails_witness :
  let client := file_client (Examples.msg 12) Examples.twelve in
  let request := {| range_header := None |} in
  App.stream_media [(0, 0)] {[0 := client]} request 1 = Raise (HTTPException 500)
  /\ http_status (App.stream_media [(0, 0)] {[0 := client]} request 1) = 500.
Proof.
  apply (app_full_request_fails [(0, 0)]
           {[0 := file_client (Examples.msg 12) Examples.twelve]}
           (file_client (Examples.msg 12) Examples.twelve)
           {| range_header := None |} 1
           (Examples.msg 12) (Examples.doc 12) Examples.fid);
    reflexivity.
Defined.

(** C8.  A full response of [stream_handler] carries a [Content-Range]
    header: without a range header, on every existing media, the status is
    200 and the header dictionary holds
    [Content-Range: bytes 0-<size-1>/<size>] next to the four other
    headers.  [stream_media] of [app.py] adds the header under [if rh]
    only. *)
Theorem full_response_has_content_range work_loads (multi_clients : gmap Z Client)
    client request msg_id message media fid :
  multi_clients !! Py.min_by_value work_loads 0 = Some client ->
  get_messages client msg_id = Ok message ->
  first_media message = Some media ->
  empty message = false ->
  file_id media = Ok fid ->
  header_truthy (range_header request) = false ->
  exists response,
    Webserver.stream_handler work_loads multi_clients request msg_id = Ok response
    /\ status_code response = 200
    /\ header "Content-Range" response
       = Some (content_range 0 (file_size media - 1) (file_size media))
    /\ map fst (headers response)
       = ["Content-Type"; "Content-Range"; "Content-Length"; "Accept-Ranges";
          "Content-Disposition"]%string
    /\ header "Content-Length" response = Some (Py.str (file_size media))
    /\ forall fb ub,
         header "Content-Range"
           (App.respond client (Py.min_by_value work_loads 0) request media fid fb ub)
         = None.
Proof.
  intros Hsel Hmsg Hmedia Hempty Hfid Hh.
  rewrite (webserver_handler_selected _ _ _ _ _ Hsel).
  rewrite (webserver_try_parsed _ _ _ _ _ _ _ Hmsg Hmedia Hempty Hfid 0
             (file_size media - 1)) by by apply webserver_requested_range_no_header.
  destruct (range_test_cases 0 (file_size media - 1) (file_size media)
              (@Raise StreamingResponse (HTTPException 416))
              (Ok (Webserver.respond client (Py.min_by_value work_loads 0) request
                     media fid 0 (file_size media - 1)))) as [_ Hok].
  rewrite Hok by lia. eexists. split; [done|].
  unfold Webserver.respond, App.respond, header; simpl. rewrite Hh; simpl.
  repeat split.
  by replace (file_size media - 1 - 0 + 1) with (file_size media) by lia.
Qed.

Lemma full_response_has_content_range_witness :
  let client := file_client (Examples.msg 12) Examples.twelve in
  let request := {| range_header := None |} in
  exists response,
    Webserver.stream_handler [(0, 0)] {[0 := client]} request 1 = Ok response
    /\ status_code response = 200
    /\ header "Content-Range" response = Some (content_range 0 (12 - 1) 12)
    /\ map fst (headers response)
       = ["Content-Type"; "Content-Range"; "Content-Length"; "Accept-Ranges";
          "Content-Disposition"]%string
    /\ header "Content-Length" response = Some (Py.str 12)
    /\ forall fb ub,
         header "Content-Range"
           (App.respond client (Py.min_by_value [(0, 0)] 0) request
              (Examples.doc 12) Examples.fid fb ub)
         = None.
Proof.
  apply (full_response_has_content_range [(0, 0)]
           {[0 := file_client (Examples.msg 12) Examples.twelve]}
           (file_client (Examples.msg 12) Examples.twelve)
           {| range_header := None |} 1
           (Examples.msg 12) (Examples.doc 12) Examples.fid);
    reflexivity.
Defined.

Example content_range_full : content_range 0 (12 - 1) 12 = "bytes 0-11/12"%string.
Proof. reflexivity. Qed.

(* ===================================================================== *)
(** ** The load counter and the requests *)
(* ===================================================================== *)

(** C4.  The counter is not released on every exit path.  When the media
    session of the file's datacenter cannot be acquired - the awaited
    calls of lines 66-67 raise, or the consumer is cancelled while they are
    awaited - the first [__anext__] raises after [work_loads[index] += 1]
    and before the [try] is entered: the generator is finished, the
    counter stays one above its value before the request, and nothing the
    consumer does afterwards decrements it. *)
Theorem setup_failure_leaks_load (c : Client) (a : yield_args) (w : world) (v : Z)
    (e : exn) (ops : list op) :
  load (index a) w = Some v ->
  acquire_media_session c (ya_file_id a)
    (with_load (index a) (v + 1) (EvIncr (index a)) w) = Raise e ->
  anext (Build_generator c a NotStarted) w
  = (Raised e, Build_generator c a Finished,
     with_load (index a) (v + 1) (EvIncr (index a)) w)
  /\ gen_frame (run (Next :: ops) (Build_generator c a NotStarted) w).1 = Finished
  /\ load (index a) (run (Next :: ops) (Build_generator c a NotStarted) w).2
     = Some (v + 1)
  /\ count_incr (index a) (log (run (Next :: ops) (Build_generator c a NotStarted) w).2)
     = S (count_incr (index a) (log w))
  /\ count_decr (index a) (log (run (Next :: ops) (Build_generator c a NotStarted) w).2)
     = count_decr (index a) (log w).
Proof.
  intros Hl Hacq. pose proof (anext_setup_raises _ _ _ _ _ Hl Hacq) as Hnext.
  split; [done|].
  change (Next :: ops) with ([Next] ++ ops). rewrite run_app.
  assert (Hone : run [Next] (Build_generator c a NotStarted) w
                 = (Build_generator c a Finished,
                    with_load (index a) (v + 1) (EvIncr (index a)) w)).
  { unfold run; simpl. by rewrite Hnext. }
  rewrite Hone. cbn [fst snd]. rewrite run_finished. cbn [fst snd gen_frame].
  repeat split.
  - apply load_with_load.
  - simpl. rewrite count_incr_snoc; simpl. rewrite Z.eqb_refl. lia.
  - simpl. rewrite count_decr_snoc; simpl. lia.
Qed.

Lemma setup_failure_leaks_load_witness :
  let c := Examples.failing_client in
  let a := Examples.args4 0 1 3 3 in
  let w := Examples.w0 in
  let ops := [Next; Close] in
  anext (Build_generator c a NotStarted) w
  = (Raised (RPCError 420), Build_generator c a Finished,
     with_load (index a) (0 + 1) (EvIncr (index a)) w)
  /\ gen_frame (run (Next :: ops) (Build_generator c a NotStarted) w).1 = Finished
  /\ load (index a) (run (Next :: ops) (Build_generator c a NotStarted) w).2
     = Some (0 + 1)
  /\ count_incr (index a) (log (run (Next :: ops) (Build_generator c a NotStarted) w).2)
     = S (count_incr (index a) (log w))
  /\ count_decr (index a) (log (run (Next :: ops) (Build_generator c a NotStarted) w).2)
     = count_decr (index a) (log w).
Proof.
  apply (setup_failure_leaks_load Examples.failing_client (Examples.args4 0 1 3 3)
           Examples.w0 0 (RPCError 420) [Next; Close]); reflexivity.
Defined.

(** C9.  When fewer than [part_count] parts were yielded and the request
    of the next part is answered by a reply that is not an [upload.File],
    or by an empty byte string, [__anext__] ends the iteration without an
    exception; the log gains this one request and one decrement, the
    counter goes down by one, and the generator is finished: whatever the
    consumer does next issues no request and leaves the counter alone. *)
Theorem end_of_data_is_silent (g : generator) (w w1 : world) (ms : session)
    (req : GetFile) (v : Z) (ops : list op) :
  next_request g w = Some (ms, req, w1) ->
  load (index (gen_args g)) w1 = Some v ->
  send (gen_client g) ms req (length (fetches (log w1))) = Ok (upload_File [])
  \/ send (gen_client g) ms req (length (fetches (log w1))) = Ok upload_FileCdnRedirect ->
  let finished := Build_generator (gen_client g) (gen_args g) Finished in
  let w' := with_load (index (gen_args g)) (v - 1) (EvDecr (index (gen_args g)))
              (with_fetch ms req w1) in
  anext g w = (StopAsyncIteration, finished, w')
  /\ log w' = log w1 ++ [EvFetch ms req; EvDecr (index (gen_args g))]
  /\ load (index (gen_args g)) w' = Some (v - 1)
  /\ run ops finished w' = (finished, w').
Proof.
  destruct g as [c a fr]. simpl. intros Hnext Hl Hreply.
  assert (Hturn : forall loc cp off,
            req = request_at a loc off -> cp <= part_count a ->
            loop_turn c a ms loc cp off w1
            = (StopAsyncIteration, Finished,
               with_load (index a) (v - 1) (EvDecr (index a)) (with_fetch ms req w1))).
  { intros loc cp off -> Hcp. rewrite loop_turn_end_of_data by done.
    by apply release_some. }
  repeat split.
  - unfold next_request in Hnext; simpl in Hnext.
    destruct fr as [|ms' loc cp off|]; [| |done].
    + unfold anext; simpl.
      destruct (adjust_load (index a) 1 (EvIncr (index a)) w) as [w0|]; [|done].
      destruct (acquire_media_session c (ya_file_id a) w0) as [[ms' w2]|]; [|done].
      destruct (Z.leb_spec 1 (part_count a)); [|done].
      injection Hnext as -> <- ->. by rewrite (Hturn _ 1 _ eq_refl).
    + destruct (Z.leb_spec (cp + 1) (part_count a)); [|done].
      injection Hnext as -> <- ->. rewrite anext_at_yield. cbv zeta.
      by rewrite (Hturn _ (cp + 1) _ eq_refl).
  - simpl. by rewrite <- app_assoc.
  - apply load_with_load.
  - apply run_finished.
Qed.

Lemma end_of_data_is_silent_witness :
  let g := Build_generator Examples.redirect_client (Examples.args4 0 1 3 3) NotStarted in
  let w1 := {| work_loads := [(0, 1)];
               media_sessions := {[2 := ClientSession]};
               log := [EvIncr 0] |} in
  let req := request_at (Examples.args4 0 1 3 3) (get_location Examples.fid) 0 in
  let finished := Build_generator (gen_client g) (gen_args g) Finished in
  let w' := with_load (index (gen_args g)) (1 - 1) (EvDecr (index (gen_args g)))
              (with_fetch ClientSession req w1) in
  anext g Examples.w0 = (StopAsyncIteration, finished, w')
  /\ log w' = log w1 ++ [EvFetch ClientSession req; EvDecr (index (gen_args g))]
  /\ load (index (gen_args g)) w' = Some (1 - 1)
  /\ run [Next; Close] finished w' = (finished, w').
Proof.
  apply (end_of_data_is_silent
           (Build_generator Examples.redirect_client (Examples.args4 0 1 3 3) NotStarted)
           Examples.w0
           {| work_loads := [(0, 1)]; media_sessions := {[2 := ClientSession]};
              log := [EvIncr 0] |}
           ClientSession
           (request_at (Examples.args4 0 1 3 3) (get_location Examples.fid) 0)
           1 [Next; Close]).
  - reflexivity.
  - reflexivity.
  - right. reflexivity.
Defined.

(** C10.  In every run of [yield_file] on a plan of the handler - any
    sequence of [__anext__], [athrow] and [aclose] calls, against any
    backend - the requests the run adds to the log are [requests]: request
    number [k + 1] asks for [chunk_size] bytes at
    [plan.offset + k * chunk_size].  As [plan.offset] is
    [floor(from_bytes / chunk_size) * chunk_size], every offset is a
    non-negative multiple of the chunk size, the offsets grow strictly, and
    there are at most [part_count] requests (none when [part_count] is not
    positive). *)
Theorem fetch_offsets (c : Client) (fid : FileId) (index cs from_bytes until_bytes : Z)
    (w : world) (ops : list op) :
  0 < cs -> 0 <= from_bytes ->
  let p := Webserver.range_plan cs from_bytes until_bytes in
  let g := new_generator c fid index p cs in
  exists m : nat,
    fetches (log (run ops g w).2) = fetches (log w) ++ requests (gen_args g) m
    /\ Z.of_nat m <= Z.max 0 (plan_part_count p)
    /\ plan_offset p = from_bytes `div` cs * cs
    /\ forall (k : nat) r,
         requests (gen_args g) m !! k = Some r ->
         offset r = plan_offset p + Z.of_nat k * cs
         /\ limit r = cs
         /\ offset r = (from_bytes `div` cs + Z.of_nat k) * cs
         /\ 0 <= offset r
         /\ forall (j : nat) r',
              (j < k)%nat -> requests (gen_args g) m !! j = Some r' ->
              offset r' < offset r.
Proof.
  intros Hcs Hfrom p g.
  assert (Hinit : fetch_inv c (gen_args g) w (g, w)).
  { repeat split. exists O. simpl. by rewrite app_nil_r. }
  pose proof (run_fetch_inv c (gen_args g) w ops (g, w) Hinit) as (_ & Hargs & m & Hf & Hfr).
  fold (run ops g w) in Hargs, Hf, Hfr.
  pose proof (range_plan_offset cs from_bytes until_bytes Hcs) as Hoff. fold p in Hoff.
  assert (Hq : 0 <= from_bytes `div` cs) by (apply Z.div_pos; lia).
  assert (Hreq : forall (k : nat) r,
            requests (gen_args g) m !! k = Some r ->
            offset r = plan_offset p + Z.of_nat k * cs /\ limit r = cs).
  { intros k r Hr. apply requests_lookup in Hr. by subst r. }
  exists m. split; [done|]. split.
  { destruct (gen_frame (run ops g w).1) as [|ms loc cp off|]; simpl in *; lia. }
  split; [done|].
  intros k r Hr. destruct (Hreq k r Hr) as [Hk Hlim]. rewrite Hk, Hoff.
  repeat split; try done; try nia.
  intros j r' Hj Hr'. destruct (Hreq j r' Hr') as [Hj' _]. rewrite Hj', Hoff. nia.
Qed.

Lemma fetch_offsets_witness :
  let c := file_client (Examples.msg 12) Examples.twelve in
  let p := Webserver.range_plan 4 1 10 in
  let g := new_generator c Examples.fid 0 p 4 in
  exists m : nat,
    fetches (log (run [Next; Next; Close] g Examples.w0).2)
    = fetches (log Examples.w0) ++ requests (gen_args g) m
    /\ Z.of_nat m <= Z.max 0 (plan_part_count p)
    /\ plan_offset p = 1 `div` 4 * 4
    /\ forall (k : nat) r,
         requests (gen_args g) m !! k = Some r ->
         offset r = plan_offset p + Z.of_nat k * 4
         /\ limit r = 4
         /\ offset r = (1 `div` 4 + Z.of_nat k) * 4
         /\ 0 <= offset r
         /\ forall (j : nat) r',
              (j < k)%nat -> requests (gen_args g) m !! j = Some r' ->
              offset r' < offset r.
Proof.
  apply (fetch_offsets (file_client (Examples.msg 12) Examples.twelve) Examples.fid
           0 4 1 10 Examples.w0 [Next; Next; Close]); lia.
Defined.

Example fetch_offsets_run :
  map offset
    (fetches (log (run [Next; Next; Close]
                     (new_generator (file_client (Examples.msg 12) Examples.twelve)
                        Examples.fid 0 (Webserver.range_plan 4 1 10) 4)
                     Examples.w0).2))
  = [0; 4].
Proof. reflexivity. Qed.

(* ===================================================================== *)
(** ** What the streamer does deliver *)
(* ===================================================================== *)

(** A complete stream of a valid range, from a backend that serves the
    file, ends after [part_count + 1] calls of [__anext__], restores the
    load counter and delivers the byte count of the plan; this is the
    requested count exactly when the part count of the plan is the number
    of chunks the range touches.  The chunk size and the range stay within
    [2^53], where the part count of the plan is the one the source
    computes in floating point. *)
Theorem stream_delivers_plan_total (c : Client) (fid : FileId) (index : Z)
    (data : bytes) (cs from_bytes until_bytes : Z) (w : world) (v : Z) :
  (forall ms req n,
     send c ms req n = Ok (upload_File (file_chunk data (offset req) (limit req)))) ->
  0 < cs <= 2 ^ 53 ->
  0 <= from_bytes <= until_bytes ->
  until_bytes < Z.of_nat (length data) ->
  until_bytes < 2 ^ 53 ->
  load index w = Some v ->
  (exists ms w2,
     acquire_media_session c fid (with_load index (v + 1) (EvIncr index) w)
     = Ok (ms, w2)) ->
  let p := Webserver.range_plan cs from_bytes until_bytes in
  let r := pull (S (Z.to_nat (plan_part_count p))) (new_generator c fid index p cs) w in
  total_bytes r.1.1.1 = Z.max 0 (plan_implied_total cs p)
  /\ r.1.1.2 = Some StopAsyncIteration
  /\ gen_frame r.1.2 = Finished
  /\ load index r.2 = Some v
  /\ (total_bytes r.1.1.1 = until_bytes - from_bytes + 1
      <-> plan_part_count p = chunks_spanned cs from_bytes until_bytes).
Proof.
  intros Hsend [Hcs _] Hrange Hsize _ Hload Hsetup p r.
  destruct (stream_range_total c fid index data cs from_bytes until_bytes w v
              Hsend Hcs Hrange Hsize Hload Hsetup) as (Ht & He & Hf & Hl).
  fold p in Ht, He, Hf, Hl. fold r in Ht, He, Hf, Hl.
  repeat split; try done; rewrite Ht.
  - intros H. apply (range_plan_total_iff cs from_bytes until_bytes Hcs Hrange).
    fold p. lia.
  - intros H. apply (range_plan_total_iff cs from_bytes until_bytes Hcs Hrange) in H.
    fold p in H. lia.
Qed.

Lemma stream_delivers_plan_total_witness :
  let c := file_client (Examples.msg 12) Examples.twelve in
  let p := Webserver.range_plan 4 1 10 in
  let r := pull (S (Z.to_nat (plan_part_count p)))
             (new_generator c Examples.fid 0 p 4) Examples.w0 in
  total_bytes r.1.1.1 = Z.max 0 (plan_implied_total 4 p)
  /\ r.1.1.2 = Some StopAsyncIteration
  /\ gen_frame r.1.2 = Finished
  /\ load 0 r.2 = Some 0
  /\ (total_bytes r.1.1.1 = 10 - 1 + 1 <-> plan_part_count p = chunks_spanned 4 1 10).
Proof.
  apply (stream_delivers_plan_total (file_client (Examples.msg 12) Examples.twelve)
           Examples.fid 0 Examples.twelve 4 1 10 Examples.w0 0).
  - intros; reflexivity.
  - lia.
  - lia.
  - simpl. lia.
  - lia.
  - reflexivity.
  - eexists _, _. reflexivity.
Defined.

(** A range within [2^53] that starts on a chunk boundary is delivered in
    full. *)
Theorem aligned_range_delivers_exactly (c : Client) (fid : FileId) (index : Z)
    (data : bytes) (cs from_bytes until_bytes : Z) (w : world) (v : Z) :
  (forall ms req n,
     send c ms req n = Ok (upload_File (file_chunk data (offset req) (limit req)))) ->
  0 < cs <= 2 ^ 53 ->
  0 <= from_bytes <= until_bytes ->
  until_bytes < Z.of_nat (length data) ->
  until_bytes < 2 ^ 53 ->
  from_bytes `mod` cs = 0 ->
  load index w = Some v ->
  (exists ms w2,
     acquire_media_session c fid (with_load index (v + 1) (EvIncr index) w)
     = Ok (ms, w2)) ->
  let p := Webserver.range_plan cs from_bytes until_bytes in
  let r := pull (S (Z.to_nat (plan_part_count p))) (new_generator c fid index p cs) w in
  total_bytes r.1.1.1 = until_bytes - from_bytes + 1
  /\ r.1.1.2 = Some StopAsyncIteration.
Proof.
  intros Hsend [Hcs _] Hrange Hsize _ Hal Hload Hsetup p r.
  destruct (stream_range_total c fid index data cs from_bytes until_bytes w v
              Hsend Hcs Hrange Hsize Hload Hsetup) as (Ht & He & _).
  fold p in Ht, He. fold r in Ht, He. split; [|done]. rewrite Ht.
  pose proof (range_plan_aligned cs from_bytes until_bytes Hcs Hrange Hal) as Hpc.
  apply (range_plan_total_iff cs from_bytes until_bytes Hcs Hrange) in Hpc.
  fold p in Hpc. lia.
Qed.

Lemma aligned_range_delivers_exactly_witness :
  let c := file_client (Examples.msg 12) Examples.twelve in
  let p := Webserver.range_plan 4 4 10 in
  let r := pull (S (Z.to_nat (plan_part_count p)))
             (new_generator c Examples.fid 0 p 4) Examples.w0 in
  total_bytes r.1.1.1 = 10 - 4 + 1 /\ r.1.1.2 = Some StopAsyncIteration.
Proof.
  apply (aligned_range_delivers_exactly (file_client (Examples.msg 12) Examples.twelve)
           Examples.fid 0 Examples.twelve 4 4 10 Examples.w0 0).
  - intros; reflexivity.
  - lia.
  - lia.
  - simpl. lia.
  - lia.
  - reflexivity.
  - reflexivity.
  - eexists _, _. reflexivity.
Defined.

(** [stream_handler] of [webserver.py] answers a request without a range
    header, for a stored message with a media of less than [2^53] bytes,
    with status 200 and the size as [Content-Length]; and when the backend
    serves the bytes of the file and the media session can be acquired,
    the body of the response, run to the end, delivers as many bytes as
    the file has and restores the load counter. *)
Theorem webserver_full_response_delivers_file (w : world)
    (multi_clients : gmap Z Client) (client : Client) (request : Request) (msg_id : Z)
    (message : Message) (media : Media) (fid : FileId) (data : bytes) (v : Z) :
  let i := Py.min_by_value (work_loads w) 0 in
  multi_clients !! i = Some client ->
  header_truthy (range_header request) = false ->
  get_messages client msg_id = Ok message ->
  first_media message = Some media ->
  empty message = false ->
  file_id media = Ok fid ->
  file_size media = Z.of_nat (length data) ->
  file_size media < 2 ^ 53 ->
  (forall ms req n,
     send client ms req n = Ok (upload_File (file_chunk data (offset req) (limit req)))) ->
  load i w = Some v ->
  (exists ms w2,
     acquire_media_session client fid (with_load i (v + 1) (EvIncr i) w) = Ok (ms, w2)) ->
  exists response,
    Webserver.stream_handler (work_loads w) multi_clients request msg_id = Ok response
    /\ status_code response = 200
    /\ header "Content-Length" response = Some (Py.str (file_size media))
    /\ let r := pull (S (Z.to_nat (part_count (gen_args (content response)))))
                  (content response) w in
       r.1.1.2 = Some StopAsyncIteration
       /\ total_bytes r.1.1.1 = file_size media
       /\ load i r.2 = Some v.
Proof.
  intros i Hsel Hh Hmsg Hmedia Hempty Hfid Hlen _ Hsend Hload Hsetup.
  set (size := file_size media) in *.
  exists (Webserver.respond client i request media fid 0 (size - 1)).
  split.
  { rewrite (webserver_handler_selected _ _ client) by exact Hsel. fold i.
    rewrite (webserver_try_parsed client i request msg_id message media fid
               Hmsg Hmedia Hempty Hfid 0 (size - 1)
               (webserver_requested_range_no_header request media Hh)).
    fold size. destruct (Z.geb_spec (size - 1) size); [lia|]. done. }
  split; [unfold Webserver.respond; simpl; by rewrite Hh|].
  split.
  { unfold Webserver.respond, header; simpl. fold size.
    by replace (size - 1 - 0 + 1) with size by lia. }
  set (p := Webserver.range_plan (1024 * 1024) 0 (size - 1)).
  change (content (Webserver.respond client i request media fid 0 (size - 1)))
    with (new_generator client fid i p (1024 * 1024)).
  change (part_count (gen_args (new_generator client fid i p (1024 * 1024))))
    with (plan_part_count p).
  destruct (decide (size = 0)) as [H0|Hpos].
  - assert (Hpc : plan_part_count p = 0).
    { subst p. simpl. by rewrite H0. }
    destruct Hsetup as (ms & w2 & Hacq).
    destruct (pull_file_fresh client
                (gen_args (new_generator client fid i p (1024 * 1024)))
                data Hsend eq_refl w v ms w2 Hload Hacq)
      as (H1 & H2 & H3 & H4).
    { by vm_compute. }
    { intros Hc. exfalso. change (0 < plan_part_count p) in Hc. lia. }
    change (part_count (gen_args (new_generator client fid i p (1024 * 1024))))
      with (plan_part_count p) in H1, H2, H3, H4.
    cbv zeta. repeat split; [exact H2| |exact H4].
    etransitivity; [exact (f_equal total_bytes H1)|].
    rewrite Hpc. simpl. lia.
  - destruct (stream_range_total client fid i data (1024 * 1024) 0 (size - 1) w v
                Hsend eq_refl ltac:(lia) ltac:(lia) Hload Hsetup)
      as (Ht & He & _ & Hl).
    fold p in Ht, He, Hl. cbv zeta in *. repeat split; try done.
    etransitivity; [exact Ht|].
    pose proof (range_plan_aligned (1024 * 1024) 0 (size - 1) ltac:(lia) ltac:(lia)
                  eq_refl) as Hpc.
    apply (range_plan_total_iff (1024 * 1024) 0 (size - 1) ltac:(lia) ltac:(lia)) in Hpc.
    fold p in Hpc. lia.
Qed.

Lemma webserver_full_response_delivers_file_witness :
  let w := {| work_loads := [(0, 5); (1, 0)]; media_sessions := ∅; log := [] |} in
  let client := file_client (Examples.msg 12) Examples.twelve in
  let multi_clients : gmap Z Client := {[ 0 := Examples.redirect_client; 1 := client ]} in
  let request := {| range_header := None |} in
  exists response,
    Webserver.stream_handler (work_loads w) multi_clients request 7 = Ok response
    /\ status_code response = 200
    /\ header "Content-Length" response = Some (Py.str (file_size (Examples.doc 12)))
    /\ let r := pull (S (Z.to_nat (part_count (gen_args (content response)))))
                  (content response) w in
       r.1.1.2 = Some StopAsyncIteration
       /\ total_bytes r.1.1.1 = file_size (Examples.doc 12)
       /\ load 1 r.2 = Some 0.
Proof.
  intros w client multi_clients request.
  apply (webserver_full_response_delivers_file w multi_clients client request 7
           (Examples.msg 12) (Examples.doc 12) Examples.fid Examples.twelve 0).
  - reflexivity.
  - reflexivity.
  - reflexivity.
  - reflexivity.
  - reflexivity.
  - reflexivity.
  - reflexivity.
  - simpl. lia.
  - intros; reflexivity.
  - reflexivity.
  - eexists _, _. reflexivity.
Defined.

(** Once the media session is acquired, the counter is released on every
    later exit: whatever the consumer does, a run that ends with [aclose]
    leaves a finished generator and the counter at its value before the
    request, after as many decrements as increments. *)
Theorem closed_run_restores_load (c : Client) (a : yield_args) (w : world) (v : Z)
    (ops : list op) :
  load (index a) w = Some v ->
  (exists ms w2,
     acquire_media_session c (ya_file_id a)
       (with_load (index a) (v + 1) (EvIncr (index a)) w) = Ok (ms, w2)) ->
  let s := run (ops ++ [Close]) (Build_generator c a NotStarted) w in
  gen_frame s.1 = Finished
  /\ load (index a) s.2 = Some v
  /\ (count_incr (index a) (log s.2) - count_incr (index a) (log w)
      = count_decr (index a) (log s.2) - count_decr (index a) (log w))%nat
  /\ (count_decr (index a) (log s.2) <= S (count_decr (index a) (log w)))%nat.
Proof.
  intros Hl Hsetup s.
  assert (Hfin : gen_frame s.1 = Finished).
  { subst s. rewrite run_app. apply close_finishes. }
  pose proof (run_load_inv c a w v Hl Hsetup (ops ++ [Close])) as (_ & _ & Hinv).
  fold s in Hinv. rewrite Hfin in Hinv. destruct Hinv as (Hload & Hcount).
  repeat split; try done; lia.
Qed.

Lemma closed_run_restores_load_witness :
  let c := file_client (Examples.msg 12) Examples.twelve in
  let a := Examples.args4 0 1 3 3 in
  let s := run ([Next; Next] ++ [Close]) (Build_generator c a NotStarted) Examples.w0 in
  gen_frame s.1 = Finished
  /\ load (index a) s.2 = Some 0
  /\ (count_incr (index a) (log s.2) - count_incr (index a) (log Examples.w0)
      = count_decr (index a) (log s.2) - count_decr (index a) (log Examples.w0))%nat
  /\ (count_decr (index a) (log s.2) <= S (count_decr (index a) (log Examples.w0)))%nat.
Proof.
  apply (closed_run_restores_load (file_client (Examples.msg 12) Examples.twelve)
           (Examples.args4 0 1 3 3) Examples.w0 0 [Next; Next]).
  - reflexivity.
  - eexists _, _. reflexivity.
Defined.

(** The cuts and the part count of the plan of a valid request within
    [2^53] are in their bounds. *)
Theorem plan_cuts_in_bounds (cs from_bytes until_bytes : Z) :
  0 < cs <= 2 ^ 53 ->
  0 <= from_bytes <= until_bytes ->
  until_bytes < 2 ^ 53 ->
  let p := Webserver.range_plan cs from_bytes until_bytes in
  0 <= plan_first_part_cut p < cs
  /\ 0 < plan_last_part_cut p <= cs
  /\ 1 <= plan_part_count p
  /\ plan_part_count p <= chunks_spanned cs from_bytes until_bytes
  /\ App.range_plan cs from_bytes until_bytes = p.
Proof.
  intros [Hcs _] Hrange _ p.
  pose proof (range_plan_bounds cs from_bytes until_bytes Hcs Hrange) as (H1 & H2 & H3).
  pose proof (range_plan_part_count_le cs from_bytes until_bytes Hcs Hrange).
  subst p. split; [done|]. split; [done|]. split; [done|]. split; [done|].
  apply plans_agree. lia.
Qed.

Lemma plan_cuts_in_bounds_witness :
  let p := Webserver.range_plan (1024 * 1024) 500000 1500000 in
  0 <= plan_first_part_cut p < 1024 * 1024
  /\ 0 < plan_last_part_cut p <= 1024 * 1024
  /\ 1 <= plan_part_count p
  /\ plan_part_count p <= chunks_spanned (1024 * 1024) 500000 1500000
  /\ App.range_plan (1024 * 1024) 500000 1500000 = p.
Proof.
  apply (plan_cuts_in_bounds (1024 * 1024) 500000 1500000); lia.
Defined.

(* ===================================================================== *)
(** ** The bytes a complete stream delivers *)
(* ===================================================================== *)

Lemma take_file_chunk (data : bytes) (off lim n : Z) :
  0 <= off -> 0 <= n <= lim ->
  take (Z.to_nat n) (file_chunk data off lim)
  = take (Z.to_nat n) (drop (Z.to_nat off) data).
Proof.
  intros Ho Hn. unfold file_chunk. rewrite take_take. f_equal. lia.
Qed.

Lemma drop_file_chunk (data : bytes) (off lim n : Z) :
  0 <= off -> 0 <= n <= lim ->
  drop (Z.to_nat n) (file_chunk data off lim)
  = take (Z.to_nat (lim - n)) (drop (Z.to_nat (off + n)) data).
Proof.
  intros Ho Hn. unfold file_chunk.
  replace (Z.to_nat (off + n)) with (Z.to_nat off + Z.to_nat n)%nat by lia.
  rewrite <- drop_drop.
  rewrite (take_drop_commute (drop (Z.to_nat off) data)). do 2 f_equal. lia.
Qed.

Section FileBytes.
Variables (a : yield_args) (data : bytes).
Hypothesis Hcs : 0 < chunk_size a.
Hypothesis Hlc : 1 <= last_part_cut a <= chunk_size a.

(** Parts 2 and later are one stretch of the file. *)
Lemma file_parts_tail_concat (k : nat) (p off : Z) :
  2 <= p ->
  p + Z.of_nat k = part_count a + 1 ->
  (0 < k)%nat ->
  0 <= off ->
  off + (Z.of_nat k - 1) * chunk_size a + last_part_cut a <= Z.of_nat (length data) ->
  concat (file_parts a data k p off)
  = take (Z.to_nat ((Z.of_nat k - 1) * chunk_size a + last_part_cut a))
      (drop (Z.to_nat off) data).
Proof.
  revert p off. induction k as [|k IH]; intros p off Hp Hk Hpos Ho Hsize; [lia|].
  cbn [file_parts concat]. unfold cut.
  destruct (Z.eqb_spec (part_count a) 1); [lia|].
  destruct (Z.eqb_spec p 1); [lia|].
  destruct k as [|k].
  - destruct (Z.eqb_spec p (part_count a)); [|lia].
    cbn [file_parts concat]. rewrite app_nil_r.
    unfold Py.slice, Py.clamp. destruct (Z.ltb_spec (last_part_cut a) 0); [lia|].
    rewrite file_chunk_length by lia.
    change (Z.to_nat 0) with O. rewrite drop_0.
    replace (Z.min (last_part_cut a)
               (Z.max 0 (Z.min (chunk_size a) (Z.of_nat (length data) - off))) - 0)
      with (last_part_cut a) by lia.
    rewrite take_file_chunk by lia. f_equal; lia.
  - destruct (Z.eqb_spec p (part_count a)); [lia|].
    rewrite IH by nia.
    unfold file_chunk.
    replace (Z.to_nat (off + chunk_size a))
      with (Z.to_nat off + Z.to_nat (chunk_size a))%nat by lia.
    rewrite <- drop_drop, take_take_drop. f_equal; nia.
Qed.

(** The whole stream is the stretch of the file that starts at the first
    cut of the first chunk and has the length the plan stands for. *)
Lemma file_parts_concat :
  0 <= start_offset a ->
  0 <= first_part_cut a <= chunk_size a ->
  1 <= part_count a ->
  start_offset a + (part_count a - 1) * chunk_size a + last_part_cut a
    <= Z.of_nat (length data) ->
  concat (file_parts a data (Z.to_nat (part_count a)) 1 (start_offset a))
  = take (Z.to_nat
            (if part_count a =? 1 then last_part_cut a - first_part_cut a
             else (chunk_size a - first_part_cut a)
                  + (part_count a - 2) * chunk_size a + last_part_cut a))
      (drop (Z.to_nat (start_offset a + first_part_cut a)) data).
Proof.
  intros Hs Hfc Hpc Hsize.
  replace (Z.to_nat (part_count a)) with (S (Z.to_nat (part_count a - 1))) by lia.
  cbn [file_parts concat]. unfold cut.
  destruct (Z.eqb_spec (part_count a) 1) as [H1|H1].
  - rewrite H1. cbn [Z.sub Z.to_nat Z.pos_sub file_parts concat]. rewrite app_nil_r.
    unfold Py.slice, Py.clamp.
    destruct (Z.ltb_spec (first_part_cut a) 0); [lia|].
    destruct (Z.ltb_spec (last_part_cut a) 0); [lia|].
    rewrite file_chunk_length by lia.
    replace (Z.min (last_part_cut a)
               (Z.max 0 (Z.min (chunk_size a) (Z.of_nat (length data) - start_offset a))))
      with (last_part_cut a) by lia.
    destruct (Z_le_gt_dec (first_part_cut a) (last_part_cut a)) as [Hle|Hgt].
    + replace (Z.min (first_part_cut a)
                 (Z.max 0 (Z.min (chunk_size a)
                             (Z.of_nat (length data) - start_offset a))))
        with (first_part_cut a) by lia.
      rewrite drop_file_chunk by lia. rewrite take_take. f_equal; lia.
    + replace (Z.to_nat (last_part_cut a - first_part_cut a)) with O by lia.
      set (m := Z.min (first_part_cut a) _).
      replace (Z.to_nat (last_part_cut a - m)) with O by lia.
      done.
  - rewrite Z.eqb_refl. rewrite file_parts_tail_concat by (lia || nia).
    unfold Py.slice, Py.clamp.
    destruct (Z.ltb_spec (first_part_cut a) 0); [lia|].
    rewrite file_chunk_length by lia.
    replace (Z.max 0 (Z.min (chunk_size a) (Z.of_nat (length data) - start_offset a)))
      with (chunk_size a) by nia.
    replace (Z.min (first_part_cut a) (chunk_size a)) with (first_part_cut a) by lia.
    rewrite drop_file_chunk by lia. rewrite take_take.
    replace (Z.to_nat (chunk_size a - first_part_cut a)
               `min` Z.to_nat (chunk_size a - first_part_cut a))%nat
      with (Z.to_nat (chunk_size a - first_part_cut a)) by lia.
    replace (Z.to_nat (start_offset a + chunk_size a))
      with (Z.to_nat (start_offset a + first_part_cut a)
            + Z.to_nat (chunk_size a - first_part_cut a))%nat by lia.
    rewrite <- drop_drop, take_take_drop. f_equal; nia.
Qed.

End FileBytes.

(** Whatever the part count, a complete stream of a valid range within
    [2^53] delivers a stretch of the file that starts at [from_bytes]: the
    first bytes of the requested range, as many as the plan stands for.
    It is the whole range [data[from_bytes : until_bytes + 1]] when the
    part count is the number of chunks the range touches. *)
Theorem stream_delivers_range_prefix (c : Client) (fid : FileId) (index : Z)
    (data : bytes) (cs from_bytes until_bytes : Z) (w : world) (v : Z) :
  (forall ms req n,
     send c ms req n = Ok (upload_File (file_chunk data (offset req) (limit req)))) ->
  0 < cs <= 2 ^ 53 ->
  0 <= from_bytes <= until_bytes ->
  until_bytes < Z.of_nat (length data) ->
  until_bytes < 2 ^ 53 ->
  load index w = Some v ->
  (exists ms w2,
     acquire_media_session c fid (with_load index (v + 1) (EvIncr index) w)
     = Ok (ms, w2)) ->
  let p := Webserver.range_plan cs from_bytes until_bytes in
  let r := pull (S (Z.to_nat (plan_part_count p))) (new_generator c fid index p cs) w in
  concat r.1.1.1
  = take (Z.to_nat (plan_implied_total cs p)) (drop (Z.to_nat from_bytes) data)
  /\ (plan_part_count p = chunks_spanned cs from_bytes until_bytes ->
      concat r.1.1.1 = Py.slice (Some from_bytes) (Some (until_bytes + 1)) data).
Proof.
  intros Hsend [Hcs _] Hrange Hsize _ Hload (ms & w2 & Hacq) p r.
  pose proof (range_plan_bounds cs from_bytes until_bytes Hcs Hrange)
    as (Hfc & Hlc & Hpc).
  pose proof (range_plan_covered cs from_bytes until_bytes Hcs Hrange
                (Z.of_nat (length data)) Hsize) as Hcov.
  pose proof (range_plan_offset cs from_bytes until_bytes Hcs) as Hoff.
  fold p in Hfc, Hlc, Hpc, Hcov, Hoff.
  assert (Hstart : 0 <= plan_offset p).
  { rewrite Hoff. apply Z.mul_nonneg_nonneg; [apply Z.div_pos|]; lia. }
  set (g := new_generator c fid index p cs) in *.
  destruct (pull_file_fresh c (gen_args g) data Hsend Hcs w v ms w2)
    as (H1 & _); try done.
  { intros _. change (plan_offset p + (plan_part_count p - 1) * cs
                      < Z.of_nat (length data)). nia. }
  assert (Hconcat : concat r.1.1.1
            = take (Z.to_nat (plan_implied_total cs p))
                (drop (Z.to_nat from_bytes) data)).
  { etransitivity; [exact (f_equal (fun l => concat l) H1)|].
    assert (Hlc' : 1 <= last_part_cut (gen_args g) <= chunk_size (gen_args g))
      by (change (1 <= plan_last_part_cut p <= cs); lia).
    assert (Hfc' : 0 <= first_part_cut (gen_args g) <= chunk_size (gen_args g))
      by (change (0 <= plan_first_part_cut p <= cs); lia).
    rewrite (file_parts_concat (gen_args g) data Hcs Hlc' Hstart Hfc' Hpc Hcov).
    change (start_offset (gen_args g) + first_part_cut (gen_args g))
      with (plan_offset p + plan_first_part_cut p).
    replace (plan_offset p + plan_first_part_cut p) with from_bytes
      by (subst p; simpl; lia).
    done. }
  split; [done|]. intros Hspan. rewrite Hconcat.
  apply (range_plan_total_iff cs from_bytes until_bytes Hcs Hrange) in Hspan.
  fold p in Hspan. rewrite Hspan.
  unfold Py.slice, Py.clamp.
  destruct (Z.ltb_spec from_bytes 0); [lia|].
  destruct (Z.ltb_spec (until_bytes + 1) 0); [lia|].
  do 2 f_equal; lia.
Qed.

Lemma stream_delivers_range_prefix_witness :
  let c := file_client (Examples.msg 12) Examples.twelve in
  let p := Webserver.range_plan 4 1 10 in
  let r := pull (S (Z.to_nat (plan_part_count p)))
             (new_generator c Examples.fid 0 p 4) Examples.w0 in
  concat r.1.1.1
  = take (Z.to_nat (plan_implied_total 4 p)) (drop (Z.to_nat 1) Examples.twelve)
  /\ (plan_part_count p = chunks_spanned 4 1 10 ->
      concat r.1.1.1 = Py.slice (Some 1) (Some (10 + 1)) Examples.twelve).
Proof.
  apply (stream_delivers_range_prefix (file_client (Examples.msg 12) Examples.twelve)
           Examples.fid 0 Examples.twelve 4 1 10 Examples.w0 0).
  - intros; reflexivity.
  - lia.
  - lia.
  - simpl. lia.
  - lia.
  - reflexivity.
  - eexists _, _. reflexivity.
Defined.

Example stream_bytes_in_range :
  concat (pull 4 (new_generator (file_client (Examples.msg 12) Examples.twelve)
                    Examples.fid 0 (Webserver.range_plan 4 1 10) 4)
            Examples.w0).1.1.1
  = ["b"; "c"; "d"; "e"; "f"; "g"; "h"; "i"; "j"; "k"]%byte.
Proof. reflexivity. Qed.

(* ===================================================================== *)
(** ** The answers of the [/dl] route *)
(* ===================================================================== *)

(** What leaves [stream_handler] of [webserver.py]: a response, the 503
    raised before the [try], the 404 of the [except FileNotFoundError]
    clause, the [NameError] of the [except Exception] clause, or an
    exception that is no [Exception]. *)
Lemma webserver_outcomes work_loads (multi_clients : gmap Z Client) request msg_id :
  let index := Py.min_by_value work_loads 0 in
  let r := Webserver.stream_handler work_loads multi_clients request msg_id in
  (multi_clients !! index = None /\ r = Raise (HTTPException 503))
  \/ exists client, multi_clients !! index = Some client
       /\ ((exists response,
              Webserver.stream_handler_try client index request msg_id = Ok response
              /\ r = Ok response)
           \/ (Webserver.stream_handler_try client index request msg_id
               = Raise FileNotFoundError
               /\ r = Raise (HTTPException 404))
           \/ (exists e,
                 Webserver.stream_handler_try client index request msg_id = Raise e
                 /\ e <> FileNotFoundError /\ is_Exception e = true
                 /\ r = Raise (NameError "traceback"))
           \/ (exists e,
                 Webserver.stream_handler_try client index request msg_id = Raise e
                 /\ is_Exception e = false /\ r = Raise e)).
Proof.
  intros index r. subst r. unfold Webserver.stream_handler. fold index.
  destruct (multi_clients !! index) as [client|]; [right|left; done].
  exists client. split; [done|].
  destruct (Webserver.stream_handler_try client index request msg_id) as [resp|e].
  - left. eauto.
  - destruct e; simpl; eauto 10.
Qed.

Lemma webserver_try_status client index request msg_id response :
  Webserver.stream_handler_try client index request msg_id = Ok response ->
  status_code response = 200 \/ status_code response = 206.
Proof.
  unfold Webserver.stream_handler_try.
  destruct (get_messages client msg_id) as [message|]; simpl; [|done].
  destruct (first_media message) as [media|]; [|done].
  destruct (empty message); [done|].
  destruct (file_id media) as [fid|]; simpl; [|done].
  destruct (Webserver.requested_range request (file_size media)) as [[f u]|]; simpl;
    [|done].
  destruct ((u >=? file_size media) || (f <? 0)); [done|].
  intros [= <-]. unfold Webserver.respond; simpl.
  destruct (header_truthy (range_header request)); auto.
Qed.

(** The status lines of [stream_handler]: 200, 206, 404, 500 or 503 and
    never 416; 503 exactly when the selected index has no client, 404
    exactly when the [try] ends in a [FileNotFoundError]. *)
Theorem webserver_status_table work_loads (multi_clients : gmap Z Client)
    request msg_id :
  let index := Py.min_by_value work_loads 0 in
  let r := Webserver.stream_handler work_loads multi_clients request msg_id in
  (http_status r = 200 \/ http_status r = 206 \/ http_status r = 404
   \/ http_status r = 500 \/ http_status r = 503)
  /\ (http_status r = 503 <-> multi_clients !! index = None)
  /\ (http_status r = 404
      <-> exists client, multi_clients !! index = Some client
            /\ Webserver.stream_handler_try client index request msg_id
               = Raise FileNotFoundError).
Proof.
  intros index r. subst index r.
  pose proof (webserver_outcomes work_loads multi_clients request msg_id) as Hout.
  cbv zeta in Hout.
  destruct Hout as [[Hnone Hr]|(client & Hsome & Hcases)].
  - rewrite Hr, Hnone. simpl. split; [auto 10|]. split; [done|].
    split; [intros [=]|]. intros (client & [=] & _).
  - rewrite Hsome.
    assert (Hother : forall s : Z, s <> 404 -> s <> 503 ->
              (s = 200 \/ s = 206 \/ s = 404 \/ s = 500 \/ s = 503) ->
              Webserver.stream_handler_try client (Py.min_by_value work_loads 0)
                request msg_id <> Raise FileNotFoundError ->
              (s = 200 \/ s = 206 \/ s = 404 \/ s = 500 \/ s = 503)
              /\ (s = 503 <-> Some client = None)
              /\ (s = 404
                  <-> exists client', Some client = Some client'
                        /\ Webserver.stream_handler_try client'
                             (Py.min_by_value work_loads 0) request msg_id
                           = Raise FileNotFoundError)).
    { intros s H404 H503 Hs Htry. split; [done|]. split; [split; [lia|done]|].
      split; [lia|]. intros (client' & [= <-] & Htry'). done. }
    destruct Hcases as [(resp & Htry & Hr)|[(Htry & Hr)|[(e & Htry & Hne & He & Hr)
                                                        |(e & Htry & He & Hr)]]];
      rewrite Hr; simpl.
    + destruct (webserver_try_status _ _ _ _ _ Htry) as [Hs|Hs]; rewrite Hs;
        apply Hother; auto 10; try lia; congruence.
    + split; [auto 10|]. split; [split; [lia|done]|].
      split; [|done]. intros _. eauto.
    + apply Hother; auto 10; try lia; congruence.
    + destruct e; try done; simpl; apply Hother; auto 10; try lia; congruence.
Qed.

Lemma app_range_needs_header request size x :
  App.requested_range request size = Ok x ->
  header_truthy (range_header request) = true.
Proof.
  unfold App.requested_range, App.parse_range.
  by destruct (header_truthy (range_header request)).
Qed.

Lemma app_try_status client index request msg_id response :
  App.stream_media_try client index request msg_id = Ok response ->
  status_code response = 206.
Proof.
  unfold App.stream_media_try.
  destruct (get_messages client msg_id) as [message|]; simpl; [|done].
  destruct (first_media message) as [media|]; [|done].
  destruct (empty message); [done|].
  destruct (file_id media) as [fid|]; simpl; [|done].
  destruct (App.requested_range request (file_size media)) as [[f u]|] eqn:Hr; simpl;
    [|done].
  destruct ((u >=? file_size media) || (f <? 0)); [done|].
  intros [= <-]. unfold App.respond; simpl.
  by rewrite (app_range_needs_header _ _ _ Hr).
Qed.

(** The status lines of [stream_media] of [app.py]: 206, 404, 500 or 503,
    never 200 and never 416; 503 exactly when the selected index has no
    client. *)
Theorem app_status_table work_loads (multi_clients : gmap Z Client) request msg_id :
  let index := Py.min_by_value work_loads 0 in
  let r := App.stream_media work_loads multi_clients request msg_id in
  (http_status r = 206 \/ http_status r = 404 \/ http_status r = 500
   \/ http_status r = 503)
  /\ (http_status r = 503 <-> multi_clients !! index = None)
  /\ (http_status r = 404
      <-> exists client, multi_clients !! index = Some client
            /\ App.stream_media_try client index request msg_id
               = Raise FileNotFoundError).
Proof.
  intros index r. subst index r. unfold App.stream_media.
  destruct (multi_clients !! Py.min_by_value work_loads 0) as [client|].
  - assert (Hother : forall s : Z, s <> 404 -> s <> 503 ->
              (s = 206 \/ s = 404 \/ s = 500 \/ s = 503) ->
              App.stream_media_try client (Py.min_by_value work_loads 0)
                request msg_id <> Raise FileNotFoundError ->
              (s = 206 \/ s = 404 \/ s = 500 \/ s = 503)
              /\ (s = 503 <-> Some client = None)
              /\ (s = 404
                  <-> exists client', Some client = Some client'
                        /\ App.stream_media_try client'
                             (Py.min_by_value work_loads 0) request msg_id
                           = Raise FileNotFoundError)).
    { intros s H404 H503 Hs Htry. split; [done|]. split; [split; [lia|done]|].
      split; [lia|]. intros (client' & [= <-] & Htry'). done. }
    destruct (App.stream_media_try client (Py.min_by_value work_loads 0) request msg_id)
      as [resp|e] eqn:Htry.
    + simpl. rewrite (app_try_status _ _ _ _ _ Htry). apply Hother; auto; lia.
    + destruct e; simpl; try (apply Hother; auto; lia).
      split; [auto|]. split; [split; [lia|done]|]. split; [|done]. intros _. eauto.
  - simpl. split; [auto|]. split; [done|]. split; [lia|].
    intros (client & [=] & _).
Qed.

(** A message without media, or an empty one, is answered 404 by both
    handlers. *)
Theorem missing_media_is_404 work_loads (multi_clients : gmap Z Client)
    client request msg_id message :
  multi_clients !! Py.min_by_value work_loads 0 = Some client ->
  get_messages client msg_id = Ok message ->
  first_media message = None \/ empty message = true ->
  Webserver.stream_handler work_loads multi_clients request msg_id
  = Raise (HTTPException 404)
  /\ App.stream_media work_loads multi_clients request msg_id
     = Raise (HTTPException 404).
Proof.
  intros Hsel Hmsg Hno.
  rewrite (webserver_handler_selected _ _ _ _ _ Hsel),
    (app_handler_selected _ _ _ _ _ Hsel).
  unfold Webserver.stream_handler_try, App.stream_media_try. rewrite Hmsg; simpl.
  destruct (first_media message) as [media|]; [|done].
  destruct Hno as [Hno|Hno]; [done|]. by rewrite Hno.
Qed.

Lemma missing_media_is_404_witness :
  let message := {| document := None; video := None; audio := None; empty := true |} in
  let client := file_client message [] in
  let request := {| range_header := None |} in
  Webserver.stream_handler [(0, 0)] {[0 := client]} request 7
  = Raise (HTTPException 404)
  /\ App.stream_media [(0, 0)] {[0 := client]} request 7 = Raise (HTTPException 404).
Proof.
  apply (missing_media_is_404 [(0, 0)]
           {[0 := file_client {| document := None; video := None; audio := None;
                                 empty := true |} []]}
           (file_client {| document := None; video := None; audio := None;
                           empty := true |} [])
           {| range_header := None |} 7
           {| document := None; video := None; audio := None; empty := true |}).
  - reflexivity.
  - reflexivity.
  - by left.
Defined.

(** A range that starts with a dash - the suffix form [bytes=-N] of HTTP -
    is not understood: both handlers fail on it with a [ValueError] inside
    the [try], which leaves [stream_handler] as the [NameError] of its
    [except] clause and [stream_media] as [HTTPException(500)]. *)
Theorem suffix_range_is_500 work_loads (multi_clients : gmap Z Client)
    client request msg_id message media fid (h t : string) :
  multi_clients !! Py.min_by_value work_loads 0 = Some client ->
  get_messages client msg_id = Ok message ->
  first_media message = Some media ->
  empty message = false ->
  file_id media = Ok fid ->
  range_header request = Some h ->
  Py.replace "bytes=" "" h = String "-" t ->
  Webserver.stream_handler work_loads multi_clients request msg_id
  = Raise (NameError "traceback")
  /\ http_status (Webserver.stream_handler work_loads multi_clients request msg_id) = 500
  /\ App.stream_media work_loads multi_clients request msg_id
     = Raise (HTTPException 500).
Proof.
  intros Hsel Hmsg Hmedia Hempty Hfid Hh Hrep.
  assert (Htruthy : header_truthy (range_header request) = true).
  { rewrite Hh. destruct h; [done|done]. }
  assert (Hsplit : exists rest, Py.split "-" (Py.replace "bytes=" "" h)
                                = EmptyString :: rest).
  { rewrite Hrep. simpl. eauto. }
  destruct Hsplit as (rest & Hsplit).
  assert (Hw : Webserver.requested_range request (file_size media) = Raise ValueError).
  { unfold Webserver.requested_range, Webserver.parse_range.
    rewrite Htruthy, Hh. simpl. rewrite Hsplit.
    by destruct rest as [|b [|? ?]]. }
  assert (Ha : App.requested_range request (file_size media) = Raise ValueError).
  { unfold App.requested_range, App.parse_range.
    rewrite Htruthy, Hh. simpl. rewrite Hsplit.
    by destruct rest as [|b [|? ?]]. }
  rewrite (webserver_handler_selected _ _ _ _ _ Hsel),
    (app_handler_selected _ _ _ _ _ Hsel).
  rewrite (webserver_try_unparsed _ _ _ _ _ _ _ Hmsg Hmedia Hempty Hfid _ Hw).
  by rewrite (app_try_unparsed _ _ _ _ _ _ _ Hmsg Hmedia Hempty Hfid _ Ha).
Qed.

Lemma suffix_range_is_500_witness :
  let client := file_client (Examples.msg 12) Examples.twelve in
  let request := {| range_header := Some "bytes=-5"%string |} in
  Webserver.stream_handler [(0, 0)] {[0 := client]} request 1
  = Raise (NameError "traceback")
  /\ http_status (Webserver.stream_handler [(0, 0)] {[0 := client]} request 1) = 500
  /\ App.stream_media [(0, 0)] {[0 := client]} request 1 = Raise (HTTPException 500).
Proof.
  apply (suffix_range_is_500 [(0, 0)]
           {[0 := file_client (Examples.msg 12) Examples.twelve]}
           (file_client (Examples.msg 12) Examples.twelve)
           {| range_header := Some "bytes=-5"%string |} 1
           (Examples.msg 12) (Examples.doc 12) Examples.fid "bytes=-5" "5");
    reflexivity.
Defined.

(* ===================================================================== *)
(** ** The order of the environment and the extra tokens *)
(* ===================================================================== *)

Lemma string_compare_refl (s : string) : String.compare s s = Eq.
Proof.
  induction s as [|a s IH]; simpl; [done|].
  unfold Ascii.compare. by rewrite N.compare_refl.
Qed.

Lemma string_compare_lt_trans (s1 s2 s3 : string) :
  String.compare s1 s2 = Lt -> String.compare s2 s3 = Lt -> String.compare s1 s3 = Lt.
Proof.
  revert s2 s3. induction s1 as [|a s1 IH]; intros [|b s2] [|c s3]; simpl; try done.
  unfold Ascii.compare.
  destruct (N.compare_spec (N_of_ascii a) (N_of_ascii b)) as [Hab|Hab|Hab];
    destruct (N.compare_spec (N_of_ascii b) (N_of_ascii c)) as [Hbc|Hbc|Hbc];
    try done; intros H1 H2.
  - rewrite Hab, Hbc, N.compare_refl. by apply (IH s2).
  - rewrite Hab. by apply N.compare_lt_iff in Hbc as ->.
  - rewrite <- Hbc. by apply N.compare_lt_iff in Hab as ->.
  - assert (Hac : (N_of_ascii a < N_of_ascii c)%N) by lia.
    by apply N.compare_lt_iff in Hac as ->.
Qed.

Lemma string_leb_trans (s1 s2 s3 : string) :
  String.leb s1 s2 = true -> String.leb s2 s3 = true -> String.leb s1 s3 = true.
Proof.
  unfold String.leb.
  destruct (String.compare s1 s2) eqn:E1; [| |done];
    destruct (String.compare s2 s3) eqn:E2; try done; intros _ _.
  - apply String.compare_eq_iff in E1 as ->. by rewrite E2.
  - apply String.compare_eq_iff in E1 as ->. by rewrite E2.
  - apply String.compare_eq_iff in E2 as <-. by rewrite E1.
  - by rewrite (string_compare_lt_trans _ _ _ E1 E2).
Qed.

#[local] Instance item_le_total : Total Bot.item_le.
Proof.
  intros x y. unfold Bot.item_le, Bot.item_leb.
  rewrite (String.compare_antisym y.1 x.1).
  destruct (String.compare x.1 y.1) eqn:E; simpl; auto.
  apply String.leb_total.
Qed.

#[local] Instance item_le_trans : Transitive Bot.item_le.
Proof.
  intros x y z. unfold Bot.item_le, Bot.item_leb.
  destruct (String.compare x.1 y.1) eqn:E1; [| |done];
    destruct (String.compare y.1 z.1) eqn:E2; try done.
  - apply String.compare_eq_iff in E1. rewrite E1, E2. apply string_leb_trans.
  - apply String.compare_eq_iff in E1. by rewrite E1, E2.
  - apply String.compare_eq_iff in E2. by rewrite <- E2, E1.
  - by rewrite (string_compare_lt_trans _ _ _ E1 E2).
Qed.

Lemma StronglySorted_filter {A} (R : relation A) (P : A -> Prop)
    `{forall x, Decision (P x)} (l : list A) :
  StronglySorted R l -> StronglySorted R (filter P l).
Proof.
  induction 1 as [|a l Hs IH Hall]; [constructor|].
  rewrite filter_cons. destruct (decide (P a)); [|done].
  constructor; [done|]. apply Forall_forall. intros x Hx.
  apply list_elem_of_filter in Hx as [_ Hx].
  by eapply Forall_forall in Hall.
Qed.

Lemma imap_numbering {A} (l : list (A * string)) (k : Z) :
  imap (fun c nt => (Z.of_nat c + k, nt.2)) l
  = zip (seqZ k (Z.of_nat (length l))) l.*2.
Proof.
  revert k. induction l as [|x l IH]; intros k; [done|].
  rewrite imap_cons, seqZ_cons by (simpl; lia).
  replace (Z.pred (Z.of_nat (length (x :: l)))) with (Z.of_nat (length l))
    by (simpl; lia).
  simpl. f_equal. rewrite <- IH. apply imap_ext. intros i y _. simpl.
  f_equal. lia.
Qed.

(** The extra tokens are numbered 1, 2, ... without a gap, in the
    ascending order of the items of the environment whose name starts with
    [MULTI_TOKEN]; each of these items gives exactly one token. *)
Theorem parse_from_env_numbers (environ : list (string * string)) :
  exists found : list (string * string),
    found ≡ₚ filter (fun n : string * string => Py.is_prefix "MULTI_TOKEN" n.1) environ
    /\ StronglySorted Bot.item_le found
    /\ Bot.parse_from_env environ = zip (seqZ 1 (Z.of_nat (length found))) found.*2.
Proof.
  exists (filter (fun n : string * string => Py.is_prefix "MULTI_TOKEN" n.1)
            (merge_sort Bot.item_le environ)).
  split; [|split].
  - apply filter_Permutation, merge_sort_Permutation.
  - apply StronglySorted_filter, StronglySorted_merge_sort; apply _.
  - unfold Bot.parse_from_env. apply imap_numbering.
Qed.

Lemma keys_zip_seqZ {V} (k : Z) (l : list V) :
  Py.keys (zip (seqZ k (Z.of_nat (length l))) l) = seqZ k (Z.of_nat (length l)).
Proof.
  unfold Py.keys. change (map fst ?x) with (x.*1).
  apply fst_zip. rewrite length_seqZ. lia.
Qed.

Lemma parse_from_env_keys (environ : list (string * string)) :
  exists n : nat, Py.keys (Bot.parse_from_env environ) = seqZ 1 (Z.of_nat n).
Proof.
  eexists. unfold Bot.parse_from_env. rewrite imap_numbering.
  rewrite <- (length_fmap snd). apply keys_zip_seqZ.
Qed.

(* ===================================================================== *)
(** ** The registry after the start-up *)
(* ===================================================================== *)

Lemma set_fresh {V} (d : list (Z * V)) (k : Z) (v : V) :
  k ∉ Py.keys d -> Py.set k v d = d ++ [(k, v)].
Proof.
  induction d as [|[k0 v0] d IH]; simpl; [done|]. intros Hnot.
  destruct (Z.eqb_spec k k0) as [->|Hk].
  - exfalso. apply Hnot. apply list_elem_of_here.
  - f_equal. apply IH. intros Hin. apply Hnot. by apply list_elem_of_further.
Qed.

Lemma get_app_l {V} (d d' : list (Z * V)) (k : Z) :
  is_Some (Py.get k d) -> Py.get k (d ++ d') = Py.get k d.
Proof.
  induction d as [|[k0 v0] d IH]; simpl; [by intros [? ?]|].
  by destruct (Z.eqb_spec k k0).
Qed.

Lemma StronglySorted_seqZ (m : Z) (n : nat) :
  StronglySorted Z.lt (seqZ m (Z.of_nat n)).
Proof.
  induction n as [|n IH]; [constructor|].
  rewrite seqZ_S. apply StronglySorted_app_2; [|done|repeat constructor].
  intros x1 x2 H1 H2. apply elem_of_seqZ in H1.
  apply list_elem_of_singleton in H2. lia.
Qed.

Section Registry.
Variables (env : Bot.startup) (main_bot : Client) (all_tokens : list (Z * string)).

Lemma register_keeps (r : Bot.registry) (i : Z) (token : string) (client : Client) :
  registered env main_bot all_tokens r ->
  (forall k, k ∈ Py.keys (Bot.work_loads r) -> k < i) ->
  (i, token) ∈ all_tokens ->
  Bot.start env i token = Ok client ->
  registered env main_bot all_tokens
    {| Bot.multi_clients := <[i := client]> (Bot.multi_clients r);
       Bot.work_loads := Py.set i 0 (Bot.work_loads r) |}.
Proof.
  intros (Hs & Hdom & Hzero & Hmain & Htok) Hlt Hin Hstart.
  assert (Hfresh : i ∉ Py.keys (Bot.work_loads r)).
  { intros Hi. apply Hlt in Hi. lia. }
  assert (H0 : 0 < i).
  { apply Hlt, Hdom. by rewrite Hmain. }
  unfold registered; simpl. rewrite (set_fresh _ _ _ Hfresh).
  assert (Hkeys : Py.keys (Bot.work_loads r ++ [(i, 0)])
                  = Py.keys (Bot.work_loads r) ++ [i]).
  { unfold Py.keys. by rewrite map_app. }
  rewrite Hkeys. repeat split.
  - apply StronglySorted_app_2; [|done|repeat constructor].
    intros x1 x2 H1 H2. apply list_elem_of_singleton in H2 as ->. by apply Hlt.
  - intros Hk. apply lookup_insert_is_Some. apply elem_of_app in Hk as [Hk|Hk].
    + right. split; [|by apply Hdom]. intros ->. by apply Hfresh.
    + left. by apply list_elem_of_singleton in Hk.
  - intros Hk. apply elem_of_app. apply lookup_insert_is_Some in Hk as [->|[_ Hk]].
    + right. by apply list_elem_of_singleton.
    + left. by apply Hdom.
  - intros k Hk. apply elem_of_app in Hk as [Hk|Hk].
    + rewrite get_app_l; [by apply Hzero|]. by rewrite (Hzero k Hk).
    + apply list_elem_of_singleton in Hk as ->. by apply get_first.
  - rewrite lookup_insert_ne by lia. done.
  - intros k c Hk Hc. destruct (decide (i = k)) as [<-|Hne].
    + rewrite lookup_insert_eq in Hc. injection Hc as <-. eauto.
    + rewrite lookup_insert_ne in Hc by done. by apply Htok.
Qed.

Lemma start_all_registered (tokens : list (Z * string)) (r : Bot.registry) :
  StronglySorted Z.lt (Py.keys tokens) ->
  (forall k k', k ∈ Py.keys (Bot.work_loads r) -> k' ∈ Py.keys tokens -> k < k') ->
  (forall x, x ∈ tokens -> x ∈ all_tokens) ->
  registered env main_bot all_tokens r ->
  registered env main_bot all_tokens (Bot.start_all env tokens r).1.
Proof.
  revert r. induction tokens as [|[i token] rest IH]; intros r Hs Hlt Hsub Hr;
    simpl; [done|].
  simpl in Hs. apply StronglySorted_cons in Hs as [Hi Hrest].
  assert (Hrest_r : forall k k', k ∈ Py.keys (Bot.work_loads r) ->
                      k' ∈ Py.keys rest -> k < k').
  { intros k k' Hk Hk'. apply Hlt; [done|]. by apply list_elem_of_further. }
  assert (Hsub' : forall x, x ∈ rest -> x ∈ all_tokens).
  { intros x Hx. apply Hsub. by apply list_elem_of_further. }
  unfold Bot.start_client.
  destruct (Bot.start env i token) as [client|e] eqn:Hstart.
  - assert (Hfresh : i ∉ Py.keys (Bot.work_loads r)).
    { intros Hin. specialize (Hlt i i Hin (list_elem_of_here _ _)). lia. }
    assert (Hr1 : registered env main_bot all_tokens
              {| Bot.multi_clients := <[i := client]> (Bot.multi_clients r);
                 Bot.work_loads := Py.set i 0 (Bot.work_loads r) |}).
    { apply (register_keeps r i token client); [done| |by apply Hsub, list_elem_of_here|done].
      intros k Hk. apply Hlt; [done|]. apply list_elem_of_here. }
    destruct (Bot.sleep env i); [|done]. apply IH; try done.
    simpl. rewrite (set_fresh _ _ _ Hfresh). unfold Py.keys at 1. rewrite map_app.
    intros k k' Hk Hk'. apply elem_of_app in Hk as [Hk|Hk].
    + by apply Hrest_r.
    + apply list_elem_of_singleton in Hk as ->.
      rewrite Forall_forall in Hi. by apply Hi.
  - destruct (is_Exception e); [|done].
    destruct (Bot.sleep env i); [|done]. by apply IH.
Qed.

End Registry.

Lemma first_registration (env : Bot.startup) (main_bot : Client)
    (all_tokens : list (Z * string)) :
  registered env main_bot all_tokens
    {| Bot.multi_clients := <[0 := main_bot]> (Bot.multi_clients Bot.empty_registry);
       Bot.work_loads := Py.set 0 0 (Bot.work_loads Bot.empty_registry) |}.
Proof.
  unfold registered; simpl. repeat split.
  - repeat constructor.
  - intros Hk. apply list_elem_of_singleton in Hk as ->. by rewrite lookup_insert_eq.
  - intros Hk. apply lookup_insert_is_Some in Hk as [<-|[_ Hk]].
    + apply list_elem_of_here.
    + rewrite lookup_empty in Hk. by destruct Hk.
  - intros k Hk. by apply list_elem_of_singleton in Hk as ->.
  - intros k c Hk Hc. rewrite lookup_insert_ne in Hc by done.
    by rewrite lookup_empty in Hc.
Qed.

Lemma initialize_clients_registered (env : Bot.startup)
    (environ : list (string * string)) (main_bot : Client) :
  registered env main_bot (Bot.parse_from_env environ)
    (Bot.initialize_clients env environ main_bot Bot.empty_registry).1.
Proof.
  pose proof (first_registration env main_bot (Bot.parse_from_env environ)) as H0.
  unfold Bot.initialize_clients. destruct (Bot.ping env) as [_|e]; [|done].
  assert (Hall : registered env main_bot (Bot.parse_from_env environ)
            (Bot.start_all env (Bot.parse_from_env environ)
               {| Bot.multi_clients := <[0 := main_bot]> (Bot.multi_clients Bot.empty_registry);
                  Bot.work_loads := Py.set 0 0 (Bot.work_loads Bot.empty_registry) |}).1).
  { destruct (parse_from_env_keys environ) as [n Hn].
    apply start_all_registered; [| |done|done].
    - rewrite Hn. apply StronglySorted_seqZ.
    - rewrite Hn. simpl. intros k k' Hk Hk'.
      apply list_elem_of_singleton in Hk as ->. apply elem_of_seqZ in Hk'. lia. }
  by destruct (Bot.parse_from_env environ).
Qed.

(** After [initialize_clients] on the empty dictionaries, whatever the
    start-up calls answered and whether or not an exception left the
    function: the keys of [work_loads] are strictly ascending, they are the
    keys of [multi_clients], every counter is 0, the key 0 is the main bot,
    and every other key is the number of a token of the environment whose
    client did start. *)
Theorem initialize_clients_registry (env : Bot.startup)
    (environ : list (string * string)) (main_bot : Client) :
  let r := (Bot.initialize_clients env environ main_bot Bot.empty_registry).1 in
  StronglySorted Z.lt (Py.keys (Bot.work_loads r))
  /\ (forall k, k ∈ Py.keys (Bot.work_loads r) <-> is_Some (Bot.multi_clients r !! k))
  /\ (forall k, k ∈ Py.keys (Bot.work_loads r) -> Py.get k (Bot.work_loads r) = Some 0)
  /\ Bot.multi_clients r !! 0 = Some main_bot
  /\ (forall k c, k <> 0 -> Bot.multi_clients r !! k = Some c ->
        exists t, (k, t) ∈ Bot.parse_from_env environ /\ Bot.start env k t = Ok c).
Proof.
  exact (initialize_clients_registered env environ main_bot).
Qed.

Lemma start_all_escapes (env : Bot.startup) (tokens : list (Z * string))
    (s : Bot.registry) (e : exn) :
  (Bot.start_all env tokens s).2 = Some e ->
  (exists i t, (i, t) ∈ tokens /\ Bot.start env i t = Raise e /\ is_Exception e = false)
  \/ (exists i t, (i, t) ∈ tokens /\ Bot.sleep env i = Raise e).
Proof.
  revert s. induction tokens as [|[i token] rest IH]; intros s; simpl; [done|].
  assert (Hrest : forall s',
            (Bot.start_all env rest s').2 = Some e ->
            (exists i0 t, (i0, t) ∈ (i, token) :: rest /\ Bot.start env i0 t = Raise e
                          /\ is_Exception e = false)
            \/ (exists i0 t, (i0, t) ∈ (i, token) :: rest /\ Bot.sleep env i0 = Raise e)).
  { intros s' H. destruct (IH s' H) as [(i0 & t & Hin & H1)|(i0 & t & Hin & H1)].
    - left. exists i0, t. split; [by apply list_elem_of_further|done].
    - right. exists i0, t. split; [by apply list_elem_of_further|done]. }
  unfold Bot.start_client. destruct (Bot.start env i token) as [client|e'] eqn:Hstart.
  - destruct (Bot.sleep env i) as [[]|e''] eqn:Hsleep; [apply Hrest|].
    intros [= ->]. right. exists i, token. split; [apply list_elem_of_here|done].
  - destruct (is_Exception e') eqn:He.
    + destruct (Bot.sleep env i) as [[]|e''] eqn:Hsleep; [apply Hrest|].
      intros [= ->]. right. exists i, token. split; [apply list_elem_of_here|done].
    + intros [= ->]. left. exists i, token. split; [apply list_elem_of_here|done].
Qed.

(** No [Exception] of the ping or of the start of a client leaves
    [initialize_clients]: what leaves it was raised by the ping or by a
    start and is no [Exception] (a cancellation), or it was raised by the
    [asyncio.sleep] after a client. *)
Theorem initialize_clients_escapes (env : Bot.startup)
    (environ : list (string * string)) (main_bot : Client) (s : Bot.registry)
    (e : exn) :
  (Bot.initialize_clients env environ main_bot s).2 = Some e ->
  (Bot.ping env = Raise e /\ is_Exception e = false)
  \/ (exists i t, (i, t) ∈ Bot.parse_from_env environ
                  /\ Bot.start env i t = Raise e /\ is_Exception e = false)
  \/ (exists i t, (i, t) ∈ Bot.parse_from_env environ /\ Bot.sleep env i = Raise e).
Proof.
  unfold Bot.initialize_clients.
  destruct (Bot.ping env) as [[]|e'] eqn:Hping.
  - destruct (Bot.parse_from_env environ) as [|x rest] eqn:Htok; [done|].
    intros H. right. by apply start_all_escapes in H.
  - simpl. destruct (is_Exception e') eqn:He; [done|]. intros [= ->]. by left.
Qed.

Lemma initialize_clients_escapes_witness :
  (Bot.ping {| Bot.ping := Raise CancelledError;
               Bot.start := fun _ _ => Raise (RPCError 401);
               Bot.sleep := fun _ => Ok () |} = Raise CancelledError
   /\ is_Exception CancelledError = false)
  \/ (exists i t, (i, t) ∈ Bot.parse_from_env []
                  /\ Bot.start {| Bot.ping := Raise CancelledError;
                                  Bot.start := fun _ _ => Raise (RPCError 401);
                                  Bot.sleep := fun _ => Ok () |} i t = Raise CancelledError
                  /\ is_Exception CancelledError = false)
  \/ (exists i t, (i, t) ∈ Bot.parse_from_env []
                  /\ Bot.sleep {| Bot.ping := Raise CancelledError;
                                  Bot.start := fun _ _ => Raise (RPCError 401);
                                  Bot.sleep := fun _ => Ok () |} i = Raise CancelledError).
Proof.
  apply (initialize_clients_escapes _ [] Examples.failing_client Bot.empty_registry).
  reflexivity.
Defined.

(* ===================================================================== *)
(** ** What a stream does to the counters *)
(* ===================================================================== *)

Lemma shifted_same index w w' :
  work_loads w' = work_loads w -> shifted index 0 w w'.
Proof.
  intros E. unfold shifted, load. rewrite E. repeat split.
  intros v ->. f_equal. lia.
Qed.

Lemma shifted_trans index d1 d2 w w1 w2 :
  shifted index d1 w w1 -> shifted index d2 w1 w2 -> shifted index (d1 + d2) w w2.
Proof.
  intros (K1 & O1 & L1) (K2 & O2 & L2). repeat split.
  - by rewrite K2.
  - intros j Hj. by rewrite O2, O1.
  - intros v Hv. rewrite (L2 _ (L1 _ Hv)). f_equal. lia.
Qed.

Lemma adjust_load_shifted index delta ev w w' :
  adjust_load index delta ev w = Ok w' -> shifted index delta w w'.
Proof.
  unfold adjust_load. destruct (Py.get index (work_loads w)) as [v|] eqn:E; [|done].
  intros [= <-]. unfold shifted, load; simpl. repeat split.
  - apply keys_set_present. by rewrite E.
  - intros j Hj. by apply get_set_ne.
  - intros v' Hv'. rewrite get_set_eq. congruence.
Qed.

Lemma release_shifted a pending w :
  exists d, -1 <= d <= 0 /\ shifted (index a) d w (release a pending w).2.
Proof.
  unfold release.
  destruct (adjust_load (index a) (-1) (EvDecr (index a)) w) as [w'|e] eqn:E; simpl.
  - exists (-1). split; [lia|]. by apply adjust_load_shifted in E.
  - exists 0. split; [lia|]. by apply shifted_same.
Qed.

Lemma loop_turn_shifted c a ms loc cp off w :
  exists d, -1 <= d <= 0 /\ shifted (index a) d w (loop_turn c a ms loc cp off w).2.
Proof.
  unfold loop_turn. destruct (cp <=? part_count a); [|apply release_shifted].
  set (req := {| location := _; offset := _; limit := _ |}).
  set (w1 := {| work_loads := _; media_sessions := _; log := log w ++ [EvFetch ms req] |}).
  assert (H1 : shifted (index a) 0 w w1) by by apply shifted_same.
  assert (Hrel : forall pending,
            exists d, -1 <= d <= 0 /\ shifted (index a) d w (release a pending w1).2).
  { intros pending. destruct (release_shifted a pending w1) as (d & Hd & Hs).
    exists d. split; [done|]. replace d with (0 + d) by lia.
    by apply (shifted_trans _ _ _ _ w1). }
  destruct (send c ms req _) as [[chunk|]|e]; [|apply Hrel..].
  destruct chunk as [|x chunk]; [apply Hrel|].
  exists 0. split; [lia|done].
Qed.

Lemma step_shifted o g w :
  exists d,
    match gen_frame g with
    | NotStarted => 0 <= d <= 1
    | AtYield _ _ _ _ => -1 <= d <= 0
    | Finished => d = 0
    end
    /\ shifted (index (gen_args g)) d w (step o (g, w)).2.
Proof.
  destruct g as [c a fr]. simpl.
  assert (Hstay : forall lo hi, lo <= 0 <= hi ->
            exists d, lo <= d <= hi /\ shifted (index a) d w w).
  { intros lo hi H. exists 0. split; [done|]. by apply shifted_same. }
  destruct fr as [|ms loc cp off|]; destruct o as [|e|];
    unfold step, aclose, athrow, anext; cbn [fst snd gen_frame gen_args gen_client];
    try (apply Hstay; lia); try apply release_shifted; try apply loop_turn_shifted;
    try (exists 0; split; [done|by apply shifted_same]).
  destruct (adjust_load (index a) 1 (EvIncr (index a)) w) as [w1|e] eqn:E1;
    cbn [fst snd]; [|apply Hstay; lia].
  apply adjust_load_shifted in E1.
  destruct (acquire_media_session c (ya_file_id a) w1) as [[ms w2]|e] eqn:E2;
    cbn [fst snd]; [|exists 1; split; [lia|done]].
  apply acquire_keeps_loads in E2 as [E2 _].
  destruct (loop_turn_shifted c a ms (get_location (ya_file_id a)) 1 (start_offset a) w2)
    as (d & Hd & Hs).
  exists (1 + d). split; [lia|].
  apply (shifted_trans _ _ _ _ w1); [done|].
  replace d with (0 + d) by lia. apply (shifted_trans _ _ _ _ w2); [|done].
  by apply shifted_same.
Qed.

Lemma serving_keys d0 w : serving d0 w -> Py.keys (work_loads w) = Py.keys d0.
Proof.
  induction 1 as [w E|g o w _ IH]; [by rewrite E|].
  destruct (step_shifted o g w) as (d & _ & K & _). by rewrite K.
Qed.

Lemma min_by_value_registered (d : list (Z * Z)) :
  d <> [] -> Py.min_by_value d 0 ∈ Py.keys d.
Proof.
  destruct d as [|[k0 v0] d]; [done|]. intros _. simpl.
  destruct (min_scan_spec d k0 v0) as [[Heq _]|(d1 & d2 & rv & Hd & _)].
  - rewrite Heq. apply list_elem_of_here.
  - apply list_elem_of_further. rewrite Hd at 2. unfold Py.keys. rewrite map_app.
    apply elem_of_app. right. apply list_elem_of_here.
Qed.

(** One operation of a consumer on a stream leaves the keys of
    [work_loads] and the counter of every other session as they are, and
    moves the counter of its own session by at most one: up by one or not
    at all on the first [__anext__], down by one or not at all from a
    [yield], and not at all once the stream is finished. *)
Theorem stream_step_counter (o : op) (g : generator) (w : world) :
  let w' := (step o (g, w)).2 in
  Py.keys (work_loads w') = Py.keys (work_loads w)
  /\ (forall j, j <> index (gen_args g) -> load j w' = load j w)
  /\ exists d,
       match gen_frame g with
       | NotStarted => 0 <= d <= 1
       | AtYield _ _ _ _ => -1 <= d <= 0
       | Finished => d = 0
       end
       /\ forall v, load (index (gen_args g)) w = Some v ->
            load (index (gen_args g)) w' = Some (v + d).
Proof.
  intros w'. destruct (step_shifted o g w) as (d & Hd & K & O & L).
  split; [done|]. split; [done|]. by exists d.
Qed.

(* ===================================================================== *)
(** ** The registered sessions and the selection *)
(* ===================================================================== *)

(** With the registry that [initialize_clients] leaves, and the counters
    moved by any operations of any streams since, the least-loaded index
    that [stream_handler] computes is a registered session: the keys of
    [work_loads] are still strictly ascending and not empty, the index has
    a client, and the answer is never the 503 of line 142. *)
Theorem registered_session_is_selected (env : Bot.startup)
    (environ : list (string * string)) (main_bot : Client) (w : world)
    (request : Request) (msg_id : Z) :
  let r := (Bot.initialize_clients env environ main_bot Bot.empty_registry).1 in
  serving (Bot.work_loads r) w ->
  StronglySorted Z.lt (Py.keys (work_loads w))
  /\ work_loads w <> []
  /\ is_Some (Bot.multi_clients r !! Py.min_by_value (work_loads w) 0)
  /\ http_status (Webserver.stream_handler (work_loads w) (Bot.multi_clients r)
                    request msg_id) <> 503.
Proof.
  intros r Hw.
  destruct (initialize_clients_registered env environ main_bot)
    as (Hs & Hdom & _ & Hmain & _). fold r in Hs, Hdom, Hmain.
  pose proof (serving_keys _ _ Hw) as Hk.
  assert (Hne : work_loads w <> []).
  { intros E. rewrite E in Hk. simpl in Hk.
    assert (H0 : 0 ∈ Py.keys (Bot.work_loads r)) by (apply Hdom; by rewrite Hmain).
    rewrite <- Hk in H0. by apply elem_of_nil in H0. }
  assert (Hsel : is_Some (Bot.multi_clients r !! Py.min_by_value (work_loads w) 0)).
  { apply Hdom. rewrite <- Hk. by apply min_by_value_registered. }
  split; [by rewrite Hk|]. split; [done|]. split; [done|].
  pose proof (webserver_outcomes (work_loads w) (Bot.multi_clients r) request msg_id)
    as Hout. cbv zeta in Hout.
  destruct Hout as [[Hnone _]|(client & _ & Hcases)].
  - rewrite Hnone in Hsel. by destruct Hsel.
  - destruct Hcases as [(resp & Htry & ->)|[[_ ->]|[(e & _ & _ & _ & ->)|(e & _ & He & ->)]]].
    + simpl. destruct (webserver_try_status _ _ _ _ _ Htry) as [-> | ->]; lia.
    + simpl. lia.
    + simpl. lia.
    + destruct e; simpl; try lia; done.
Qed.

Lemma registered_session_is_selected_witness :
  let env := {| Bot.ping := Ok (); Bot.start := fun _ _ => Ok Examples.failing_client;
                Bot.sleep := fun _ => Ok () |} in
  let environ := [("MULTI_TOKEN1", "t1"); ("HOME", "/root")]%string in
  let main_bot := file_client (Examples.msg 12) Examples.twelve in
  let r := (Bot.initialize_clients env environ main_bot Bot.empty_registry).1 in
  let w := (step Next (Examples.gen4 0 0 4 3,
                       {| work_loads := Bot.work_loads r; media_sessions := ∅;
                          log := [] |})).2 in
  work_loads w = [(0, 1); (1, 0)]
  /\ Py.min_by_value (work_loads w) 0 = 1
  /\ StronglySorted Z.lt (Py.keys (work_loads w))
  /\ work_loads w <> []
  /\ is_Some (Bot.multi_clients r !! Py.min_by_value (work_loads w) 0)
  /\ http_status (Webserver.stream_handler (work_loads w) (Bot.multi_clients r)
                    {| range_header := None |} 5) <> 503.
Proof.
  intros env environ main_bot r w.
  split; [by vm_compute|]. split; [by vm_compute|].
  apply (registered_session_is_selected env environ main_bot w).
  apply serving_step. by apply serving_start.
Defined.

(** [app.py] registers the main bot only (lines 161-162 of [main]), so
    whatever the streams did to the counter since, [stream_media] selects
    the index 0, finds the main bot and never answers 503. *)
Theorem app_streams_through_main_bot (bot : Client) (w : world)
    (request : Request) (mid : Z) :
  serving (AppPage.registered bot).2 w ->
  Py.min_by_value (work_loads w) 0 = 0
  /\ (AppPage.registered bot).1 !! Py.min_by_value (work_loads w) 0 = Some bot
  /\ http_status (App.stream_media (work_loads w) (AppPage.registered bot).1 request mid)
     <> 503.
Proof.
  intros Hw. pose proof (serving_keys _ _ Hw) as Hk. simpl in Hk.
  assert (Hmin : Py.min_by_value (work_loads w) 0 = 0).
  { destruct (work_loads w) as [|[k v] [|]]; try done. simpl in *. congruence. }
  assert (Hbot : (AppPage.registered bot).1 !! Py.min_by_value (work_loads w) 0 = Some bot).
  { by rewrite Hmin. }
  split; [done|]. split; [done|].
  rewrite (app_handler_selected _ _ _ _ _ Hbot).
  destruct (App.stream_media_try bot (Py.min_by_value (work_loads w) 0) request mid)
    as [resp|e] eqn:Htry.
  - simpl. rewrite (app_try_status _ _ _ _ _ Htry). lia.
  - destruct e; simpl; lia.
Qed.

Lemma app_streams_through_main_bot_witness :
  let bot := file_client (Examples.msg 12) Examples.twelve in
  let w := (step Next (Examples.gen4 0 0 4 3,
                       {| work_loads := (AppPage.registered bot).2;
                          media_sessions := ∅; log := [] |})).2 in
  work_loads w = [(0, 1)]
  /\ Py.min_by_value (work_loads w) 0 = 0
  /\ (AppPage.registered bot).1 !! Py.min_by_value (work_loads w) 0 = Some bot
  /\ http_status (App.stream_media (work_loads w) (AppPage.registered bot).1
                    {| range_header := Some "bytes=0-3"%string |} 5) <> 503.
Proof.
  intros bot w. split; [by vm_compute|].
  apply (app_streams_through_main_bot bot w).
  apply serving_step. by apply serving_start.
Defined.

(* ===================================================================== *)
(** ** The size label *)
(* ===================================================================== *)

Lemma round_half_even_proper (x y : Q) :
  Qeq x y -> Bot.round_half_even x = Bot.round_half_even y.
Proof.
  intros H. unfold Bot.round_half_even. rewrite (Qfloor_comp _ _ H).
  assert (E : Qcompare (x - inject_Z (Qfloor y)) (1 # 2)
              = Qcompare (y - inject_Z (Qfloor y)) (1 # 2)).
  { apply Qcompare_comp; [|reflexivity]. by rewrite H. }
  by rewrite E.
Qed.

Lemma format_2f_proper (x y : Q) : Qeq x y -> Bot.format_2f x = Bot.format_2f y.
Proof.
  intros H. unfold Bot.format_2f.
  assert (E1 : Bot.round_half_even (x * 100) = Bot.round_half_even (y * 100)).
  { apply round_half_even_proper. by rewrite H. }
  assert (E2 : Qcompare x 0 = Qcompare y 0).
  { apply Qcompare_comp; [done|reflexivity]. }
  by rewrite E1, E2.
Qed.

Lemma pow_1024_pos (k : Z) : 0 <= k -> (0 < inject_Z (1024 ^ k))%Q.
Proof.
  intros Hk. change 0%Q with (inject_Z 0). rewrite <- Zlt_Qlt.
  by apply Z.pow_pos_nonneg.
Qed.

(** The loop divides by 1024 as long as the quotient is at least 1024 and
    fewer than four divisions were made. *)
Lemma scale_spec (size n : Z) (fuel : nat) (k : Z) (x : Q) :
  0 <= k -> Z.of_nat fuel = 4 - k -> k <= n ->
  1024 ^ n <= size < 1024 ^ (n + 1) ->
  Qeq x (inject_Z size / inject_Z (1024 ^ k)) ->
  exists q, Bot.scale fuel x k = (q, Z.min n 4)
            /\ Qeq q (inject_Z size / inject_Z (1024 ^ Z.min n 4)).
Proof.
  revert k x. induction fuel as [|fuel IH]; intros k x Hk Hfuel Hkn Hsize Hx.
  - simpl. exists x. replace (Z.min n 4) with k by lia. done.
  - cbn [Bot.scale]. pose proof (pow_1024_pos k Hk) as Hpos.
    replace (k <? Z.of_nat (length Bot.power_labels)) with true
      by (symmetry; apply Z.ltb_lt; simpl; lia).
    rewrite andb_true_r.
    destruct (Z_lt_le_dec k n) as [Hlt|Hge].
    + assert (Hle : Qle_bool 1024 x = true).
      { apply Qle_bool_iff. rewrite Hx. apply Qle_shift_div_l; [done|].
        change 1024%Q with (inject_Z 1024). rewrite <- inject_Z_mult, <- Zle_Qle.
        rewrite <- Z.pow_succ_r by lia.
        assert (1024 ^ Z.succ k <= 1024 ^ n) by (apply Z.pow_le_mono_r; lia). lia. }
      rewrite Hle. apply IH; try lia.
      rewrite Hx. replace (k + 1) with (Z.succ k) by lia.
      rewrite Z.pow_succ_r, inject_Z_mult by lia.
      change (inject_Z 1024) with 1024%Q. field.
      intros E. rewrite E in Hpos. by apply Qlt_irrefl in Hpos.
    + assert (Hnk : n = k) by lia. subst n.
      assert (Hlt : Qle_bool 1024 x = false).
      { apply not_true_is_false. intros Hle. apply Qle_bool_iff in Hle.
        apply (Qle_not_lt _ _ Hle). rewrite Hx. apply Qlt_shift_div_r; [done|].
        change 1024%Q with (inject_Z 1024). rewrite <- inject_Z_mult, <- Zlt_Qlt.
        rewrite <- Z.pow_succ_r by lia. replace (Z.succ k) with (k + 1) by lia. lia. }
      rewrite Hlt. exists x. replace (Z.min k 4) with k by lia. done.
Qed.

(** Below [1024^4] the size has a label. *)
Lemma readable_size_ok (size : Z) :
  size < 1024 ^ 4 -> exists s, Bot.get_readable_file_size size = Ok s.
Proof.
  intros Hlt. unfold Bot.get_readable_file_size.
  destruct (Z.eqb_spec size 0) as [_|Hne]; [eauto|].
  destruct (Z_lt_le_dec size 1024) as [Hs|Hs].
  - assert (E : Qle_bool 1024 (inject_Z size) = false).
    { apply not_true_is_false. intros Hle. apply Qle_bool_iff in Hle.
      change 1024%Q with (inject_Z 1024) in Hle. rewrite <- Zle_Qle in Hle. lia. }
    simpl. rewrite E. simpl. eauto.
  - assert (Hn : exists n, 0 <= n < 4 /\ 1024 ^ n <= size < 1024 ^ (n + 1)).
    { destruct (Z_lt_le_dec size (1024 ^ 2)); [exists 1; lia|].
      destruct (Z_lt_le_dec size (1024 ^ 3)); [exists 2; lia|]. exists 3. lia. }
    destruct Hn as (n & Hn & Hsize).
    destruct (scale_spec size n (length Bot.power_labels) 0 (inject_Z size))
      as (q & -> & _); try done; try lia.
    { rewrite Z.pow_0_r. change (inject_Z 1) with 1%Q. field. }
    cbn [fst snd]. replace (Z.min n 4) with n by lia.
    assert (Hl : is_Some (Py.get n Bot.power_labels)).
    { assert (Hc : n = 0 \/ n = 1 \/ n = 2 \/ n = 3) by lia.
      destruct Hc as [->|[->|[->| ->]]]; by eexists. }
    destruct Hl as [label ->]. eauto.
Qed.

(** The label of a size below [2^53] that lies between [1024^n] and
    [1024^(n+1)]: the size divided by [1024^n] with two decimals and the
    [n]-th prefix, as long as there is one; from [1024^4] on the look-up
    of the prefix raises [KeyError].  Below [2^53] the conversion to a
    float and the divisions by 1024 are exact. *)
Theorem readable_size_label (size n : Z) :
  0 <= n ->
  1024 ^ n <= size < 1024 ^ (n + 1) ->
  size < 2 ^ 53 ->
  Bot.get_readable_file_size size
  = match Py.get n Bot.power_labels with
    | Some label =>
        Ok (Bot.format_2f (inject_Z size / inject_Z (1024 ^ n)) +:+ " " +:+ label +:+ "B")
    | None => Raise KeyError
    end
  /\ (4 <= n -> Bot.get_readable_file_size size = Raise KeyError).
Proof.
  intros Hn Hsize _.
  assert (Hpos : 0 < size).
  { assert (0 < 1024 ^ n) by (apply Z.pow_pos_nonneg; lia). lia. }
  unfold Bot.get_readable_file_size.
  destruct (Z.eqb_spec size 0) as [?|_]; [lia|].
  destruct (scale_spec size n (length Bot.power_labels) 0 (inject_Z size))
    as (q & -> & Hq); try done.
  { rewrite Z.pow_0_r. change (inject_Z 1) with 1%Q. field. }
  cbn [fst snd].
  destruct (Z_lt_le_dec n 4) as [Hlt|Hge].
  - split; [|lia]. replace (Z.min n 4) with n in * by lia.
    destruct (Py.get n Bot.power_labels) as [label|]; [|done].
    by rewrite (format_2f_proper _ _ Hq).
  - replace (Z.min n 4) with 4 by lia.
    assert (Hnone : Py.get n Bot.power_labels = None).
    { unfold Bot.power_labels. cbn [Py.get].
      destruct (Z.eqb_spec n 0); [lia|]. destruct (Z.eqb_spec n 1); [lia|].
      destruct (Z.eqb_spec n 2); [lia|]. by destruct (Z.eqb_spec n 3); [lia|]. }
    rewrite Hnone. split; [reflexivity|intros _; reflexivity].
Qed.

Lemma readable_size_label_witness :
  Bot.get_readable_file_size (3 * 1024 ^ 3 + 512 * 1024 ^ 2)
  = Ok "3.50 GB"%string
  /\ (4 <= 3 -> Bot.get_readable_file_size (3 * 1024 ^ 3 + 512 * 1024 ^ 2) = Raise KeyError).
Proof.
  exact (readable_size_label (3 * 1024 ^ 3 + 512 * 1024 ^ 2) 3
           ltac:(lia) ltac:(lia) ltac:(lia)).
Defined.

Example readable_size_zero : Bot.get_readable_file_size 0 = Ok "0B"%string.
Proof. reflexivity. Qed.

Example readable_size_bytes : Bot.get_readable_file_size 500 = Ok "500.00 B"%string.
Proof. by vm_compute. Qed.

Example readable_size_half_even : Bot.get_readable_file_size 1152 = Ok "1.12 KB"%string.
Proof. by vm_compute. Qed.

Example readable_size_tebibyte : Bot.get_readable_file_size (1024 ^ 4) = Raise KeyError.
Proof. by vm_compute. Qed.

(* ===================================================================== *)
(** ** The [/show] pages *)
(* ===================================================================== *)

Lemma scan_unnamed main_bot base_url unique_id h :
  unnamed unique_id h = true ->
  WebserverPage.scan main_bot base_url unique_id h
  = WebserverPage.Raising (HTTPException 404).
Proof.
  induction h as [|text rest IH|e]; cbn [unnamed WebserverPage.scan]; [done| |done].
  destruct (WebserverPage.names unique_id text); simpl; [done|]. apply IH.
Qed.

Lemma scan_first_match main_bot base_url unique_id before text rest :
  Forall (fun t => WebserverPage.names unique_id t = false) before ->
  WebserverPage.names unique_id (Some text) = true ->
  WebserverPage.scan main_bot base_url unique_id
    (foldr WebserverPage.history_message
       (WebserverPage.history_message (Some text) rest) before)
  = WebserverPage.render main_bot base_url text.
Proof.
  intros Hb Ht. induction Hb as [|t before Hn _ IH]; cbn [foldr WebserverPage.scan].
  - by rewrite Ht.
  - by rewrite Hn.
Qed.

(** [show_file_page] of [webserver.py] never answers with an
    [HTTPException]: the 503 of line 101 and the 404 of lines 109 and 128
    are raised inside the [try] and end in the [NameError] of the
    [except Exception] clause, as every other [Exception] does.  So it is
    with no main bot registered, and with a history that ends without a
    message naming the identifier. *)
Theorem show_file_page_never_http (multi_clients : gmap Z Client)
    (chat_history : WebserverPage.history) (base_url unique_id : string) :
  let r := WebserverPage.show_file_page multi_clients chat_history base_url unique_id in
  (forall s, r <> Raise (HTTPException s))
  /\ (multi_clients !! 0 = None -> r = Raise (NameError "traceback"))
  /\ (unnamed unique_id chat_history = true -> r = Raise (NameError "traceback")).
Proof.
  intros r. subst r. unfold WebserverPage.show_file_page. repeat split.
  - intros s.
    destruct (WebserverPage.show_file_page_try _ _ _ _) as [ctx| |e]; [done..|].
    destruct (is_Exception e) eqn:He; [done|]. intros [= ->]. done.
  - intros Hnone. unfold WebserverPage.show_file_page_try. by rewrite Hnone.
  - intros Hun. unfold WebserverPage.show_file_page_try.
    destruct (multi_clients !! 0) as [main_bot|]; [|done].
    by rewrite (scan_unnamed _ _ _ _ Hun).
Qed.

(** The first message of the history that names the identifier decides
    the page, whatever comes after it: with a stored message that has a
    media below [1024^4] bytes, the page is rendered, and its links are
    built from the base URL, the message number read from the text and the
    file name of the media ([None] when it has none). *)
Theorem show_file_page_first_match (multi_clients : gmap Z Client) (main_bot : Client)
    (before : list (option string)) (text : string) (rest : WebserverPage.history)
    (base_url unique_id : string) (id : Z) (file_msg : Message) (media : Media) :
  multi_clients !! 0 = Some main_bot ->
  Forall (fun t => WebserverPage.names unique_id t = false) before ->
  WebserverPage.names unique_id (Some text) = true ->
  WebserverPage.storage_msg_id text = inr id ->
  get_messages main_bot id = Ok file_msg ->
  first_media file_msg = Some media ->
  file_size media < 1024 ^ 4 ->
  exists ctx,
    WebserverPage.show_file_page multi_clients
      (foldr WebserverPage.history_message
         (WebserverPage.history_message (Some text) rest) before)
      base_url unique_id = Ok ctx
    /\ Bot.get_readable_file_size (file_size media) = Ok (WebserverPage.ctx_file_size ctx)
    /\ WebserverPage.ctx_file_name ctx = file_name media
    /\ WebserverPage.ctx_direct_dl_link ctx
       = base_url +:+ "/dl/" +:+ Py.str id +:+ "/" +:+ fmt (file_name media)
    /\ WebserverPage.ctx_vlc_player_link ctx
       = "vlc://" +:+ WebserverPage.ctx_direct_dl_link ctx.
Proof.
  intros Hmain Hbefore Htext Hid Hmsg Hmedia Hsize.
  destruct (readable_size_ok _ Hsize) as [s Hs].
  unfold WebserverPage.show_file_page, WebserverPage.show_file_page_try.
  rewrite Hmain, (scan_first_match _ _ _ _ _ _ Hbefore Htext).
  unfold WebserverPage.render. rewrite Hid, Hmsg, Hmedia, Hs.
  eexists. split; [reflexivity|]. by simpl.
Qed.

Lemma show_file_page_first_match_witness :
  exists ctx,
    WebserverPage.show_file_page {[ 0 := file_client (Examples.msg 12) Examples.twelve ]}
      (foldr WebserverPage.history_message
         (WebserverPage.history_message
            (Some "Unique ID: `abc`, Storage Msg ID: `42`"%string)
            (WebserverPage.history_raises (RPCError 420)))
         [None; Some "Unique ID: `abd`, Storage Msg ID: `41`"%string])
      "https://h" "abc" = Ok ctx
    /\ Bot.get_readable_file_size (file_size (Examples.doc 12))
       = Ok (WebserverPage.ctx_file_size ctx)
    /\ WebserverPage.ctx_file_name ctx = file_name (Examples.doc 12)
    /\ WebserverPage.ctx_direct_dl_link ctx
       = ("https://h" +:+ "/dl/" +:+ Py.str 42 +:+ "/" +:+ fmt (file_name (Examples.doc 12)))%string
    /\ WebserverPage.ctx_vlc_player_link ctx
       = "vlc://" +:+ WebserverPage.ctx_direct_dl_link ctx.
Proof.
  apply (show_file_page_first_match _ (file_client (Examples.msg 12) Examples.twelve)
           _ _ _ _ _ 42 (Examples.msg 12) (Examples.doc 12)).
  - reflexivity.
  - repeat constructor.
  - reflexivity.
  - reflexivity.
  - reflexivity.
  - reflexivity.
  - reflexivity.
Defined.

Example show_file_page_link :
  match WebserverPage.show_file_page
          {[ 0 := file_client (Examples.msg 12) Examples.twelve ]}
          (WebserverPage.history_message
             (Some "Unique ID: `abc`, Storage Msg ID: `42`"%string)
             WebserverPage.history_end)
          "https://h" "abc" with
  | Ok ctx => Some (WebserverPage.ctx_direct_dl_link ctx, WebserverPage.ctx_file_size ctx)
  | Raise _ => None
  end = Some ("https://h/dl/42/a.mp4", "12.00 B")%string.
Proof. by vm_compute. Qed.

(** [show_page] of [app.py] never renders a page.  Whenever the link, the
    main bot and the media of the stored message are there, line 106 calls
    [mask_filename] with a non-empty name, which raises
    [UnboundLocalError]. *)
Theorem app_show_page_never_renders (get_link : string -> result (option Z))
    (multi_clients : gmap Z Client) (base_url uid : string) :
  (exists e, AppPage.show_page get_link multi_clients base_url uid = Raise e)
  /\ (forall mid mb fmsg m,
        get_link uid = Ok (Some mid) -> mid <> 0 ->
        multi_clients !! 0 = Some mb ->
        get_messages mb mid = Ok fmsg ->
        first_media fmsg = Some m ->
        AppPage.show_page get_link multi_clients base_url uid
        = Raise (UnboundLocalError "resolutions")).
Proof.
  assert (Hmask : forall m : Media,
            AppPage.mask_filename (or_default (file_name m) "file")
            = Raise (UnboundLocalError "resolutions")).
  { intros m. unfold AppPage.mask_filename, or_default.
    destruct (file_name m) as [[|c s]|]; done. }
  split.
  - unfold AppPage.show_page.
    destruct (get_link uid) as [[mid|]|e]; simpl; eauto.
    destruct (mid =? 0); eauto.
    destruct (multi_clients !! 0) as [mb|]; eauto.
    destruct (get_messages mb mid) as [fmsg|e]; simpl; eauto.
    destruct (first_media fmsg) as [m|]; eauto.
    rewrite Hmask. simpl. eauto.
  - intros mid mb fmsg m Hlink Hmid Hmb Hmsg Hm. unfold AppPage.show_page.
    rewrite Hlink. simpl. destruct (Z.eqb_spec mid 0) as [?|_]; [done|].
    rewrite Hmb, Hmsg. simpl. rewrite Hm, Hmask. done.
Qed.

(* ===================================================================== *)
(** ** The upload handlers *)
(* ===================================================================== *)

Section Stages.
Context {A B : Type}.
Implicit Types P R V F U : Upload.state -> Prop.

Lemma stage_bind P R V F (m : Upload.proc A) (k : A -> Upload.proc B) :
  stage P m R F -> (forall a, stage R (k a) V F) -> stage P (m ≫= k) V F.
Proof.
  intros Hm Hk s Hs. specialize (Hm s Hs). unfold mbind, Upload.proc_bind.
  destruct (m s) as [s1 [a| |e]]; simpl in *; try done. by apply Hk.
Qed.

Lemma stage_try_except P U V F (body : Upload.proc A) (handler : exn -> Upload.proc A) :
  stage P body V U -> (forall s, U s -> F s) -> (forall e, stage U (handler e) V F) ->
  stage P (Upload.try_except body handler) V F.
Proof.
  intros Hb HU Hh s Hs. specialize (Hb s Hs). unfold Upload.try_except.
  destruct (body s) as [s1 [a| |e]]; simpl in *; [done|by apply HU|].
  destruct (is_Exception e); [by apply Hh|by apply HU].
Qed.

Lemma stage_try_finally P R1 R2 V F (body : Upload.proc A) (final : Upload.proc unit) :
  stage P body R1 R2 -> stage R1 final V F -> stage R2 final F F ->
  stage P (Upload.try_finally body final) V F.
Proof.
  intros Hb H1 H2 s Hs. specialize (Hb s Hs). unfold Upload.try_finally.
  destruct (body s) as [s1 [a| |e]]; simpl in *.
  - specialize (H1 s1 Hb). by destruct (final s1) as [s2 [[]| |e]].
  - specialize (H2 s1 Hb). by destruct (final s1) as [s2 [[]| |e]].
  - specialize (H2 s1 Hb). by destruct (final s1) as [s2 [[]| |e']].
Qed.

Lemma stage_weaken P P' V V' F F' (m : Upload.proc A) :
  stage P' m V' F' -> (forall s, P s -> P' s) -> (forall s, V' s -> V s) ->
  (forall s, F' s -> F s) -> stage P m V F.
Proof.
  intros Hm HP HV HF s Hs. specialize (Hm s (HP s Hs)).
  destruct ((m s).2); auto.
Qed.

Lemma stage_return P V F : (forall s, P s -> F s) -> stage P (@Upload.return_ A) V F.
Proof. intros H s Hs. by apply H. Qed.

Lemma stage_ret (a : A) P V F : (forall s, P s -> V s) -> stage P (mret a) V F.
Proof. intros H s Hs. by apply H. Qed.

End Stages.

Lemma stage_await (sv : Upload.services) (c : Upload.call)
    (P V F : Upload.state -> Prop) :
  (forall s, P s ->
     F {| Upload.present := Upload.present s; Upload.trace := Upload.trace s ++ [c] |}) ->
  (forall s, P s ->
     V {| Upload.present := Upload.effect c (Upload.present s);
          Upload.trace := Upload.trace s ++ [c] |}) ->
  stage P (Upload.await sv c) V F.
Proof.
  intros He Hn s Hs. unfold Upload.await.
  destruct (Upload.raises sv c) as [e|]; simpl; auto.
Qed.

Lemma stage_if_exists (block : Upload.proc unit) (P V F : Upload.state -> Prop) :
  stage (fun s => P s /\ Upload.present s = true) block V F ->
  (forall s, P s -> Upload.present s = false -> V s) ->
  stage P (Upload.if_exists block) V F.
Proof.
  intros Hb Hn s Hs. unfold Upload.if_exists.
  destruct (Upload.present s) eqn:E; [by apply Hb|by apply Hn].
Qed.

Lemma await_keeps (sv : Upload.services) (c : Upload.call) (I : Upload.state -> Prop) :
  kept_by c I -> stage I (Upload.await sv c) I I.
Proof. intros Hk. apply stage_await; intros s Hs; apply Hk; auto. Qed.

Lemma if_exists_keeps (block : Upload.proc unit) (I : Upload.state -> Prop) :
  stage I block I I -> stage I (Upload.if_exists block) I I.
Proof.
  intros Hb. apply stage_if_exists; [|done].
  apply (stage_weaken _ I _ I _ I); [done|by intros s [? _]|done|done].
Qed.

Lemma handle_file_upload_keeps (sv : Upload.services) (link : string -> string)
    (I : Upload.state -> Prop) :
  (forall c, (forall b, c <> Upload.send_document b) -> c <> Upload.write_chunks ->
             c <> Upload.open_file -> c <> Upload.remove_file -> kept_by c I) ->
  stage I (Upload.handle_file_upload sv link) I I.
Proof.
  intros Hk. unfold Upload.handle_file_upload.
  apply (stage_try_except _ I); [|done|].
  - repeat (apply (stage_bind _ I); [|intros _]); apply await_keeps, Hk; done.
  - intros e. apply await_keeps, Hk; done.
Qed.

Lemma prepare_keeps (sv : Upload.services) (default_name : result string)
    (I : Upload.state -> Prop) :
  (forall n, kept_by (Upload.reply_text n) I) -> kept_by Upload.makedirs I ->
  stage I (Upload.prepare sv default_name) I I.
Proof.
  intros Hr Hm. unfold Upload.prepare.
  destruct (length (Upload.command sv) <? 2)%nat.
  - apply (stage_bind _ I); [by apply await_keeps|]. intros _. by apply stage_return.
  - destruct (Upload.file_name sv default_name) as [name|e]; [|by intros s Hs].
    apply (stage_bind _ I); [by apply await_keeps|]. intros _.
    destruct (Upload.downloads_exists sv); [by apply stage_ret|by apply await_keeps].
Qed.

Lemma unsent_kept c : (forall b, c <> Upload.send_document b) -> kept_by c unsent.
Proof.
  intros Hc s p Hs _ b Hin. simpl in Hin. apply elem_of_app in Hin as [Hin|Hin].
  - by apply (Hs b).
  - apply list_elem_of_singleton in Hin. by apply (Hc b).
Qed.

Ltac in_trace :=
  repeat match goal with
    | H : _ ∈ [] |- _ => by apply elem_of_nil in H
    | H : _ ∈ _ :: _ |- _ => apply elem_of_cons in H as [H|H]; [try discriminate H|]
    end.

Ltac kept L := apply L; [intros; discriminate | assumption | auto].

Lemma unsent_sent_download sv s : unsent s -> sent_download sv s.
Proof. intros Hs b Hin. by apply Hs in Hin. Qed.

Lemma sent_download_kept sv c :
  (forall b, c <> Upload.send_document b) -> kept_by c (sent_download sv).
Proof.
  intros Hc s p Hs _ b Hin. simpl in *. apply elem_of_app in Hin as [Hin|Hin].
  - by apply Hs.
  - apply list_elem_of_singleton in Hin. by destruct (Hc b).
Qed.

Lemma stage_await_answer (sv : Upload.services) (c : Upload.call)
    (P V F : Upload.state -> Prop) :
  (forall s, P s ->
     F {| Upload.present := Upload.present s; Upload.trace := Upload.trace s ++ [c] |}) ->
  (forall s, P s -> Upload.raises sv c = None ->
     V {| Upload.present := Upload.effect c (Upload.present s);
          Upload.trace := Upload.trace s ++ [c] |}) ->
  stage P (Upload.await sv c) V F.
Proof.
  intros He Hn s Hs. unfold Upload.await.
  destruct (Upload.raises sv c) as [e|] eqn:E; simpl; auto.
Qed.

Lemma bot_transfer (sv : Upload.services) :
  stage unsent (Upload.transfer sv) (downloaded sv) unsent.
Proof.
  unfold Upload.transfer.
  apply (stage_bind _ (fun s => unsent s /\ Upload.raises sv Upload.http_get = None)).
  { apply stage_await_answer; intros s Hs; [kept unsent_kept|].
    intros Hget. split; [kept unsent_kept|done]. }
  intros _. destruct (Z.eqb_spec (Upload.response_status sv) 200) as [Hst|Hst]; simpl.
  - apply (stage_bind _ (fun s => unsent s /\ Upload.present s = true
                                  /\ Upload.raises sv Upload.http_get = None
                                  /\ Upload.raises sv Upload.open_file = None)).
    + apply stage_await_answer; intros s [Hs Hget]; [kept unsent_kept|].
      intros Hopen. split; [kept unsent_kept|done].
    + intros _. apply stage_await_answer.
      * intros s [Hs _]. kept unsent_kept.
      * intros s (Hs & Hp & Hget & Hopen) Hw. split; [kept unsent_kept|]. done.
  - apply (stage_bind _ unsent).
    + apply stage_await; intros s [Hs _]; kept unsent_kept.
    + intros _. by apply stage_return.
Qed.

Lemma bot_handler_sent (sv : Upload.services) (link : string -> string) :
  stage unsent (BotUpload.url_upload_handler sv link)
    (sent_download sv) (sent_download sv).
Proof.
  unfold BotUpload.url_upload_handler.
  apply (stage_bind _ unsent).
  { apply (stage_weaken _ unsent _ unsent _ unsent);
      [|done|done|apply unsent_sent_download].
    apply prepare_keeps; intros; intros s p Hs Hp; kept unsent_kept. }
  intros _. apply (stage_bind _ (downloaded sv)).
  { apply (stage_try_except _ unsent); [apply bot_transfer|apply unsent_sent_download|].
    intros e. apply (stage_bind _ unsent).
    - apply stage_await; intros s Hs; [apply unsent_sent_download|]; kept unsent_kept.
    - intros _. apply (stage_bind _ unsent).
      + apply stage_if_exists; [|done].
        apply stage_await; intros s [Hs _]; [apply unsent_sent_download|];
          kept unsent_kept.
      + intros _. apply stage_return. apply unsent_sent_download. }
  intros _. apply (stage_bind _ (sent_download sv)).
  { apply (stage_try_finally _ (sent_download sv) (sent_download sv)).
    - intros s (Hs & Hp & Hdone). rewrite Hp. unfold Upload.await.
      assert (Hsent : forall p, sent_download sv
                {| Upload.present := p;
                   Upload.trace := Upload.trace s ++ [Upload.send_document true] |}).
      { intros p b Hin. simpl in *. apply elem_of_app in Hin as [Hin|Hin].
        - by apply Hs in Hin.
        - apply list_elem_of_singleton in Hin. by injection Hin as ->. }
      destruct (Upload.raises sv _); simpl; apply Hsent.
    - apply if_exists_keeps, await_keeps. intros s p Hs Hp. kept sent_download_kept.
    - apply if_exists_keeps, await_keeps. intros s p Hs Hp. kept sent_download_kept. }
  intros _. apply (stage_bind _ (sent_download sv)).
  - apply handle_file_upload_keeps. intros c Hc _ _ _. by apply sent_download_kept.
  - intros _. apply await_keeps. intros s p Hs Hp. kept sent_download_kept.
Qed.

Lemma unsent_start (file_there : bool) : unsent (Upload.start file_there).
Proof. intros b Hin. by apply elem_of_nil in Hin. Qed.

(** [url_upload_handler] of [bot.py] sends a document only after the
    transfer has completed - the status was 200, the file was opened and
    every chunk was written - and the file is there when it is sent. *)
Theorem bot_sends_the_download (sv : Upload.services) (link : string -> string)
    (file_there b : bool) :
  Upload.send_document b
    ∈ Upload.trace (BotUpload.url_upload_handler sv link (Upload.start file_there)).1 ->
  b = true
  /\ Upload.raises sv Upload.http_get = None
  /\ Upload.response_status sv = 200
  /\ Upload.raises sv Upload.open_file = None
  /\ Upload.raises sv Upload.write_chunks = None.
Proof.
  intros Hin.
  pose proof (bot_handler_sent sv link _ (unsent_start file_there)) as H.
  destruct ((BotUpload.url_upload_handler sv link (Upload.start file_there)).2);
    by apply H.
Qed.

Lemma unsent_sent_nothing s : unsent s -> sent_nothing s.
Proof. intros Hs b Hin. by apply Hs in Hin. Qed.

Lemma pending_kept c :
  (forall b, c <> Upload.send_document b) -> c <> Upload.write_chunks ->
  c <> Upload.open_file -> c <> Upload.remove_file -> kept_by c pending.
Proof.
  intros Hc Hw Ho Hr s p [Hs Hp] Hpres. split; [by apply (unsent_kept c Hc s p)|].
  simpl. intros Hin. apply elem_of_app in Hin as [Hin|Hin].
  - destruct Hpres as [->| ->]; [by apply Hp|]. destruct c; simpl; try done; by apply Hp.
  - by apply list_elem_of_singleton in Hin.
Qed.

Lemma sent_nothing_kept c :
  (forall b, c <> Upload.send_document b) -> c <> Upload.write_chunks ->
  kept_by c sent_nothing.
Proof.
  intros Hc Hw s p Hs _ b Hin. simpl in *. apply elem_of_app in Hin as [Hin|Hin].
  - destruct (Hs b Hin) as [-> Hn]. split; [done|]. intros Hin'.
    apply elem_of_app in Hin' as [Hin'|Hin']; [done|].
    by apply list_elem_of_singleton in Hin'.
  - apply list_elem_of_singleton in Hin. by destruct (Hc b).
Qed.

Lemma app_transfer (sv : Upload.services) :
  stage pending (Upload.transfer sv) pending pending.
Proof.
  unfold Upload.transfer.
  apply (stage_bind _ pending).
  { apply await_keeps. by apply pending_kept. }
  intros _. destruct (negb (Upload.response_status sv =? 200)).
  - apply (stage_bind _ pending).
    + apply await_keeps. by apply pending_kept.
    + intros _. by apply stage_return.
  - apply (stage_bind _ (fun s => unsent s /\ Upload.present s = true)).
    + apply stage_await.
      * intros s [Hs Hp]. split; [kept unsent_kept|]. simpl. intros Hin.
        apply elem_of_app in Hin as [Hin|Hin]; [by apply Hp|].
        by apply list_elem_of_singleton in Hin.
      * intros s [Hs Hp]. split; [kept unsent_kept|done].
    + intros _. apply stage_await; intros s [Hs Hp]; (split; [kept unsent_kept|done]).
Qed.

Lemma app_handler_sent (sv : Upload.services) (link : string -> string) :
  stage pending (AppUpload.url_upload_handler sv link) sent_nothing sent_nothing.
Proof.
  assert (Hps : forall s, pending s -> sent_nothing s).
  { intros s [Hs _]. by apply unsent_sent_nothing. }
  unfold AppUpload.url_upload_handler.
  apply (stage_bind _ pending).
  { apply (stage_weaken _ pending _ pending _ pending); [|done|done|done].
    apply prepare_keeps; intros; by apply pending_kept. }
  intros _. apply (stage_bind _ pending).
  { apply (stage_try_except _ pending); [apply app_transfer|done|].
    intros e. apply (stage_weaken _ pending _ pending _ pending); [|done|done|done].
    apply await_keeps. by apply pending_kept. }
  intros _. apply (stage_bind _ nothing_written).
  { apply stage_if_exists.
    - apply (stage_bind _ unsent).
      + apply stage_await; intros s [[Hs _] _]; [apply unsent_sent_nothing|];
          kept unsent_kept.
      + intros _. apply stage_return. apply unsent_sent_nothing.
    - intros s [Hs Hp] Hno. split; [done|]. split; [|done].
      intros Hin. apply Hp in Hin. congruence. }
  intros _.
  apply (stage_try_finally _ sent_nothing sent_nothing).
  - apply (stage_bind _ sent_nothing).
    { intros s (Hs & Hw & Hp). rewrite Hp. unfold Upload.await.
      assert (Hsent : forall p, sent_nothing
                {| Upload.present := p;
                   Upload.trace := Upload.trace s ++ [Upload.send_document false] |}).
      { intros p b Hin. simpl in *. apply elem_of_app in Hin as [Hin|Hin].
        - by apply Hs in Hin.
        - apply list_elem_of_singleton in Hin. injection Hin as ->.
          split; [done|]. intros Hin. apply elem_of_app in Hin as [Hin|Hin]; [done|].
          by apply list_elem_of_singleton in Hin. }
      destruct (Upload.raises sv _); simpl; apply Hsent. }
    intros _. apply (stage_bind _ sent_nothing).
    + apply handle_file_upload_keeps. intros c Hc Hw _ _. by apply sent_nothing_kept.
    + intros _. apply await_keeps. by apply sent_nothing_kept.
  - apply if_exists_keeps, await_keeps. by apply sent_nothing_kept.
  - apply if_exists_keeps, await_keeps. by apply sent_nothing_kept.
Qed.

(** [url_upload_handler] of [app.py] never sends what it downloaded: when
    it sends a document, the file is not there and no chunk was written
    to it. *)
Theorem app_never_sends_the_download (sv : Upload.services) (link : string -> string)
    (file_there b : bool) :
  Upload.send_document b
    ∈ Upload.trace (AppUpload.url_upload_handler sv link (Upload.start file_there)).1 ->
  b = false
  /\ Upload.write_chunks
       ∉ Upload.trace (AppUpload.url_upload_handler sv link (Upload.start file_there)).1.
Proof.
  intros Hin.
  assert (Hstart : pending (Upload.start file_there)).
  { split; [apply unsent_start|]. intros H. by apply elem_of_nil in H. }
  pose proof (app_handler_sent sv link _ Hstart) as H.
  destruct ((AppUpload.url_upload_handler sv link (Upload.start file_there)).2);
    by apply H.
Qed.

(** When the URL names a file and the transfer completes,
    [url_upload_handler] of [app.py] removes the file on line 67 and
    returns: after the notice that the link is being processed, nothing is
    sent, saved or told to the user. *)
Theorem app_drops_the_download (sv : Upload.services) (link : string -> string)
    (file_there : bool) (name : string) :
  (2 <= length (Upload.command sv))%nat ->
  Upload.basename sv = Ok name ->
  Py.truthy name = true ->
  Upload.raises sv (Upload.reply_text Upload.Processing) = None ->
  (Upload.downloads_exists sv = false -> Upload.raises sv Upload.makedirs = None) ->
  Upload.raises sv Upload.http_get = None ->
  Upload.response_status sv = 200 ->
  Upload.raises sv Upload.open_file = None ->
  Upload.raises sv Upload.write_chunks = None ->
  let r := AppUpload.url_upload_handler sv link (Upload.start file_there) in
  Upload.trace r.1
  = Upload.reply_text Upload.Processing
    :: (if Upload.downloads_exists sv then [] else [Upload.makedirs])
    ++ [Upload.http_get; Upload.open_file; Upload.write_chunks; Upload.remove_file]
  /\ r.2 = match Upload.raises sv Upload.remove_file with
           | Some e => Upload.Thrown e
           | None => Upload.Returned
           end.
Proof.
  intros Hcmd Hbase Hname Hreply Hdir Hget Hst Hopen Hwrite r. subst r.
  unfold AppUpload.url_upload_handler, Upload.prepare, Upload.file_name,
    Upload.transfer.
  assert (Hlen : (length (Upload.command sv) <? 2)%nat = false)
    by (apply Nat.ltb_ge; lia).
  rewrite Hlen, Hbase, Hname, Hst. unfold mbind, Upload.proc_bind, Upload.try_except,
    Upload.if_exists, Upload.await, Upload.start. simpl. rewrite Hreply. simpl.
  destruct (Upload.downloads_exists sv); simpl.
  - rewrite Hget; simpl. rewrite Hopen; simpl. rewrite Hwrite; simpl.
    by destruct (Upload.raises sv Upload.remove_file).
  - rewrite (Hdir eq_refl); simpl. rewrite Hget; simpl. rewrite Hopen; simpl.
    rewrite Hwrite; simpl. by destruct (Upload.raises sv Upload.remove_file).
Qed.

(** [handle_file_upload] gives out a link only after the message was
    copied to the storage channel and the link was saved, and the link is
    the one of the saved identifier.  An exception leaves it only if it is
    no [Exception], or if the apology itself could not be sent. *)
Theorem link_only_after_save (sv : Upload.services) (link : string -> string)
    (file_there : bool) :
  let r := Upload.handle_file_upload sv link (Upload.start file_there) in
  (forall u, Upload.reply_text (Upload.LinkReady u) ∈ Upload.trace r.1 ->
     u = link (Upload.token sv)
     /\ Upload.raises sv Upload.copy_message = None
     /\ Upload.raises sv (Upload.save_link (Upload.token sv) (Upload.copied_id sv)) = None
     /\ Upload.save_link (Upload.token sv) (Upload.copied_id sv) ∈ Upload.trace r.1)
  /\ (forall e, r.2 = Upload.Thrown e ->
        is_Exception e = false
        \/ Upload.raises sv (Upload.reply_text Upload.Sorry) = Some e).
Proof.
  intros r. subst r.
  unfold Upload.handle_file_upload, Upload.try_except, mbind, Upload.proc_bind,
    Upload.await, Upload.start. simpl.
  destruct (Upload.raises sv Upload.copy_message) as [e1|] eqn:E1; simpl.
  { destruct (is_Exception e1) eqn:X1; simpl.
    - destruct (Upload.raises sv (Upload.reply_text Upload.Sorry)) as [e4|] eqn:ES; simpl;
        (split; [intros u Hin; in_trace|intros e [= <-]; auto]).
    - split; [intros u Hin; in_trace|intros e [= <-]; auto]. }
  destruct (Upload.raises sv (Upload.save_link _ _)) as [e2|] eqn:E2; simpl.
  { destruct (is_Exception e2) eqn:X2; simpl.
    - destruct (Upload.raises sv (Upload.reply_text Upload.Sorry)) as [e4|] eqn:ES; simpl;
        (split; [intros u Hin; in_trace|intros e [= <-]; auto]).
    - split; [intros u Hin; in_trace|intros e [= <-]; auto]. }
  assert (Hsaved : forall l,
            Upload.save_link (Upload.token sv) (Upload.copied_id sv)
            ∈ Upload.copy_message
              :: Upload.save_link (Upload.token sv) (Upload.copied_id sv) :: l).
  { intros l. apply list_elem_of_further, list_elem_of_here. }
  destruct (Upload.raises sv (Upload.reply_text (Upload.LinkReady _))) as [e3|] eqn:E3;
    simpl.
  { destruct (is_Exception e3) eqn:X3; simpl.
    - destruct (Upload.raises sv (Upload.reply_text Upload.Sorry)) as [e4|] eqn:ES; simpl;
        (split; [intros u Hin; in_trace; injection Hin as ->; auto
                |intros e [= <-]; auto]).
    - split; [intros u Hin; in_trace; injection Hin as ->; auto|intros e [= <-]; auto]. }
  split; [intros u Hin; in_trace; injection Hin as ->; auto|done].
Qed.

Lemma bot_sends_the_download_witness :
  true = true
  /\ Upload.raises UploadExamples.fine Upload.http_get = None
  /\ Upload.response_status UploadExamples.fine = 200
  /\ Upload.raises UploadExamples.fine Upload.open_file = None
  /\ Upload.raises UploadExamples.fine Upload.write_chunks = None.
Proof.
  apply (bot_sends_the_download UploadExamples.fine UploadExamples.bot_link false true).
  vm_compute. repeat constructor.
Defined.

Lemma app_never_sends_the_download_witness :
  false = false
  /\ Upload.write_chunks
       ∉ Upload.trace (AppUpload.url_upload_handler UploadExamples.unreachable
                         UploadExamples.app_link (Upload.start false)).1.
Proof.
  apply (app_never_sends_the_download UploadExamples.unreachable UploadExamples.app_link
           false false).
  vm_compute. repeat constructor.
Defined.

Lemma app_drops_the_download_witness :
  Upload.trace (AppUpload.url_upload_handler UploadExamples.fine
                  UploadExamples.app_link (Upload.start false)).1
  = [Upload.reply_text Upload.Processing; Upload.http_get; Upload.open_file;
     Upload.write_chunks; Upload.remove_file]
  /\ (AppUpload.url_upload_handler UploadExamples.fine
        UploadExamples.app_link (Upload.start false)).2 = Upload.Returned.
Proof.
  apply (app_drops_the_download UploadExamples.fine UploadExamples.app_link false
           "file.bin");
    first [reflexivity | simpl; lia | intros [=]].
Defined.

Example bot_upload_trace :
  Upload.trace (BotUpload.url_upload_handler UploadExamples.fine
                  UploadExamples.bot_link (Upload.start false)).1
  = [Upload.reply_text Upload.Processing; Upload.http_get; Upload.open_file;
     Upload.write_chunks; Upload.send_document true; Upload.remove_file;
     Upload.copy_message; Upload.save_link "q1w2e3r4t5y" 7;
     Upload.reply_text (Upload.LinkReady "https://blog/?id=q1w2e3r4t5y");
     Upload.delete_status].
Proof. reflexivity. Qed.

Example app_upload_trace_unreachable :
  Upload.trace (AppUpload.url_upload_handler UploadExamples.unreachable
                  UploadExamples.app_link (Upload.start false)).1
  = [Upload.reply_text Upload.Processing; Upload.http_get;
     Upload.edit_text (Upload.DownloadError (RPCError 502));
     Upload.send_document false].
Proof. reflexivity. Qed.

(** For a URL whose path names no file, [url_upload_handler] of [app.py]
    stops at the unimported [time] before it makes any call. *)
Example app_upload_without_file_name :
  AppUpload.url_upload_handler UploadExamples.nameless UploadExamples.app_link
    (Upload.start false)
  = (Upload.start false, Upload.Thrown (NameError "time")).
Proof. reflexivity. Qed.
